(** * E-commerce analytics: sales-fact pipeline and business metrics

    A shallow embedding of [data_loader.py] and [business_metrics.py].

    Modelling conventions.
    - A [DataFrame] is the list of its rows, in positional order; the row
      index labels are not modelled.
    - A float64 value is an exact rational ([Qc]), or one of the IEEE special
      values; rounding is not modelled.  Amounts in the [price] column are
      finite.  A property that compares two sums computed on different
      paths is stated for tables on which float64 adds without rounding
      ([exact_prices]).  A null cell (NaN / None / NaT) of a nullable column
      is [None] (or [NaT] for a date cell).
    - A datetime64[ns] value is the number of nanoseconds since
      1970-01-01T00:00:00 as a [Z], kept inside the signed 64-bit range.
    - A raised exception is the [Raise] case of [result]. *)

From Stdlib Require Import ZArith QArith Qcanon Bool Lia Permutation Sorted.
From stdpp Require Import base option list numbers strings.
From stdpp Require Import sorting.

Local Open Scope Z_scope.

(** ** The pandas / numpy operations the source calls *)

Module pandas.

Inductive exn :=
| ValueError (msg : string)
| DateParseError (text : string)
| OutOfBoundsDatetime
| InvalidReference.   (* a reference to no object; Python never produces one *)

Inductive result (A : Type) :=
| Ok (a : A)
| Raise (e : exn).
Arguments Ok {A} a.
Arguments Raise {A} e.

Definition bind {A B} (x : result A) (k : A → result B) : result B :=
  match x with
  | Ok a => k a
  | Raise e => Raise e
  end.

#[global] Instance result_ret : MRet result := @Ok.
#[global] Instance result_bind : MBind result := λ A B k x, bind x k.

Fixpoint mapM {A B} (f : A → result B) (l : list A) : result (list B) :=
  match l with
  | [] => Ok []
  | x :: t => y ← f x; ys ← mapM f t; Ok (y :: ys)
  end.

(** *** float64 scalars *)

Inductive fnum :=
| Fin (q : Qc)
| Inf (negative : bool)
| NaN.

#[global] Instance fnum_eq_dec : EqDecision fnum.
Proof. solve_decision. Defined.

Definition Qc_ltb (a b : Qc) : bool := negb (Qle_bool b a).
Definition Qc_leb (a b : Qc) : bool := Qle_bool a b.
Definition Qc_eqb (a b : Qc) : bool := Qeq_bool a b.

(** [x == 0] on floats: false for NaN and the infinities. *)
Definition fis_zero (x : fnum) : bool :=
  match x with
  | Fin q => Qc_eqb q 0
  | _ => false
  end.

Definition fnotna (x : fnum) : bool :=
  match x with
  | NaN => false
  | _ => true
  end.

Definition fsub (x y : fnum) : fnum :=
  match x, y with
  | NaN, _ | _, NaN => NaN
  | Fin a, Fin b => Fin (a - b)%Qc
  | Inf s, Fin _ => Inf s
  | Fin _, Inf s => Inf (negb s)
  | Inf s, Inf s' => if eqb s s' then NaN else Inf s
  end.

(** numpy division: a zero divisor gives an infinity, or NaN for 0/0. *)
Definition fdiv (x y : fnum) : fnum :=
  match x, y with
  | NaN, _ | _, NaN => NaN
  | Fin a, Fin b =>
      if Qc_eqb b 0
      then (if Qc_eqb a 0 then NaN else Inf (Qc_ltb a 0))
      else Fin (a / b)%Qc
  | Fin _, Inf _ => Fin 0%Qc
  | Inf s, Fin b => Inf (xorb s (Qc_ltb b 0))
  | Inf _, Inf _ => NaN
  end.

Definition Qc_of_Z (n : Z) : Qc := Q2Qc (inject_Z n).
Definition Qc_of_nat (n : nat) : Qc := Qc_of_Z (Z.of_nat n).

Definition Qc_sum (l : list Qc) : Qc := foldr Qcplus 0%Qc l.

(** [Series.sum()], in exact arithmetic. *)
Definition sum (l : list Qc) : Qc := Qc_sum l.

(** [Series.mean()] with the default [skipna=True]: the nulls are left
    out, and the mean of nothing is NaN. *)
Definition mean (l : list (option Qc)) : fnum :=
  let present := omap id l in
  match present with
  | [] => NaN
  | _ => Fin (Qc_sum present / Qc_of_nat (length present))%Qc
  end.

(** [Series.nunique()] and the key factorisation of [groupby]: the
    distinct values in order of first appearance. *)
Fixpoint unique `{EqDecision A} (l : list A) : list A :=
  match l with
  | [] => []
  | x :: t => x :: List.filter (λ y, negb (bool_decide (y = x))) (unique t)
  end.

(** A stable sort by a boolean "comes no later than" test.  The default
    sort of pandas does not promise an order among equal keys; the model
    keeps them in their previous order. *)
Section sort.
Context {A : Type} (leb : A → A → bool).

Fixpoint insert_sorted (x : A) (l : list A) : list A :=
  match l with
  | [] => [x]
  | y :: t => if leb x y then x :: l else y :: insert_sorted x t
  end.

Definition sort (l : list A) : list A := foldr insert_sorted [] l.
End sort.

(** [df.groupby(key)[col].agg()] with the defaults [sort=True] and
    [dropna=True]: rows whose key is null belong to no group; there is one
    output row per distinct key, in ascending key order, holding the
    aggregate of the rows of that group in their original order. *)
Section groupby.
Context {Row K V : Type} `{EqDecision K}.
Variable key_leb : K → K → bool.
Variable key : Row → option K.
Variable agg : list Row → V.

Definition group_keys (rows : list Row) : list K :=
  sort key_leb (unique (omap key rows)).

Definition group_rows (k : K) (rows : list Row) : list Row :=
  List.filter (λ r, bool_decide (key r = Some k)) rows.

Definition groupby (rows : list Row) : list (K * V) :=
  map (λ k, (k, agg (group_rows k rows))) (group_keys rows).
End groupby.

(** The rows whose key is one of [ks]. *)
Definition keyed_in {Row K} `{EqDecision K} (key : Row → option K)
    (ks : list K) (r : Row) : bool :=
  match key r with
  | Some k => bool_decide (k ∈ ks)
  | None => false
  end.

Definition string_leb (a b : string) : bool := String.leb a b.

Definition pair_leb (a b : Z * Z) : bool :=
  (a.1 <? b.1) || ((a.1 =? b.1) && (a.2 <=? b.2)).

(** [Series.pct_change()]: [data / data.shift(1) - 1]; the shifted series
    starts with NaN. *)
Fixpoint pct_change_from (prev : fnum) (xs : list Qc) : list fnum :=
  match xs with
  | [] => []
  | x :: t => fsub (fdiv (Fin x) prev) (Fin 1%Qc) :: pct_change_from (Fin x) t
  end.

Definition pct_change (xs : list Qc) : list fnum := pct_change_from NaN xs.

(** [DataFrame.drop_duplicates()] (keep='first'); two nulls in the same
    column count as equal. *)
Definition drop_duplicates `{EqDecision A} (l : list A) : list A := unique l.

(** *** Timestamps: datetime64[ns] *)

Definition ns_per_second : Z := 1000000000.
Definition ns_per_day : Z := 86400 * ns_per_second.

(** The most negative int64 is the NaT sentinel. *)
Definition in_bounds (v : Z) : bool := (- 2 ^ 63 <? v) && (v <? 2 ^ 63).

Definition is_leapyear (y : Z) : bool :=
  (y mod 4 =? 0) && (negb (y mod 100 =? 0) || (y mod 400 =? 0)).

Definition days_per_month (leap : bool) (m : Z) : Z :=
  match m with
  | 1 | 3 | 5 | 7 | 8 | 10 | 12 => 31
  | 4 | 6 | 9 | 11 => 30
  | 2 => if leap then 29 else 28
  | _ => 0
  end.

(** Days from 1970-01-01 to January 1st of year [y] (proleptic
    Gregorian calendar). *)
Definition days_before_year (y : Z) : Z :=
  365 * (y - 1970) + (y - 1969) / 4 - (y - 1901) / 100 + (y - 1601) / 400.

Definition days_before_month (leap : bool) (m : Z) : Z :=
  foldr Z.add 0 (map (λ i, days_per_month leap (Z.of_nat i)) (seq 1 (Z.to_nat (m - 1)))).

Definition days_from_civil (y m d : Z) : Z :=
  days_before_year y + days_before_month (is_leapyear y) m + (d - 1).

(** [pd.Timestamp(year=y, month=m, day=d)] at midnight. *)
Definition Timestamp (y m d : Z) : result Z :=
  if negb ((1 <=? y) && (y <=? 9999)) then Raise (ValueError "year is out of range")
  else if negb ((1 <=? m) && (m <=? 12)) then Raise (ValueError "month must be in 1..12")
  else if negb ((1 <=? d) && (d <=? days_per_month (is_leapyear y) m))
  then Raise (ValueError "day is out of range for month")
  else
    let v := days_from_civil y m d * ns_per_day in
    if in_bounds v then Ok v else Raise OutOfBoundsDatetime.

(** [pd.Timedelta(days=, hours=, minutes=, seconds=)] in nanoseconds. *)
Definition Timedelta (days hours minutes seconds : Z) : Z :=
  (((days * 24 + hours) * 60 + minutes) * 60 + seconds) * ns_per_second.

(** Timestamp plus or minus a Timedelta, with the overflow check. *)
Definition ts_add (t delta : Z) : result Z :=
  let v := t + delta in
  if in_bounds v then Ok v else Raise OutOfBoundsDatetime.

Definition ts_sub (t delta : Z) : result Z := ts_add t (- delta).

(** A cell of a date column: text not yet parsed, a timestamp, or null. *)
Inductive datecell :=
| Raw (text : string)
| Ts (ns : Z)
| NaT.

(** Element-wise [>=] and [<=] of a datetime column against a Timestamp;
    a comparison with NaT is False. *)
Definition cell_ge (c : datecell) (t : Z) : bool :=
  match c with
  | Ts ns => t <=? ns
  | _ => false
  end.

Definition cell_le (c : datecell) (t : Z) : bool :=
  match c with
  | Ts ns => ns <=? t
  | _ => false
  end.

(** [pd.to_datetime] on one cell (errors='raise').  The text parser of
    pandas is a parameter; every text goes to it, also the few texts that
    pandas reads as null itself. *)
Definition to_datetime_cell (parse : string → option Z) (c : datecell) : result datecell :=
  match c with
  | Raw s =>
      match parse s with
      | Some ns => Ok (Ts ns)
      | None => Raise (DateParseError s)
      end
  | Ts ns => Ok (Ts ns)
  | NaT => Ok NaT
  end.

(** [(a - b).dt.days]: whole days, rounded towards minus infinity; null
    when either side is null.  The difference is taken in [Z]; pandas
    raises OverflowError when it does not fit into 64 bits. *)
Definition days_between (a b : datecell) : option Z :=
  match a, b with
  | Ts x, Ts y => Some ((x - y) / ns_per_day)
  | _, _ => None
  end.

(** *** Calendar fields of a timestamp: [.dt.year], [.dt.month] *)

(** The year that contains day number [days]: the first year, from a lower
    estimate on, whose following January 1st lies after that day. *)
Fixpoint find_year (fuel : nat) (y : Z) (days : Z) : Z :=
  match fuel with
  | O => y
  | S fuel' =>
      if days <? days_before_year (y + 1) then y
      else find_year fuel' (y + 1) days
  end.

Definition year_of_days (days : Z) : Z :=
  find_year (Z.to_nat (Z.abs days / 100000) + 3)
            (1970 + Z.min (days / 365) (days / 366)) days.

(** The month that contains day [day_of_year] (from 0) of a year: month
    lengths are taken off until the rest fits into a month. *)
Fixpoint find_month (fuel : nat) (leap : bool) (m : Z) (day_of_year : Z) : Z :=
  match fuel with
  | O => m
  | S fuel' =>
      if day_of_year <? days_per_month leap m then m
      else find_month fuel' leap (m + 1) (day_of_year - days_per_month leap m)
  end.

Definition month_of_days (days : Z) : Z :=
  let y := year_of_days days in
  find_month 11 (is_leapyear y) 1 (days - days_before_year y).

Definition dt_year (c : datecell) : option Z :=
  match c with
  | Ts ns => Some (year_of_days (ns / ns_per_day))
  | _ => None
  end.

Definition dt_month (c : datecell) : option Z :=
  match c with
  | Ts ns => Some (month_of_days (ns / ns_per_day))
  | _ => None
  end.

(** *** [pd.merge(left, right, on=key, how=...)]

    The rows of the result follow the rows of [left]; a left row that
    matches several right rows appears once per match, in the order of
    [right].  Keys are not null. *)
Section merge.
Context {L R K O : Type} `{EqDecision K}.
Variable left_on : L → K.
Variable right_on : R → K.

Definition matching (l : L) (right : list R) : list R :=
  List.filter (λ r, bool_decide (right_on r = left_on l)) right.

(** how='inner': a left row without match is dropped. *)
Definition merge_inner (combine : L → R → O)
    (left : list L) (right : list R) : list O :=
  flat_map (λ l, map (combine l) (matching l right)) left.

(** how='left': a left row without match is kept, with nulls in the
    columns of [right]. *)
Definition merge_left (combine : L → option R → O)
    (left : list L) (right : list R) : list O :=
  flat_map (λ l, match matching l right with
                 | [] => [combine l None]
                 | rs => map (λ r, combine l (Some r)) rs
                 end) left.
End merge.

(** *** [Series.value_counts()]

    Nulls are not counted.  One row per distinct value, by decreasing
    count; [normalize=True] divides each count by the number of values
    counted. *)
Definition occurrences `{EqDecision A} (x : A) (l : list A) : nat :=
  length (List.filter (λ y, bool_decide (y = x)) l).

Definition by_count_desc {A} (a b : A * nat) : bool := (b.2 <=? a.2)%nat.

Definition value_counts `{EqDecision A} (col : list (option A)) : list (A * nat) :=
  let present := omap id col in
  sort by_count_desc (map (λ x, (x, occurrences x present)) (unique present)).

Definition value_counts_normalized `{EqDecision A} (col : list (option A))
    : list (A * Qc) :=
  let total := Qc_of_nat (length (omap id col)) in
  map (λ c, (c.1, (Qc_of_nat c.2 / total)%Qc)) (value_counts col).

(** [Series.sort_index()] on a series indexed by values of type [A]. *)
Definition sort_index {A V} (leb : A → A → bool) (s : list (A * V)) : list (A * V) :=
  sort (λ a b, leb a.1 b.1) s.

End pandas.

(** ** The sales fact table *)

(** One row per (order_id, order_item_id), with the columns the pipeline
    attaches; a column not attached yet holds nulls. *)
Record SalesRow := {
  order_id : string;
  order_item_id : Z;
  product_id : string;
  price : Qc;
  freight_value : Qc;
  customer_id : string;
  order_status : string;
  order_purchase_timestamp : pandas.datecell;
  order_delivered_customer_date : pandas.datecell;
  year : option Z;
  month : option Z;
  product_category_name : option string;
  customer_state : option string;
  customer_city : option string;
  review_score : option Z;
  delivery_speed_days : option Z;
  delivery_category : option string
}.

Abbreviation DataFrame := (list SalesRow).

Definition set_order_purchase_timestamp (c : pandas.datecell) (r : SalesRow) : SalesRow :=
  {| order_id := order_id r; order_item_id := order_item_id r;
     product_id := product_id r; price := price r;
     freight_value := freight_value r; customer_id := customer_id r;
     order_status := order_status r;
     order_purchase_timestamp := c;
     order_delivered_customer_date := order_delivered_customer_date r;
     year := year r; month := month r;
     product_category_name := product_category_name r;
     customer_state := customer_state r; customer_city := customer_city r;
     review_score := review_score r;
     delivery_speed_days := delivery_speed_days r;
     delivery_category := delivery_category r |}.

Definition set_order_delivered_customer_date (c : pandas.datecell) (r : SalesRow) : SalesRow :=
  {| order_id := order_id r; order_item_id := order_item_id r;
     product_id := product_id r; price := price r;
     freight_value := freight_value r; customer_id := customer_id r;
     order_status := order_status r;
     order_purchase_timestamp := order_purchase_timestamp r;
     order_delivered_customer_date := c;
     year := year r; month := month r;
     product_category_name := product_category_name r;
     customer_state := customer_state r; customer_city := customer_city r;
     review_score := review_score r;
     delivery_speed_days := delivery_speed_days r;
     delivery_category := delivery_category r |}.

Definition set_delivery_speed_days (d : option Z) (r : SalesRow) : SalesRow :=
  {| order_id := order_id r; order_item_id := order_item_id r;
     product_id := product_id r; price := price r;
     freight_value := freight_value r; customer_id := customer_id r;
     order_status := order_status r;
     order_purchase_timestamp := order_purchase_timestamp r;
     order_delivered_customer_date := order_delivered_customer_date r;
     year := year r; month := month r;
     product_category_name := product_category_name r;
     customer_state := customer_state r; customer_city := customer_city r;
     review_score := review_score r;
     delivery_speed_days := d;
     delivery_category := delivery_category r |}.

Definition set_delivery_category (c : option string) (r : SalesRow) : SalesRow :=
  {| order_id := order_id r; order_item_id := order_item_id r;
     product_id := product_id r; price := price r;
     freight_value := freight_value r; customer_id := customer_id r;
     order_status := order_status r;
     order_purchase_timestamp := order_purchase_timestamp r;
     order_delivered_customer_date := order_delivered_customer_date r;
     year := year r; month := month r;
     product_category_name := product_category_name r;
     customer_state := customer_state r; customer_city := customer_city r;
     review_score := review_score r;
     delivery_speed_days := delivery_speed_days r;
     delivery_category := c |}.

(** ** The source tables *)

(** The columns of the raw tables that the pipeline reads. *)
Record OrderItem := {
  oi_order_id : string;
  oi_order_item_id : Z;
  oi_product_id : string;
  oi_price : Qc;
  oi_freight_value : Qc
}.

Record Order := {
  o_order_id : string;
  o_customer_id : string;
  o_order_status : string;
  o_order_purchase_timestamp : pandas.datecell;
  o_order_approved_at : pandas.datecell;
  o_order_delivered_carrier_date : pandas.datecell;
  o_order_delivered_customer_date : pandas.datecell;
  o_order_estimated_delivery_date : pandas.datecell;
  o_year : option Z;
  o_month : option Z
}.

Record Product := {
  p_product_id : string;
  p_product_category_name : option string
}.

Record Customer := {
  c_customer_id : string;
  c_customer_state : option string;
  c_customer_city : option string
}.

Record Review := {
  rv_order_id : string;
  rv_review_score : option Z;
  rv_review_creation_date : pandas.datecell;
  rv_review_answer_timestamp : pandas.datecell
}.

(** The row [pd.merge] builds from a line item and its order. *)
Definition sales_row (i : OrderItem) (o : Order) : SalesRow :=
  {| order_id := oi_order_id i; order_item_id := oi_order_item_id i;
     product_id := oi_product_id i; price := oi_price i;
     freight_value := oi_freight_value i;
     customer_id := o_customer_id o; order_status := o_order_status o;
     order_purchase_timestamp := o_order_purchase_timestamp o;
     order_delivered_customer_date := o_order_delivered_customer_date o;
     year := o_year o; month := o_month o;
     product_category_name := None;
     customer_state := None; customer_city := None;
     review_score := None;
     delivery_speed_days := None; delivery_category := None |}.

Definition set_product_category (c : option string) (r : SalesRow) : SalesRow :=
  {| order_id := order_id r; order_item_id := order_item_id r;
     product_id := product_id r; price := price r;
     freight_value := freight_value r; customer_id := customer_id r;
     order_status := order_status r;
     order_purchase_timestamp := order_purchase_timestamp r;
     order_delivered_customer_date := order_delivered_customer_date r;
     year := year r; month := month r;
     product_category_name := c;
     customer_state := customer_state r; customer_city := customer_city r;
     review_score := review_score r;
     delivery_speed_days := delivery_speed_days r;
     delivery_category := delivery_category r |}.

Definition set_customer_geography (state city : option string) (r : SalesRow) : SalesRow :=
  {| order_id := order_id r; order_item_id := order_item_id r;
     product_id := product_id r; price := price r;
     freight_value := freight_value r; customer_id := customer_id r;
     order_status := order_status r;
     order_purchase_timestamp := order_purchase_timestamp r;
     order_delivered_customer_date := order_delivered_customer_date r;
     year := year r; month := month r;
     product_category_name := product_category_name r;
     customer_state := state; customer_city := city;
     review_score := review_score r;
     delivery_speed_days := delivery_speed_days r;
     delivery_category := delivery_category r |}.

Definition set_review_score (s : option Z) (r : SalesRow) : SalesRow :=
  {| order_id := order_id r; order_item_id := order_item_id r;
     product_id := product_id r; price := price r;
     freight_value := freight_value r; customer_id := customer_id r;
     order_status := order_status r;
     order_purchase_timestamp := order_purchase_timestamp r;
     order_delivered_customer_date := order_delivered_customer_date r;
     year := year r; month := month r;
     product_category_name := product_category_name r;
     customer_state := customer_state r; customer_city := customer_city r;
     review_score := s;
     delivery_speed_days := delivery_speed_days r;
     delivery_category := delivery_category r |}.

Definition set_order_dates (purchase approved carrier delivered estimated : pandas.datecell)
    (y m : option Z) (o : Order) : Order :=
  {| o_order_id := o_order_id o; o_customer_id := o_customer_id o;
     o_order_status := o_order_status o;
     o_order_purchase_timestamp := purchase;
     o_order_approved_at := approved;
     o_order_delivered_carrier_date := carrier;
     o_order_delivered_customer_date := delivered;
     o_order_estimated_delivery_date := estimated;
     o_year := y; o_month := m |}.

(** ** data_loader.py *)

Module data_loader.
Import pandas.

(** [days <= n] on a float that may be NaN: a comparison with NaN is
    False. *)
Definition days_le (days : option Z) (n : Z) : bool :=
  match days with
  | Some d => d <=? n
  | None => false
  end.

Definition categorize_delivery_speed (days : option Z) : string :=
  if days_le days 3 then "1-3 days"
  else if days_le days 7 then "4-7 days"
  else "8+ days".

(** [df['delivery_category'] =
      df['delivery_speed_days'].apply(dl.categorize_delivery_speed)],
    the statement every caller runs after [calculate_delivery_speed]. *)
Definition assign_delivery_category (sales_data : DataFrame) : DataFrame :=
  map (λ r, set_delivery_category
              (Some (categorize_delivery_speed (delivery_speed_days r))) r)
      sales_data.

(** [create_sales_dataset]: inner merge of the line items with the orders
    on order_id, then the status filter; an empty [status_filter] is falsy
    and keeps every status. *)
Definition create_sales_dataset (order_items : list OrderItem) (orders : list Order)
    (status_filter : string) : DataFrame :=
  let sales_data := merge_inner oi_order_id o_order_id sales_row order_items orders in
  if bool_decide (status_filter = "") then sales_data
  else List.filter (λ r, bool_decide (order_status r = status_filter)) sales_data.

(** [add_product_categories]: left merge with the product table on
    product_id. *)
Definition add_product_categories (sales_data : DataFrame) (products : list Product)
    : DataFrame :=
  merge_left product_id p_product_id
             (λ r p, set_product_category (p ≫= p_product_category_name) r)
             sales_data products.

(** [add_customer_geography]: a [SalesRow] always carries customer_id, so
    the merge with [orders] that would fetch it is not taken; left merge
    with the customer table on customer_id. *)
Definition add_customer_geography (sales_data : DataFrame) (orders : list Order)
    (customers : list Customer) : DataFrame :=
  let sales_with_customer := sales_data in
  merge_left customer_id c_customer_id
             (λ r c, set_customer_geography (c ≫= c_customer_state)
                                            (c ≫= c_customer_city) r)
             sales_with_customer customers.

(** [add_review_scores]: left merge with the review table on order_id. *)
Definition add_review_scores (sales_data : DataFrame) (reviews : list Review)
    : DataFrame :=
  merge_left order_id rv_order_id
             (λ r v, set_review_score (v ≫= rv_review_score) r)
             sales_data reviews.

(** The frame objects that exist, by reference. *)
Abbreviation store := (list (list SalesRow)).

Section with_parser.
(** The text-to-timestamp parser behind [pd.to_datetime]. *)
Variable parse : string → option Z.

(** [df[col] = pd.to_datetime(df[col])] for the two date columns. *)
Definition purchase_to_datetime (df : DataFrame) : result DataFrame :=
  mapM (λ r, c ← to_datetime_cell parse (order_purchase_timestamp r);
             Ok (set_order_purchase_timestamp c r)) df.

Definition delivered_to_datetime (df : DataFrame) : result DataFrame :=
  mapM (λ r, c ← to_datetime_cell parse (order_delivered_customer_date r);
             Ok (set_order_delivered_customer_date c r)) df.

Definition calculate_delivery_speed (sales_data : DataFrame) : result DataFrame :=
  sales_data ← purchase_to_datetime sales_data;
  sales_data ← delivered_to_datetime sales_data;
  Ok (map (λ r, set_delivery_speed_days
                  (days_between (order_delivered_customer_date r)
                                (order_purchase_timestamp r)) r)
          sales_data).

(** The two bounds of [filter_by_date_range]. *)
Definition range_start (start_year start_month : Z) : result Z :=
  Timestamp start_year start_month 1.

Definition range_end (end_year end_month : Z) : result Z :=
  end_date ←
    (if end_month =? 12
     then d ← Timestamp (end_year + 1) 1 1; ts_sub d (Timedelta 1 0 0 0)
     else d ← Timestamp end_year (end_month + 1) 1; ts_sub d (Timedelta 1 0 0 0));
  ts_add end_date (Timedelta 0 23 59 59).

Definition in_range (start_date end_date : Z) (r : SalesRow) : bool :=
  cell_ge (order_purchase_timestamp r) start_date
  && cell_le (order_purchase_timestamp r) end_date.

(** [filter_by_date_range] with the default [date_column], as a function
    from the frame passed in to the frame returned. *)
Definition filter_by_date_range (df : DataFrame)
    (start_year start_month end_year end_month : Z) : result DataFrame :=
  df ← purchase_to_datetime df;
  start_date ← range_start start_year start_month;
  end_date ← range_end end_year end_month;
  Ok (List.filter (in_range start_date end_date) df).

(** The same function over a store of frame objects: the argument and
    the value returned are references.  [df.copy()] and the boolean
    indexing allocate new frames, the column assignment writes into the
    frame the local name is bound to.  The store is returned also when
    an exception leaves the function. *)
Definition alloc (frame : DataFrame) (h : store) : nat * store :=
  (length h, h ++ [frame]).

Definition filter_by_date_range_obj (df : nat)
    (start_year start_month end_year end_month : Z) (h : store)
    : result nat * store :=
  match h !! df with
  | None => (Raise InvalidReference, h)
  | Some frame =>
      let '(df, h) := alloc frame h in
      match purchase_to_datetime (default [] (h !! df)) with
      | Raise e => (Raise e, h)
      | Ok column_set =>
          let h := <[df := column_set]> h in
          match range_start start_year start_month with
          | Raise e => (Raise e, h)
          | Ok start_date =>
              match range_end end_year end_month with
              | Raise e => (Raise e, h)
              | Ok end_date =>
                  let '(filtered_df, h) :=
                    alloc (List.filter (in_range start_date end_date)
                                       (default [] (h !! df))) h in
                  (Ok filtered_df, h)
              end
          end
      end
  end.

(** [prepare_orders_data]: the five timestamp columns are converted one
    after the other, then year and month are read off the purchase
    timestamp. *)
Definition convert_column (get : Order → datecell) (set : datecell → Order → Order)
    (orders : list Order) : result (list Order) :=
  mapM (λ o, c ← to_datetime_cell parse (get o); Ok (set c o)) orders.

Definition prepare_orders_data (orders : list Order) : result (list Order) :=
  orders ← convert_column o_order_purchase_timestamp
    (λ c o, set_order_dates c (o_order_approved_at o) (o_order_delivered_carrier_date o)
              (o_order_delivered_customer_date o) (o_order_estimated_delivery_date o)
              (o_year o) (o_month o) o) orders;
  orders ← convert_column o_order_approved_at
    (λ c o, set_order_dates (o_order_purchase_timestamp o) c (o_order_delivered_carrier_date o)
              (o_order_delivered_customer_date o) (o_order_estimated_delivery_date o)
              (o_year o) (o_month o) o) orders;
  orders ← convert_column o_order_delivered_carrier_date
    (λ c o, set_order_dates (o_order_purchase_timestamp o) (o_order_approved_at o) c
              (o_order_delivered_customer_date o) (o_order_estimated_delivery_date o)
              (o_year o) (o_month o) o) orders;
  orders ← convert_column o_order_delivered_customer_date
    (λ c o, set_order_dates (o_order_purchase_timestamp o) (o_order_approved_at o)
              (o_order_delivered_carrier_date o) c (o_order_estimated_delivery_date o)
              (o_year o) (o_month o) o) orders;
  orders ← convert_column o_order_estimated_delivery_date
    (λ c o, set_order_dates (o_order_purchase_timestamp o) (o_order_approved_at o)
              (o_order_delivered_carrier_date o) (o_order_delivered_customer_date o) c
              (o_year o) (o_month o) o) orders;
  Ok (map (λ o, set_order_dates
                  (o_order_purchase_timestamp o) (o_order_approved_at o)
                  (o_order_delivered_carrier_date o)
                  (o_order_delivered_customer_date o)
                  (o_order_estimated_delivery_date o)
                  (dt_year (o_order_purchase_timestamp o))
                  (dt_month (o_order_purchase_timestamp o)) o)
          orders).

(** [prepare_reviews_data]: both timestamp columns are converted. *)
Definition prepare_reviews_data (reviews : list Review) : result (list Review) :=
  reviews ← mapM (λ v, c ← to_datetime_cell parse (rv_review_creation_date v);
                       Ok {| rv_order_id := rv_order_id v;
                             rv_review_score := rv_review_score v;
                             rv_review_creation_date := c;
                             rv_review_answer_timestamp := rv_review_answer_timestamp v |})
                 reviews;
  mapM (λ v, c ← to_datetime_cell parse (rv_review_answer_timestamp v);
             Ok {| rv_order_id := rv_order_id v;
                   rv_review_score := rv_review_score v;
                   rv_review_creation_date := rv_review_creation_date v;
                   rv_review_answer_timestamp := c |})
       reviews.
End with_parser.

End data_loader.

(** ** business_metrics.py *)

Module business_metrics.
Import pandas.
Local Open Scope Qc_scope.

Definition calculate_total_revenue (sales_data : DataFrame) : Qc :=
  sum (map price sales_data).

(** The three shapes of the frame [calculate_revenue_by_period] returns. *)
Inductive PeriodRevenue :=
| ByYear (rows : list (Z * Qc))
| ByMonth (rows : list (Z * Qc))
| ByYearMonth (rows : list ((Z * Z) * Qc)).

Definition year_month (r : SalesRow) : option (Z * Z) :=
  y ← year r; m ← month r; Some (y, m).

Definition sum_price (rows : list SalesRow) : Qc := sum (map price rows).

Definition calculate_revenue_by_period (sales_data : DataFrame) (period : string)
    : result PeriodRevenue :=
  if bool_decide (period = "year") then
    Ok (ByYear (groupby Z.leb year sum_price sales_data))
  else if bool_decide (period = "month") then
    Ok (ByMonth (groupby Z.leb month sum_price sales_data))
  else if bool_decide (period = "year-month") then
    Ok (ByYearMonth (groupby pair_leb year_month sum_price sales_data))
  else
    Raise (ValueError ("Invalid period: " +:+ period
                       +:+ ". Choose 'year', 'month', or 'year-month'")).

Definition calculate_revenue_growth (current_revenue previous_revenue : fnum) : fnum :=
  if fis_zero previous_revenue then Fin 0
  else fdiv (fsub current_revenue previous_revenue) previous_revenue.

(** The argument is any frame with a [revenue] column; [K] stands for its
    other columns.  The result is the same frame with [mom_growth] added. *)
Definition calculate_mom_growth {K} (revenue_by_month : list (K * Qc))
    : list (K * Qc * fnum) :=
  zip revenue_by_month (pct_change (map snd revenue_by_month)).

Definition calculate_average_order_value (sales_data : DataFrame) : fnum :=
  let order_totals :=
    groupby string_leb (λ r, Some (order_id r)) sum_price sales_data in
  mean (map (λ g, Some g.2) order_totals).

Definition calculate_total_orders (sales_data : DataFrame) : Z :=
  Z.of_nat (length (unique (map order_id sales_data))).

Definition by_revenue_desc {K} (a b : K * Qc) : bool := Qc_leb b.2 a.2.

Definition calculate_revenue_by_category (sales_data : DataFrame)
    : list (string * Qc) :=
  sort by_revenue_desc
       (groupby string_leb product_category_name sum_price sales_data).

Definition calculate_revenue_by_state (sales_data : DataFrame)
    : list (string * Qc) :=
  sort by_revenue_desc
       (groupby string_leb customer_state sum_price sales_data).

Definition score_cell (s : option Z) : option Qc := Qc_of_Z <$> s.

Definition calculate_average_review_score (sales_data : DataFrame) : fnum :=
  mean (map (λ r, score_cell (review_score r)) sales_data).

Definition calculate_average_delivery_time (sales_data : DataFrame) : fnum :=
  let delivery_data :=
    drop_duplicates (map (λ r, (order_id r, delivery_speed_days r)) sales_data) in
  mean (map (λ d, score_cell d.2) delivery_data).

Definition category_order : list string := ["1-3 days"; "4-7 days"; "8+ days"].

Fixpoint index_of (c : string) (l : list string) : option nat :=
  match l with
  | [] => None
  | x :: t => if bool_decide (x = c) then Some O else S <$> index_of c t
  end.

(** [pd.Categorical(values, categories, ordered=True)]: a value outside
    the categories becomes null. *)
Definition categorical (c : string) : option string :=
  if index_of c category_order is Some _ then Some c else None.

(** [sort_values] on the categorical column: by category position, nulls
    last. *)
Definition by_category {V} (a b : option string * V) : bool :=
  match a.1 ≫= (λ c, index_of c category_order),
        b.1 ≫= (λ c, index_of c category_order) with
  | Some i, Some j => (i <=? j)%nat
  | Some _, None => true
  | None, Some _ => false
  | None, None => true
  end.

Definition calculate_review_by_delivery_speed (sales_data : DataFrame)
    : list (option string * fnum) :=
  let review_delivery :=
    drop_duplicates
      (map (λ r, (order_id r, delivery_category r, review_score r)) sales_data) in
  let result :=
    groupby string_leb (λ t : string * option string * option Z, t.1.2)
            (λ g, mean (map (λ t : string * option string * option Z, score_cell t.2) g))
            review_delivery in
  let result := map (λ g, (categorical g.1, g.2)) result in
  sort by_category result.

Definition calculate_items_per_order (sales_data : DataFrame) : fnum :=
  let items_per_order :=
    groupby string_leb (λ r, Some (order_id r)) (λ g : list SalesRow, length g) sales_data in
  mean (map (λ g, Some (Qc_of_nat g.2)) items_per_order).


(** [calculate_review_score_distribution]: counts and percentages of the
    scores of the distinct (order_id, review_score) pairs, by ascending
    score.  The three columns of the result are put side by side. *)
Definition calculate_review_score_distribution (sales_data : DataFrame)
    : list (Z * nat * Qc) :=
  let review_data :=
    drop_duplicates (map (λ r, (order_id r, review_score r)) sales_data) in
  let distribution := sort_index Z.leb (value_counts (map snd review_data)) in
  let percentage :=
    map (λ c : Z * Qc, (c.1, c.2 * Qc_of_Z 100))
        (sort_index Z.leb (value_counts_normalized (map snd review_data))) in
  zip_with (λ d p, (d.1, d.2, p.2)) distribution percentage.

(** [calculate_order_status_distribution], on the order table. *)
Definition calculate_order_status_distribution (orders_data : list Order)
    : list (string * nat * Qc) :=
  let distribution := value_counts (map (λ o, Some (o_order_status o)) orders_data) in
  let percentage :=
    map (λ c : string * Qc, (c.1, c.2 * Qc_of_Z 100))
        (value_counts_normalized (map (λ o, Some (o_order_status o)) orders_data)) in
  zip_with (λ d p, (d.1, d.2, p.2)) distribution percentage.

(** The dictionary [compare_periods] returns. *)
Record Comparison := {
  current_revenue : Qc;
  previous_revenue : Qc;
  revenue_change : Qc;
  revenue_growth_rate : fnum;
  current_aov : fnum;
  previous_aov : fnum;
  aov_growth_rate : fnum;
  current_orders : Z;
  previous_orders : Z;
  orders_growth_rate : fnum
}.

Definition compare_periods (current_period_data previous_period_data : DataFrame)
    : Comparison :=
  let current_revenue := calculate_total_revenue current_period_data in
  let previous_revenue := calculate_total_revenue previous_period_data in
  let growth_rate := calculate_revenue_growth (Fin current_revenue) (Fin previous_revenue) in
  let absolute_change := current_revenue - previous_revenue in
  let current_aov := calculate_average_order_value current_period_data in
  let previous_aov := calculate_average_order_value previous_period_data in
  let aov_growth := calculate_revenue_growth current_aov previous_aov in
  let current_orders := calculate_total_orders current_period_data in
  let previous_orders := calculate_total_orders previous_period_data in
  let orders_growth :=
    calculate_revenue_growth (Fin (Qc_of_Z current_orders)) (Fin (Qc_of_Z previous_orders)) in
  {| current_revenue := current_revenue;
     previous_revenue := previous_revenue;
     revenue_change := absolute_change;
     revenue_growth_rate := growth_rate;
     current_aov := current_aov;
     previous_aov := previous_aov;
     aov_growth_rate := aov_growth;
     current_orders := current_orders;
     previous_orders := previous_orders;
     orders_growth_rate := orders_growth |}.

End business_metrics.


(** ** dashboard.py *)

Module dashboard.
Import pandas data_loader business_metrics.

(** The tables [load_data] hands on. *)
Record Datasets := {
  ds_orders : list Order;
  ds_order_items : list OrderItem;
  ds_products : list Product;
  ds_customers : list Customer;
  ds_reviews : list Review
}.

(** [prepare_sales_data]: the delivered line items of a period, enriched.
    [run_analysis.py] and [generate_visualizations.py] run the same steps. *)
Definition prepare_sales_data (parse : string → option Z) (datasets : Datasets)
    (start_year start_month end_year end_month : Z) : result DataFrame :=
  let sales_all :=
    create_sales_dataset (ds_order_items datasets) (ds_orders datasets) "delivered" in
  sales_period ← filter_by_date_range parse sales_all
                   start_year start_month end_year end_month;
  let sales_period := add_product_categories sales_period (ds_products datasets) in
  let sales_period :=
    add_customer_geography sales_period (ds_orders datasets) (ds_customers datasets) in
  let sales_period := add_review_scores sales_period (ds_reviews datasets) in
  sales_period ← calculate_delivery_speed parse sales_period;
  Ok (assign_delivery_category sales_period).

Definition all_us_states : list string :=
  [ "AL"; "AK"; "AZ"; "AR"; "CA"; "CO"; "CT"; "DE"; "FL"; "GA";
    "HI"; "ID"; "IL"; "IN"; "IA"; "KS"; "KY"; "LA"; "ME"; "MD";
    "MA"; "MI"; "MN"; "MS"; "MO"; "MT"; "NE"; "NV"; "NH"; "NJ";
    "NM"; "NY"; "NC"; "ND"; "OH"; "OK"; "OR"; "PA"; "RI"; "SC";
    "SD"; "TN"; "TX"; "UT"; "VT"; "VA"; "WA"; "WV"; "WI"; "WY"; "DC" ].

(** [all_us_states.merge(state_revenue, on='state', how='left')] followed by
    [fillna(0)] on the revenue column. *)
Definition state_revenue_complete (state_revenue : list (string * Qc))
    : list (string * Qc) :=
  merge_left id fst
             (λ s (row : option (string * Qc)), (s, default 0%Qc (snd <$> row)))
             all_us_states state_revenue.

End dashboard.

(** ** The specification's reading of the order-level metrics, and sample
    tables *)

Module spec.
Import pandas business_metrics.

(** The order-deduplicated projection: the first row of each order_id. *)
Fixpoint one_row_per_order (rows : DataFrame) : DataFrame :=
  match rows with
  | [] => []
  | r :: t =>
      r :: List.filter (λ r', negb (bool_decide (order_id r' = order_id r)))
                       (one_row_per_order t)
  end.

(** Mean of review_score over the order-deduplicated rows, nulls left
    out. *)
Definition average_review_score (rows : DataFrame) : fnum :=
  mean (map (λ r, score_cell (review_score r)) (one_row_per_order rows)).

(** What "the sum of price grouped by [key]" asks of an output frame [out]:
    one row per key value that occurs, holding the total price of the
    rows with that key value. *)
Definition revenue_grouped_by {K} `{EqDecision K}
    (key : SalesRow → option K) (rows : DataFrame) (out : list (K * Qc)) : Prop :=
  NoDup (map fst out) ∧
  ∀ k v, (k, v) ∈ out ↔
         (∃ r, r ∈ rows ∧ key r = Some k) ∧
         v = sum (map price (filter (λ r, key r = Some k) rows)).

(** The first instant of the first day of month [m] of year [y], and
    23:59:59 of the last calendar day of that month. *)
Definition first_instant_of_month (y m : Z) : Z :=
  days_from_civil y m 1 * ns_per_day.

Definition last_instant_of_month (y m : Z) : Z :=
  days_from_civil y m (days_per_month (is_leapyear y) m) * ns_per_day
  + (23 * 3600 + 59 * 60 + 59) * ns_per_second.

(** A date cell that holds a timestamp or null, not text. *)
Definition is_datetime (c : datecell) : bool :=
  match c with
  | Raw _ => false
  | _ => true
  end.

Definition purchased_within (lo hi : Z) (r : SalesRow) : Prop :=
  ∃ t, order_purchase_timestamp r = Ts t ∧ lo ≤ t ≤ hi.
End spec.

(** ** Where the model and float64 agree *)

(** A non-negative whole number; a [Qc] is in lowest terms. *)
Definition whole_amount (q : Qc) : bool :=
  (0 <=? Qnum q) && (Qden q =? 1)%positive.

(** Prices and their sums are exact rationals in the model.  float64 adds
    non-negative whole amounts whose total is at most 2^53 without
    rounding, in whatever order and grouping: on such a table every sum of
    prices of the model is the sum the code computes. *)
Definition exact_prices (sales_data : DataFrame) : bool :=
  forallb (λ r, whole_amount (price r)) sales_data
  && pandas.Qc_leb (pandas.sum (map price sales_data)) (pandas.Qc_of_Z (2 ^ 53)).

(** The difference between the delivery and the purchase timestamp of a
    row fits into a timedelta64[ns]; pandas raises OverflowError when it
    does not. *)
Definition span_fits (r : SalesRow) : bool :=
  match order_delivered_customer_date r, order_purchase_timestamp r with
  | pandas.Ts d, pandas.Ts p => pandas.in_bounds (d - p)
  | _, _ => true
  end.

(** A line item of a delivered order, with the enrichment columns null. *)
Definition line_item (oid : string) (item : Z) (amount : Z) (score : option Z)
    (purchased delivered : pandas.datecell) : SalesRow :=
  {| order_id := oid; order_item_id := item; product_id := "p1";
     price := pandas.Qc_of_Z amount; freight_value := 0%Qc;
     customer_id := "c1"; order_status := "delivered";
     order_purchase_timestamp := purchased;
     order_delivered_customer_date := delivered;
     year := None; month := None;
     product_category_name := None;
     customer_state := None; customer_city := None;
     review_score := score;
     delivery_speed_days := None; delivery_category := None |}.

(** Order A has two line items and a review of 1; order B has one line
    item and a review of 4. *)
Definition two_orders_reviewed : DataFrame :=
  [ line_item "A" 1 10 (Some 1) pandas.NaT pandas.NaT;
    line_item "A" 2 20 (Some 1) pandas.NaT pandas.NaT;
    line_item "B" 1 50 (Some 4) pandas.NaT pandas.NaT ].

(** A delivered-status line item whose delivery date is missing. *)
Definition missing_delivery_date : DataFrame :=
  [ line_item "A" 1 10 (Some 1) (pandas.Ts 1672531200000000000) pandas.NaT ].

Definition set_product_category_name (c : option string) (r : SalesRow) : SalesRow :=
  {| order_id := order_id r; order_item_id := order_item_id r;
     product_id := product_id r; price := price r;
     freight_value := freight_value r; customer_id := customer_id r;
     order_status := order_status r;
     order_purchase_timestamp := order_purchase_timestamp r;
     order_delivered_customer_date := order_delivered_customer_date r;
     year := year r; month := month r;
     product_category_name := c;
     customer_state := customer_state r; customer_city := customer_city r;
     review_score := review_score r;
     delivery_speed_days := delivery_speed_days r;
     delivery_category := delivery_category r |}.

(** Three line items in two categories. *)
Definition two_categories : DataFrame :=
  [ set_product_category_name (Some "toys") (line_item "A" 1 10 None pandas.NaT pandas.NaT);
    set_product_category_name (Some "books") (line_item "A" 2 20 None pandas.NaT pandas.NaT);
    set_product_category_name (Some "toys") (line_item "B" 1 50 None pandas.NaT pandas.NaT) ].

(** A line item of a product that has no category. *)
Definition uncategorised_item : DataFrame :=
  [ line_item "A" 1 10 None pandas.NaT pandas.NaT ].

(** Two months of revenue, in chronological order and reversed. *)
Definition jan_feb : list ((Z * Z) * Qc) :=
  [ ((2023, 1), pandas.Qc_of_Z 100); ((2023, 2), pandas.Qc_of_Z 200) ].

Definition feb_jan : list ((Z * Z) * Qc) :=
  [ ((2023, 2), pandas.Qc_of_Z 200); ((2023, 1), pandas.Qc_of_Z 100) ].

(** Purchases at 2023-01-01 00:00:00, 2023-12-31 23:59:59 and 2024-01-01
    00:00:00, the first one still as text. *)
Definition around_2023 : DataFrame :=
  [ line_item "A" 1 10 None (pandas.Raw "2023-01-01 00:00:00") pandas.NaT;
    line_item "B" 1 20 None (pandas.Ts 1704067199000000000) pandas.NaT;
    line_item "C" 1 50 None (pandas.Ts 1704067200000000000) pandas.NaT ].

(** A parser that knows one text. *)
Definition parse_new_year (text : string) : option Z :=
  if bool_decide (text = "2023-01-01 00:00:00") then Some 1672531200000000000
  else None.

(** The same table once its purchase column is converted. *)
Definition around_2023_converted : DataFrame :=
  [ line_item "A" 1 10 None (pandas.Ts 1672531200000000000) pandas.NaT;
    line_item "B" 1 20 None (pandas.Ts 1704067199000000000) pandas.NaT;
    line_item "C" 1 50 None (pandas.Ts 1704067200000000000) pandas.NaT ].

(** The rows of [around_2023] purchased in 2023. *)
Definition within_2023 : DataFrame :=
  [ line_item "A" 1 10 None (pandas.Ts 1672531200000000000) pandas.NaT;
    line_item "B" 1 20 None (pandas.Ts 1704067199000000000) pandas.NaT ].

Definition set_year_month (y m : option Z) (r : SalesRow) : SalesRow :=
  {| order_id := order_id r; order_item_id := order_item_id r;
     product_id := product_id r; price := price r;
     freight_value := freight_value r; customer_id := customer_id r;
     order_status := order_status r;
     order_purchase_timestamp := order_purchase_timestamp r;
     order_delivered_customer_date := order_delivered_customer_date r;
     year := y; month := m;
     product_category_name := product_category_name r;
     customer_state := customer_state r; customer_city := customer_city r;
     review_score := review_score r;
     delivery_speed_days := delivery_speed_days r;
     delivery_category := delivery_category r |}.

(** Line items of February 2023 and January 2023, in that order. *)
Definition two_months : DataFrame :=
  [ set_year_month (Some 2023) (Some 2) (line_item "B" 1 50 None pandas.NaT pandas.NaT);
    set_year_month (Some 2023) (Some 1) (line_item "A" 1 10 None pandas.NaT pandas.NaT);
    set_year_month (Some 2023) (Some 1) (line_item "A" 2 20 None pandas.NaT pandas.NaT) ].

(** What the sort asks of a key order. *)
Record key_order {A} (leb : A → A → bool) : Prop := {
  key_order_total : ∀ x y, leb x y = true ∨ leb y x = true;
  key_order_trans : ∀ x y z, leb x y = true → leb y z = true → leb x z = true;
  key_order_antisym : ∀ x y, leb x y = true → leb y x = true → x = y
}.

(** ** Sample source tables *)

Definition order_item (oid : string) (item : Z) (pid : string) (amount : Z) : OrderItem :=
  {| oi_order_id := oid; oi_order_item_id := item; oi_product_id := pid;
     oi_price := pandas.Qc_of_Z amount; oi_freight_value := 0%Qc |}.

Definition order (oid cid status : string) (purchased delivered : pandas.datecell) : Order :=
  {| o_order_id := oid; o_customer_id := cid; o_order_status := status;
     o_order_purchase_timestamp := purchased;
     o_order_approved_at := pandas.NaT;
     o_order_delivered_carrier_date := pandas.NaT;
     o_order_delivered_customer_date := delivered;
     o_order_estimated_delivery_date := pandas.NaT;
     o_year := None; o_month := None |}.

(** Four line items: two of order A, one of order B, one of an order that
    is not in the order table. *)
Definition sample_items : list OrderItem :=
  [ order_item "A" 1 "p1" 10; order_item "B" 1 "p2" 50;
    order_item "A" 2 "p2" 20; order_item "Z" 1 "p1" 5 ].

(** Order A was bought on 2023-01-01 00:00:00 and delivered three days and
    some hours later; order B was bought on 2023-12-31 23:59:59 and is not
    delivered yet. *)
Definition sample_orders : list Order :=
  [ order "A" "c1" "delivered" (pandas.Ts 1672531200000000000)
                               (pandas.Ts 1672800000000000000);
    order "B" "c2" "shipped" (pandas.Ts 1704067199000000000) pandas.NaT ].

Definition sample_products : list Product :=
  [ {| p_product_id := "p1"; p_product_category_name := Some "toys" |} ].

Definition sample_customers : list Customer :=
  [ {| c_customer_id := "c1"; c_customer_state := Some "CA";
       c_customer_city := Some "Fresno" |} ].

(** Two reviews of order A. *)
Definition sample_reviews : list Review :=
  [ {| rv_order_id := "A"; rv_review_score := Some 5;
       rv_review_creation_date := pandas.NaT; rv_review_answer_timestamp := pandas.NaT |};
    {| rv_order_id := "A"; rv_review_score := Some 1;
       rv_review_creation_date := pandas.NaT; rv_review_answer_timestamp := pandas.NaT |} ].

(** All line items with their order, status filter off. *)
Definition sample_sales : DataFrame :=
  data_loader.create_sales_dataset sample_items sample_orders "".

(** Line items of a customer in California, of one without state and of
    one in New York. *)
Definition three_customers : DataFrame :=
  [ set_customer_geography (Some "CA") (Some "Fresno")
      (line_item "A" 1 10 None pandas.NaT pandas.NaT);
    set_customer_geography None None
      (line_item "B" 1 50 None pandas.NaT pandas.NaT);
    set_customer_geography (Some "NY") None
      (line_item "C" 1 20 None pandas.NaT pandas.NaT) ].

(** A purchase half a second before February 2023 starts. *)
Definition last_second_of_january : DataFrame :=
  [ line_item "A" 1 10 None (pandas.Ts 1675209599500000000) pandas.NaT ].


(** ** Between the steps of [prepare_orders_data] *)

(** A date column between two steps: converted from the cell [c] already,
    or still [c]. *)
Definition column_state (parse : string → option Z) (converted : bool)
    (c c' : pandas.datecell) : Prop :=
  if converted then pandas.to_datetime_cell parse c = pandas.Ok c' else c' = c.

(** The order [o'] is the order [o] with the flagged date columns
    converted and nothing else changed. *)
Definition orders_step (parse : string → option Z)
    (purchase approved carrier delivered estimated : bool) (o o' : Order) : Prop :=
  o_order_id o' = o_order_id o ∧ o_customer_id o' = o_customer_id o ∧
  o_order_status o' = o_order_status o ∧
  o_year o' = o_year o ∧ o_month o' = o_month o ∧
  column_state parse purchase
    (o_order_purchase_timestamp o) (o_order_purchase_timestamp o') ∧
  column_state parse approved (o_order_approved_at o) (o_order_approved_at o') ∧
  column_state parse carrier
    (o_order_delivered_carrier_date o) (o_order_delivered_carrier_date o') ∧
  column_state parse delivered
    (o_order_delivered_customer_date o) (o_order_delivered_customer_date o') ∧
  column_state parse estimated
    (o_order_estimated_delivery_date o) (o_order_estimated_delivery_date o').

(** Two orders as they are read from the file, dates as text. *)
Definition raw_orders : list Order :=
  [ order "A" "c1" "delivered" (pandas.Raw "2023-01-01 00:00:00")
                               (pandas.Raw "2023-01-04 02:40:00");
    order "B" "c2" "delivered" (pandas.Raw "2023-12-31 23:59:59") pandas.NaT ].

(** A parser that knows the three dates of [raw_orders]. *)
Definition parse_sample (s : string) : option Z :=
  if bool_decide (s = "2023-01-01 00:00:00") then Some 1672531200000000000
  else if bool_decide (s = "2023-01-04 02:40:00") then Some 1672800000000000000
  else if bool_decide (s = "2023-12-31 23:59:59") then Some 1704067199000000000
  else None.

(** [raw_orders] after [prepare_orders_data]. *)
Definition prepared_orders : list Order :=
  [ set_order_dates (pandas.Ts 1672531200000000000) pandas.NaT pandas.NaT
      (pandas.Ts 1672800000000000000) pandas.NaT (Some 2023) (Some 1)
      (order "A" "c1" "delivered" pandas.NaT pandas.NaT);
    set_order_dates (pandas.Ts 1704067199000000000) pandas.NaT pandas.NaT
      pandas.NaT pandas.NaT (Some 2023) (Some 12)
      (order "B" "c2" "delivered" pandas.NaT pandas.NaT) ].

(** The tables of the dashboard, orders and reviews prepared. *)
Definition sample_datasets : dashboard.Datasets :=
  {| dashboard.ds_orders := prepared_orders;
     dashboard.ds_order_items := sample_items;
     dashboard.ds_products := sample_products;
     dashboard.ds_customers := sample_customers;
     dashboard.ds_reviews := sample_reviews |}.

(** A slow order reviewed with 2 and a fast one reviewed with 5, the slow
    one first. *)
Definition slow_then_fast : DataFrame :=
  [ set_delivery_category (Some "8+ days")
      (line_item "A" 1 10 (Some 2) pandas.NaT pandas.NaT);
    set_delivery_category (Some "1-3 days")
      (line_item "B" 1 50 (Some 5) pandas.NaT pandas.NaT) ].
(** Case analysis on a month number known to lie in 1..12. *)
Ltac month_cases m :=
  let H := fresh in
  assert (H : m = 1 ∨ m = 2 ∨ m = 3 ∨ m = 4 ∨ m = 5 ∨ m = 6 ∨ m = 7
              ∨ m = 8 ∨ m = 9 ∨ m = 10 ∨ m = 11 ∨ m = 12) by lia;
  destruct H as [->|[->|[->|[->|[->|[->|[->|[->|[->|[->|[->| ->]]]]]]]]]]].

(** * Properties *)

Import pandas data_loader business_metrics dashboard.

(** ** Facts about the modelled library operations *)

Section sort_facts.
Context {A : Type} (leb : A → A → bool).

Lemma insert_sorted_perm x l : insert_sorted leb x l ≡ₚ x :: l.
Proof.
  induction l as [|y t IH]; simpl; [done|].
  destruct (leb x y); [done|].
  rewrite IH. apply Permutation_swap.
Qed.

Lemma sort_perm l : sort leb l ≡ₚ l.
Proof.
  induction l as [|x t IH]; simpl; [done|].
  unfold sort in IH. by rewrite insert_sorted_perm, IH.
Qed.

Hypothesis leb_total : ∀ x y, leb x y = true ∨ leb y x = true.

Lemma insert_sorted_Sorted x l :
  Sorted (λ a b, leb a b = true) l →
  Sorted (λ a b, leb a b = true) (insert_sorted leb x l).
Proof.
  induction 1 as [|y t Hs IH Hhd]; simpl.
  - by repeat constructor.
  - destruct (leb x y) eqn:Hxy.
    + constructor; [by constructor|by constructor].
    + constructor; [done|].
      destruct Hhd as [|z t' Hyz]; simpl.
      * constructor. by destruct (leb_total x y); [congruence|].
      * destruct (leb x z); constructor; [|done].
        by destruct (leb_total x y); [congruence|].
Qed.

Lemma sort_Sorted l : Sorted (λ a b, leb a b = true) (sort leb l).
Proof.
  induction l as [|x t IH]; simpl; [constructor|].
  by apply insert_sorted_Sorted.
Qed.
End sort_facts.

Section unique_facts.
Context `{EqDecision A}.

Lemma elem_of_list_filter_bool (f : A → bool) (l : list A) x :
  x ∈ List.filter f l ↔ x ∈ l ∧ f x = true.
Proof. rewrite !list_elem_of_In. apply filter_In. Qed.

Lemma elem_of_unique (l : list A) x : x ∈ unique l ↔ x ∈ l.
Proof.
  induction l as [|y t IH]; simpl; [done|].
  rewrite !elem_of_cons, elem_of_list_filter_bool, IH.
  destruct (decide (x = y)) as [->|Hne]; [tauto|].
  rewrite bool_decide_eq_false_2 by done. simpl. tauto.
Qed.

Lemma NoDup_list_filter_bool (f : A → bool) (l : list A) :
  NoDup l → NoDup (List.filter f l).
Proof.
  induction 1 as [|x t Hx Hnd IH]; simpl; [constructor|].
  destruct (f x); [|done].
  constructor; [|done]. rewrite elem_of_list_filter_bool. tauto.
Qed.

Lemma NoDup_unique (l : list A) : NoDup (unique l).
Proof.
  induction l as [|y t IH]; simpl; [constructor|].
  constructor; [|by apply NoDup_list_filter_bool].
  rewrite elem_of_list_filter_bool.
  intros [_ H]. by rewrite bool_decide_eq_true_2 in H.
Qed.
End unique_facts.

Lemma Qc_sum_perm (l l' : list Qc) : l ≡ₚ l' → Qc_sum l = Qc_sum l'.
Proof.
  induction 1 as [|x l l' _ IH|x y l|l l' l'' _ IH1 _ IH2]; simpl.
  - done.
  - by rewrite IH.
  - unfold Qc_sum. simpl. ring.
  - congruence.
Qed.

Lemma Qc_eqb_eq (a b : Qc) : Qc_eqb a b = true ↔ a = b.
Proof.
  unfold Qc_eqb. rewrite Qeq_bool_iff. split.
  - apply Qc_is_canon.
  - by intros ->.
Qed.

Lemma Qc_eqb_neq (a b : Qc) : a ≠ b → Qc_eqb a b = false.
Proof.
  intros Hne. destruct (Qc_eqb a b) eqn:E; [|done].
  by apply Qc_eqb_eq in E.
Qed.

Lemma Qc_leb_le (a b : Qc) : Qc_leb a b = true ↔ (a ≤ b)%Qc.
Proof. unfold Qc_leb, Qcle. apply Qle_bool_iff. Qed.

Lemma Qc_leb_total (a b : Qc) : Qc_leb a b = true ∨ Qc_leb b a = true.
Proof.
  rewrite !Qc_leb_le. destruct (Qclt_le_dec a b) as [H|H]; [left|by right].
  by apply Qclt_le_weak.
Qed.

Section groupby_facts.
Context {Row K : Type} `{EqDecision K}.
Variable key_leb : K → K → bool.
Variable key : Row → option K.

Lemma elem_of_group_keys k rows :
  k ∈ group_keys key_leb key rows ↔ ∃ r, r ∈ rows ∧ key r = Some k.
Proof.
  unfold group_keys. rewrite sort_perm, elem_of_unique, list_elem_of_omap.
  naive_solver.
Qed.

Lemma NoDup_group_keys rows : NoDup (group_keys key_leb key rows).
Proof. unfold group_keys. rewrite sort_perm. apply NoDup_unique. Qed.

Context {V : Type}.
Variable agg : list Row → V.

Lemma groupby_keys rows :
  map fst (groupby key_leb key agg rows) = group_keys key_leb key rows.
Proof.
  unfold groupby. rewrite map_map. simpl. apply map_id.
Qed.

Lemma elem_of_groupby k v rows :
  (k, v) ∈ groupby key_leb key agg rows ↔
  (∃ r, r ∈ rows ∧ key r = Some k) ∧ v = agg (group_rows key k rows).
Proof.
  unfold groupby. rewrite list_elem_of_fmap. split.
  - intros (k' & [= -> ->] & Hin). split; [|done].
    by apply elem_of_group_keys.
  - intros [Hin ->]. exists k. split; [done|].
    by apply elem_of_group_keys.
Qed.

Lemma groupby_keys_Sorted rows :
  (∀ x y, key_leb x y = true ∨ key_leb y x = true) →
  Sorted (λ a b, key_leb a b = true) (map fst (groupby key_leb key agg rows)).
Proof.
  intros Htot. rewrite groupby_keys. unfold group_keys. by apply sort_Sorted.
Qed.
End groupby_facts.

(** ** The calendar *)


Lemma days_before_year_succ (y : Z) :
  days_before_year (y + 1)
  = days_before_year y + (if is_leapyear y then 366 else 365).
Proof.
  unfold days_before_year, is_leapyear.
  destruct (Z.eqb_spec (y mod 4) 0), (Z.eqb_spec (y mod 100) 0),
           (Z.eqb_spec (y mod 400) 0); cbn [andb orb negb];
    Z.div_mod_to_equations; lia.
Qed.

Lemma days_before_year_bounds (y : Z) :
  1678 ≤ y ≤ 2262 → -106650 ≤ days_before_year y ≤ 106651.
Proof.
  intros Hy. unfold days_before_year. Z.div_mod_to_equations. lia.
Qed.

Lemma days_per_month_bounds (leap : bool) (m : Z) :
  1 ≤ m ≤ 12 → 28 ≤ days_per_month leap m ≤ 31.
Proof. intros Hm. month_cases m; destruct leap; cbn; lia. Qed.

Lemma days_before_month_bounds (leap : bool) (m : Z) :
  1 ≤ m ≤ 12 →
  0 ≤ days_before_month leap m ∧
  days_before_month leap m + days_per_month leap m ≤ (if leap then 366 else 365).
Proof. intros Hm. month_cases m; destruct leap; vm_compute; split; discriminate. Qed.

Lemma days_before_month_succ (leap : bool) (m : Z) :
  1 ≤ m ≤ 11 →
  days_before_month leap (m + 1) = days_before_month leap m + days_per_month leap m.
Proof. intros Hm. month_cases m; try lia; destruct leap; reflexivity. Qed.

Lemma days_before_month_december (leap : bool) :
  days_before_month leap 12 + 31 = (if leap then 366 else 365).
Proof. by destruct leap. Qed.

(** The day before the first of the next month is the last calendar day of
    the month. *)
Lemma day_before_next_month (y m : Z) :
  1 ≤ m ≤ 12 →
  (if m =? 12 then days_from_civil (y + 1) 1 1 else days_from_civil y (m + 1) 1) - 1
  = days_from_civil y m (days_per_month (is_leapyear y) m).
Proof.
  intros Hm. unfold days_from_civil. destruct (Z.eqb_spec m 12) as [->|Hne].
  - rewrite days_before_year_succ.
    pose proof (days_before_month_december (is_leapyear y)) as Hdec.
    change (days_before_month (is_leapyear (y + 1)) 1) with 0.
    change (days_per_month (is_leapyear y) 12) with 31. lia.
  - rewrite days_before_month_succ by lia. lia.
Qed.

Lemma days_from_civil_bounds (y m d : Z) :
  1678 ≤ y ≤ 2261 → 1 ≤ m ≤ 12 → 1 ≤ d ≤ days_per_month (is_leapyear y) m →
  -106650 ≤ days_from_civil y m d ≤ 106651.
Proof.
  intros Hy Hm Hd. unfold days_from_civil.
  pose proof (days_before_year_bounds y ltac:(lia)) as Hlo.
  pose proof (days_before_year_bounds (y + 1) ltac:(lia)) as Hhi.
  rewrite days_before_year_succ in Hhi.
  pose proof (days_before_month_bounds (is_leapyear y) m Hm).
  destruct (is_leapyear y); lia.
Qed.

Lemma Timestamp_ok (y m d : Z) :
  1 ≤ y ≤ 9999 → 1 ≤ m ≤ 12 → 1 ≤ d ≤ days_per_month (is_leapyear y) m →
  -106751 ≤ days_from_civil y m d ≤ 106751 →
  Timestamp y m d = Ok (days_from_civil y m d * ns_per_day).
Proof.
  intros Hy Hm Hd Hb. unfold Timestamp.
  rewrite !(proj2 (Z.leb_le _ _)) by lia. cbn [andb negb].
  replace (in_bounds (days_from_civil y m d * ns_per_day)) with true; [done|].
  symmetry. unfold in_bounds, ns_per_day, ns_per_second.
  apply andb_true_iff. split; apply Z.ltb_lt.
  - change (- 2 ^ 63) with (-9223372036854775808). lia.
  - change (2 ^ 63) with 9223372036854775808. lia.
Qed.

Lemma ts_add_ok (t delta : Z) :
  - 2 ^ 63 < t + delta < 2 ^ 63 → ts_add t delta = Ok (t + delta).
Proof.
  intros [Hlo Hhi]. unfold ts_add, in_bounds.
  by rewrite !(proj2 (Z.ltb_lt _ _)).
Qed.

Lemma range_start_ok (start_year start_month : Z) :
  1678 ≤ start_year ≤ 2261 → 1 ≤ start_month ≤ 12 →
  range_start start_year start_month
  = Ok (spec.first_instant_of_month start_year start_month).
Proof.
  intros Hy Hm. unfold range_start, spec.first_instant_of_month.
  pose proof (days_per_month_bounds (is_leapyear start_year) start_month Hm).
  pose proof (days_from_civil_bounds start_year start_month 1 Hy Hm ltac:(lia)).
  apply Timestamp_ok; lia.
Qed.

Lemma first_of_next_month_ok (y m : Z) :
  1678 ≤ y ≤ 2261 → 1 ≤ m ≤ 12 →
  (if m =? 12 then Timestamp (y + 1) 1 1 else Timestamp y (m + 1) 1)
  = Ok ((days_from_civil y m (days_per_month (is_leapyear y) m) + 1) * ns_per_day).
Proof.
  intros Hy Hm.
  pose proof (day_before_next_month y m Hm) as Hday.
  pose proof (days_per_month_bounds (is_leapyear y) m Hm) as Hdpm.
  pose proof (days_from_civil_bounds y m (days_per_month (is_leapyear y) m) Hy Hm ltac:(lia)) as Hb.
  destruct (Z.eqb_spec m 12) as [->|Hne].
  - rewrite Timestamp_ok; [f_equal; lia|lia|lia|by vm_compute|lia].
  - pose proof (days_per_month_bounds (is_leapyear y) (m + 1) ltac:(lia)).
    rewrite Timestamp_ok; [f_equal; lia|lia|lia|lia|lia].
Qed.

Lemma range_end_ok (end_year end_month : Z) :
  1678 ≤ end_year ≤ 2261 → 1 ≤ end_month ≤ 12 →
  range_end end_year end_month
  = Ok (spec.last_instant_of_month end_year end_month).
Proof.
  intros Hy Hm. unfold range_end, spec.last_instant_of_month.
  pose proof (first_of_next_month_ok end_year end_month Hy Hm) as Hnext.
  pose proof (days_per_month_bounds (is_leapyear end_year) end_month Hm) as Hdpm.
  pose proof (days_from_civil_bounds end_year end_month
                (days_per_month (is_leapyear end_year) end_month) Hy Hm ltac:(lia)) as Hb.
  set (last := days_from_civil end_year end_month
                 (days_per_month (is_leapyear end_year) end_month)) in *.
  assert (Hsub : ts_sub ((last + 1) * ns_per_day) (Timedelta 1 0 0 0)
                 = Ok (last * ns_per_day)).
  { unfold ts_sub. rewrite ts_add_ok.
    - f_equal. unfold Timedelta, ns_per_day. lia.
    - unfold Timedelta, ns_per_day, ns_per_second.
      change (2 ^ 63) with 9223372036854775808. lia. }
  assert (Hadd : ts_add (last * ns_per_day) (Timedelta 0 23 59 59)
                 = Ok (last * ns_per_day + (23 * 3600 + 59 * 60 + 59) * ns_per_second)).
  { rewrite ts_add_ok.
    - f_equal.
    - unfold Timedelta, ns_per_day, ns_per_second.
      change (2 ^ 63) with 9223372036854775808. lia. }
  destruct (end_month =? 12); rewrite Hnext; cbn [mbind result_bind bind];
    rewrite Hsub; cbn [mbind result_bind bind]; exact Hadd.
Qed.

(** ** Growth rate *)

(** C5. With a previous value of zero the growth rate is exactly 0.0,
    whatever the current value (negative, infinite or NaN included); with a
    finite non-zero previous value it is (current - previous) / previous. *)
Theorem revenue_growth_zero_policy :
  (∀ x : fnum, calculate_revenue_growth x (Fin 0) = Fin 0) ∧
  (∀ current previous : Qc, previous ≠ 0%Qc →
     calculate_revenue_growth (Fin current) (Fin previous)
     = Fin ((current - previous) / previous)).
Proof.
  split.
  - intros x. reflexivity.
  - intros c p Hp. unfold calculate_revenue_growth. simpl.
    by rewrite !Qc_eqb_neq.
Qed.

Lemma revenue_growth_zero_policy_witness :
  calculate_revenue_growth (Fin (Qc_of_Z (-5))) (Fin 0) = Fin 0 ∧
  Qc_of_Z 4 ≠ 0%Qc ∧
  calculate_revenue_growth (Fin (Qc_of_Z 6)) (Fin (Qc_of_Z 4))
  = Fin ((Qc_of_Z 6 - Qc_of_Z 4) / Qc_of_Z 4).
Proof.
  destruct revenue_growth_zero_policy as [Hzero Hratio].
  split; [apply Hzero|].
  split; [discriminate|].
  apply Hratio. discriminate.
Defined.

(** ** Average review score *)

Lemma Qc_of_Z_add (a b : Z) : Qc_of_Z (a + b) = (Qc_of_Z a + Qc_of_Z b)%Qc.
Proof.
  apply Qc_is_canon. unfold Qc_of_Z. simpl.
  rewrite !Qred_correct. by rewrite inject_Z_plus.
Qed.

Lemma Qc_of_nat_S (n : nat) : Qc_of_nat (S n) = (Qc_of_nat n + 1)%Qc.
Proof.
  unfold Qc_of_nat. rewrite Nat2Z.inj_succ, <- Z.add_1_r. apply Qc_of_Z_add.
Qed.

Lemma Qc_of_Z_eq_0 (z : Z) : Qc_of_Z z = 0%Qc → z = 0.
Proof.
  intros H. apply (f_equal this) in H. simpl in H.
  assert (Hq : (Qred (inject_Z z) == 0)%Q) by (by rewrite H).
  rewrite Qred_correct in Hq. unfold Qeq in Hq. simpl in Hq. lia.
Qed.

Lemma Qc_of_nat_S_neq_0 (n : nat) : Qc_of_nat (S n) ≠ 0%Qc.
Proof. intros H. apply Qc_of_Z_eq_0 in H. lia. Qed.

Lemma Qc_of_Z_le (a b : Z) : a ≤ b → (Qc_of_Z a ≤ Qc_of_Z b)%Qc.
Proof.
  intros Hab. unfold Qc_of_Z, Qcle. cbn [this Q2Qc].
  rewrite !Qred_correct. unfold Qle. cbn. lia.
Qed.

Lemma Qc_of_nat_S_pos (n : nat) : (0 < Qc_of_nat (S n))%Qc.
Proof.
  assert (H : (Qc_of_Z 0 ≤ Qc_of_nat (S n))%Qc) by (apply Qc_of_Z_le; lia).
  change (Qc_of_Z 0) with 0%Qc in H.
  apply Qcle_lt_or_eq in H as [H|H]; [done|].
  symmetry in H. by apply Qc_of_nat_S_neq_0 in H.
Qed.

Lemma Qc_sum_cons (x : Qc) (l : list Qc) : Qc_sum (x :: l) = (x + Qc_sum l)%Qc.
Proof. reflexivity. Qed.

Lemma omap_id_constant {B} (v : B) (l : list (option B)) :
  Forall (λ c, c = Some v) l → omap id l = replicate (length l) v.
Proof.
  induction 1 as [|c l' -> _ IH]; [done|].
  simpl. f_equal. exact IH.
Qed.

Lemma Qc_sum_replicate (n : nat) (v : Qc) :
  Qc_sum (replicate n v) = (v * Qc_of_nat n)%Qc.
Proof.
  induction n as [|n IH].
  - change (Qc_of_nat 0) with 0%Qc. simpl. ring.
  - change (replicate (S n) v) with (v :: replicate n v).
    rewrite Qc_sum_cons, IH, Qc_of_nat_S. ring.
Qed.

(** The mean of a non-empty column that holds the same value in every row
    is that value. *)
Lemma mean_constant (v : Qc) (l : list (option Qc)) :
  l ≠ [] → Forall (λ c, c = Some v) l → mean l = Fin v.
Proof.
  intros Hne Hall. unfold mean.
  rewrite (omap_id_constant v l Hall).
  destruct l as [|c l]; [done|].
  simpl length. cbn [replicate].
  change (v :: replicate (length l) v) with (replicate (S (length l)) v).
  rewrite Qc_sum_replicate, length_replicate. f_equal.
  field. apply Qc_of_nat_S_neq_0.
Qed.

(** The case singled out by the specification holds in the code: one order
    split into any number k >= 1 of line items that all carry the review
    score 5 has average review score 5. *)
Lemma average_review_score_single_order (rows : DataFrame) :
  rows ≠ [] →
  Forall (λ r, review_score r = Some 5) rows →
  calculate_average_review_score rows = Fin (Qc_of_Z 5).
Proof.
  intros Hne Hall. unfold calculate_average_review_score.
  apply mean_constant.
  - by destruct rows.
  - apply Forall_fmap. eapply Forall_impl; [done|].
    intros r Hr. simpl. by rewrite Hr.
Qed.

(** C1. On the table [two_orders_reviewed] the code averages the three
    line-item rows and returns 2, while the mean over one row per order_id
    is 5/2: the code does not deduplicate by order. *)
Theorem average_review_score_counts_line_items :
  calculate_average_review_score two_orders_reviewed = Fin (Qc_of_Z 2) ∧
  spec.average_review_score two_orders_reviewed = Fin (Qc_of_Z 5 / Qc_of_Z 2) ∧
  calculate_average_review_score two_orders_reviewed
  ≠ spec.average_review_score two_orders_reviewed.
Proof.
  repeat split; compute_done.
Qed.

(** ** Delivery speed buckets *)

(** The three buckets for a delivery time that is known. *)
Lemma categorize_delivery_speed_buckets (days : Z) :
  (days ≤ 3 → categorize_delivery_speed (Some days) = "1-3 days") ∧
  (3 < days ≤ 7 → categorize_delivery_speed (Some days) = "4-7 days") ∧
  (7 < days → categorize_delivery_speed (Some days) = "8+ days").
Proof.
  unfold categorize_delivery_speed, days_le.
  repeat split; intros H;
    destruct (Z.leb_spec days 3); destruct (Z.leb_spec days 7); done || lia.
Qed.

(** A null delivery time fails both comparisons and lands in the last
    bucket. *)
Lemma categorize_delivery_speed_null :
  categorize_delivery_speed None = "8+ days".
Proof. reflexivity. Qed.

(** C2. A row without delivery date gets a null delivery_speed_days, yet
    the bucket assigned to it is "8+ days", and its review score enters the
    "8+ days" row of the review-by-delivery-speed aggregate, while the
    average delivery time leaves the row out. *)
Theorem missing_delivery_date_is_bucketed (parse : string → option Z) :
  ∃ enriched,
    calculate_delivery_speed parse missing_delivery_date = Ok enriched ∧
    map delivery_speed_days enriched = [None] ∧
    map delivery_category (assign_delivery_category enriched) = [Some "8+ days"] ∧
    calculate_review_by_delivery_speed (assign_delivery_category enriched)
    = [(Some "8+ days", Fin (Qc_of_Z 1))] ∧
    calculate_average_delivery_time (assign_delivery_category enriched) = NaN.
Proof.
  eexists. split; [reflexivity|].
  split; [reflexivity|]. split; [reflexivity|]. split; compute_done.
Qed.

(** ** The two-order scenario *)

(** C9. A table of three line items, two of one order priced 10 and 20 and
    one of another order priced 50: total revenue 80, two orders, average
    order value 40, and 1.5 items per order. *)
Theorem two_orders_scenario (a1 a2 b : SalesRow) :
  order_id a2 = order_id a1 →
  order_id b ≠ order_id a1 →
  price a1 = Qc_of_Z 10 →
  price a2 = Qc_of_Z 20 →
  price b = Qc_of_Z 50 →
  calculate_total_revenue [a1; a2; b] = Qc_of_Z 80 ∧
  calculate_total_orders [a1; a2; b] = 2 ∧
  calculate_average_order_value [a1; a2; b] = Fin (Qc_of_Z 40) ∧
  calculate_items_per_order [a1; a2; b] = Fin (Qc_of_Z 3 / Qc_of_Z 2).
Proof.
  intros Ha Hb P1 P2 P3.
  assert (Hkeys : unique (omap (λ r, Some (order_id r)) [a1; a2; b])
                  = [order_id a1; order_id b]).
  { cbn [omap list_omap unique List.filter]. rewrite Ha.
    rewrite (bool_decide_eq_false_2 _ Hb).
    rewrite (bool_decide_eq_true_2 (order_id a1 = order_id a1) eq_refl).
    cbn [negb List.filter].
    by rewrite (bool_decide_eq_false_2 _ Hb). }
  assert (HgA : group_rows (λ r, Some (order_id r)) (order_id a1) [a1; a2; b]
                = [a1; a2]).
  { unfold group_rows. cbn [List.filter]. rewrite Ha.
    rewrite (bool_decide_eq_true_2 (Some (order_id a1) = Some (order_id a1)) eq_refl).
    rewrite bool_decide_eq_false_2; [done|congruence]. }
  assert (HgB : group_rows (λ r, Some (order_id r)) (order_id b) [a1; a2; b]
                = [b]).
  { unfold group_rows. cbn [List.filter]. rewrite Ha.
    rewrite (bool_decide_eq_true_2 (Some (order_id b) = Some (order_id b)) eq_refl).
    rewrite bool_decide_eq_false_2; [done|congruence]. }
  split; [|split; [|split]].
  - unfold calculate_total_revenue. cbn [map]. rewrite P1, P2, P3. compute_done.
  - unfold calculate_total_orders. change (map order_id [a1; a2; b])
      with (omap (λ r, Some (order_id r)) [a1; a2; b]).
    by rewrite Hkeys.
  - unfold calculate_average_order_value, groupby, group_keys.
    rewrite Hkeys. unfold sort. cbn [foldr insert_sorted].
    destruct (string_leb (order_id a1) (order_id b));
      cbn [map]; rewrite HgA, HgB; unfold sum_price; cbn [map snd];
      rewrite P1, P2, P3; compute_done.
  - unfold calculate_items_per_order, groupby, group_keys.
    rewrite Hkeys. unfold sort. cbn [foldr insert_sorted].
    destruct (string_leb (order_id a1) (order_id b));
      cbn [map]; rewrite HgA, HgB; compute_done.
Qed.

Lemma two_orders_scenario_witness :
  order_id (line_item "A" 2 20 (Some 1) NaT NaT)
  = order_id (line_item "A" 1 10 (Some 1) NaT NaT) ∧
  order_id (line_item "B" 1 50 (Some 4) NaT NaT)
  ≠ order_id (line_item "A" 1 10 (Some 1) NaT NaT) ∧
  price (line_item "A" 1 10 (Some 1) NaT NaT) = Qc_of_Z 10 ∧
  price (line_item "A" 2 20 (Some 1) NaT NaT) = Qc_of_Z 20 ∧
  price (line_item "B" 1 50 (Some 4) NaT NaT) = Qc_of_Z 50 ∧
  calculate_total_revenue two_orders_reviewed = Qc_of_Z 80 ∧
  calculate_total_orders two_orders_reviewed = 2 ∧
  calculate_average_order_value two_orders_reviewed = Fin (Qc_of_Z 40) ∧
  calculate_items_per_order two_orders_reviewed = Fin (Qc_of_Z 3 / Qc_of_Z 2).
Proof.
  split; [reflexivity|]. split; [discriminate|].
  split; [reflexivity|]. split; [reflexivity|]. split; [reflexivity|].
  apply (two_orders_scenario
           (line_item "A" 1 10 (Some 1) NaT NaT)
           (line_item "A" 2 20 (Some 1) NaT NaT)
           (line_item "B" 1 50 (Some 4) NaT NaT)).
  - reflexivity.
  - discriminate.
  - reflexivity.
  - reflexivity.
  - reflexivity.
Defined.

(** ** Grouped revenue *)

Lemma list_filter_bool_decide {A} (P : A → Prop) `{∀ x, Decision (P x)} (l : list A) :
  List.filter (λ x, bool_decide (P x)) l = filter P l.
Proof.
  induction l as [|x t IH]; [done|].
  cbn [List.filter]. rewrite filter_cons, IH.
  by destruct (decide (P x)); [rewrite bool_decide_eq_true_2|rewrite bool_decide_eq_false_2].
Qed.

Lemma Qc_sum_map_add {A} (f g : A → Qc) (l : list A) :
  Qc_sum (map (λ k, f k + g k)%Qc l) = (Qc_sum (map f l) + Qc_sum (map g l))%Qc.
Proof.
  induction l as [|x t IH]; cbn [map].
  - unfold Qc_sum. simpl. ring.
  - rewrite !Qc_sum_cons, IH. ring.
Qed.

Lemma Qc_sum_map_zero {A} (l : list A) : Qc_sum (map (λ _, 0%Qc) l) = 0%Qc.
Proof.
  induction l as [|x t IH]; [done|].
  cbn [map]. rewrite Qc_sum_cons, IH. ring.
Qed.

Lemma Qc_sum_indicator `{EqDecision A} (k0 : A) (c : Qc) (l : list A) :
  NoDup l →
  Qc_sum (map (λ k, if bool_decide (k0 = k) then c else 0%Qc) l)
  = if bool_decide (k0 ∈ l) then c else 0%Qc.
Proof.
  induction 1 as [|x t Hx Hnd IH]; cbn [map].
  - done.
  - rewrite Qc_sum_cons, IH.
    destruct (decide (k0 = x)) as [->|Hne].
    + rewrite (bool_decide_eq_true_2 (x = x) eq_refl).
      rewrite (bool_decide_eq_false_2 _ Hx).
      rewrite bool_decide_eq_true_2 by (by left). ring.
    + rewrite (bool_decide_eq_false_2 _ Hne).
      destruct (decide (k0 ∈ t)) as [Hin|Hnin].
      * rewrite (bool_decide_eq_true_2 _ Hin).
        rewrite bool_decide_eq_true_2 by (by right). ring.
      * rewrite (bool_decide_eq_false_2 _ Hnin).
        rewrite bool_decide_eq_false_2; [ring|].
        rewrite elem_of_cons. tauto.
Qed.

Section group_totals.
Context {Row K : Type} `{EqDecision K}.
Variable key_leb : K → K → bool.
Variable key : Row → option K.
Variable val : Row → Qc.

(** Adding up the totals of the groups of the keys [ks] adds up every row
    whose key is among [ks], once. *)
Lemma sum_of_group_totals (ks : list K) (rows : list Row) :
  NoDup ks →
  Qc_sum (map (λ k, Qc_sum (map val (group_rows key k rows))) ks)
  = Qc_sum (map val (List.filter (keyed_in key ks) rows)).
Proof.
  intros Hnd. induction rows as [|r t IH].
  - cbn [group_rows List.filter map]. apply Qc_sum_map_zero.
  - transitivity
      (Qc_sum (map (λ k, (if bool_decide (key r = Some k) then val r else 0)
                       + Qc_sum (map val (group_rows key k t)))%Qc ks)).
    { f_equal. apply map_ext. intros k. unfold group_rows. cbn [List.filter].
      destruct (bool_decide (key r = Some k)); cbn [map].
      - by rewrite Qc_sum_cons.
      - ring. }
    rewrite Qc_sum_map_add, IH. cbn [List.filter]. unfold keyed_in at 2.
    destruct (key r) as [k0|] eqn:Hk.
    + transitivity
        ((if bool_decide (k0 ∈ ks) then val r else 0)
         + Qc_sum (map val (List.filter (keyed_in key ks) t)))%Qc.
      { f_equal. rewrite <- (Qc_sum_indicator k0 (val r) ks Hnd).
        f_equal. apply map_ext. intros k.
        destruct (decide (k0 = k)) as [->|Hne].
        - by rewrite !bool_decide_eq_true_2.
        - rewrite !bool_decide_eq_false_2; [done|done|congruence]. }
      destruct (bool_decide (k0 ∈ ks)); cbn [map].
      * by rewrite Qc_sum_cons.
      * ring.
    + transitivity (0 + Qc_sum (map val (List.filter (keyed_in key ks) t)))%Qc; [|ring].
      f_equal. etrans; [|apply (Qc_sum_map_zero ks)].
      reflexivity.
Qed.

(** The group totals of [groupby] add up to the total over the rows whose
    key is not null. *)
Lemma groupby_totals_sum (rows : list Row) :
  Qc_sum (map snd (groupby key_leb key (λ g, Qc_sum (map val g)) rows))
  = Qc_sum (map val (List.filter (λ r, bool_decide (is_Some (key r))) rows)).
Proof.
  unfold groupby. rewrite map_map. cbn [snd].
  rewrite sum_of_group_totals by apply NoDup_group_keys.
  f_equal. f_equal. apply filter_ext_in. intros r Hr.
  unfold keyed_in. destruct (key r) as [k|] eqn:Hk.
  - rewrite !bool_decide_eq_true_2; [done|by eexists|].
    apply elem_of_group_keys. exists r. by rewrite list_elem_of_In.
  - rewrite bool_decide_eq_false_2; [done|]. by intros [? ?].
Qed.
End group_totals.

Lemma groupby_revenue_grouped_by {K} `{EqDecision K} (key_leb : K → K → bool)
    (key : SalesRow → option K) (rows : DataFrame) :
  spec.revenue_grouped_by key rows (groupby key_leb key sum_price rows).
Proof.
  split.
  - rewrite groupby_keys. apply NoDup_group_keys.
  - intros k v. rewrite elem_of_groupby. unfold group_rows, sum_price.
    by rewrite (list_filter_bool_decide (λ r, key r = Some k)).
Qed.

Lemma pair_leb_total (a b : Z * Z) : pair_leb a b = true ∨ pair_leb b a = true.
Proof.
  unfold pair_leb.
  destruct (Z.ltb_spec a.1 b.1), (Z.ltb_spec b.1 a.1),
           (Z.eqb_spec a.1 b.1), (Z.eqb_spec b.1 a.1),
           (Z.leb_spec a.2 b.2), (Z.leb_spec b.2 a.2);
    cbn [orb andb]; auto; lia.
Qed.

(** The (year, month) frame is in chronological order, whatever the order
    of the line items. *)
Lemma revenue_by_year_month_sorted (sales_data : DataFrame) (out : list (Z * Z * Qc)) :
  calculate_revenue_by_period sales_data "year-month" = Ok (ByYearMonth out) →
  Sorted (λ a b, pair_leb a b = true) (map fst out).
Proof.
  intros [= <-]. apply groupby_keys_Sorted, pair_leb_total.
Qed.

(** C7. [calculate_revenue_by_period] returns the price totals grouped by
    year for 'year', by month for 'month' and by (year, month) for
    'year-month', and raises ValueError for every other period. *)
Theorem revenue_by_period_cases (sales_data : DataFrame) (period : string) :
  (period = "year" →
     ∃ out, calculate_revenue_by_period sales_data period = Ok (ByYear out)
            ∧ spec.revenue_grouped_by year sales_data out) ∧
  (period = "month" →
     ∃ out, calculate_revenue_by_period sales_data period = Ok (ByMonth out)
            ∧ spec.revenue_grouped_by month sales_data out) ∧
  (period = "year-month" →
     ∃ out, calculate_revenue_by_period sales_data period = Ok (ByYearMonth out)
            ∧ spec.revenue_grouped_by year_month sales_data out) ∧
  (period ≠ "year" → period ≠ "month" → period ≠ "year-month" →
     ∃ msg, calculate_revenue_by_period sales_data period = Raise (ValueError msg)).
Proof.
  repeat split.
  - intros ->. eexists. split; [reflexivity|]. apply groupby_revenue_grouped_by.
  - intros ->. eexists. split; [reflexivity|]. apply groupby_revenue_grouped_by.
  - intros ->. eexists. split; [reflexivity|]. apply groupby_revenue_grouped_by.
  - intros H1 H2 H3. unfold calculate_revenue_by_period.
    rewrite !bool_decide_eq_false_2 by done. by eexists.
Qed.

(** ** Revenue by category *)

Lemma Sorted_weaken {A} (R R' : A → A → Prop) (l : list A) :
  (∀ x y, R x y → R' x y) → Sorted R l → Sorted R' l.
Proof.
  intros Himp. induction 1 as [|x t Hs IH Hhd]; constructor; [done|].
  destruct Hhd; constructor. by apply Himp.
Qed.

Lemma filter_Forall_id {A} (P : A → Prop) `{∀ x, Decision (P x)} (l : list A) :
  Forall P l → filter P l = l.
Proof.
  induction 1 as [|x t Hx _ IH]; [done|].
  by rewrite filter_cons_True, IH.
Qed.

Lemma by_revenue_desc_total {K} (a b : K * Qc) :
  by_revenue_desc a b = true ∨ by_revenue_desc b a = true.
Proof. unfold by_revenue_desc. destruct (Qc_leb_total a.2 b.2); auto. Qed.

(** The output of [calculate_revenue_by_category] never increases in
    revenue from one row to the next. *)
Lemma revenue_by_category_sorted (sales_data : DataFrame) :
  StronglySorted (λ a b : string * Qc, (b.2 ≤ a.2)%Qc)
                 (calculate_revenue_by_category sales_data).
Proof.
  apply Sorted_StronglySorted.
  - intros a b c Hab Hbc. by eapply Qcle_trans.
  - eapply Sorted_weaken; [|apply sort_Sorted, by_revenue_desc_total].
    intros a b. unfold by_revenue_desc. by rewrite Qc_leb_le.
Qed.

(** C3 (amended). The output is sorted by non-increasing revenue and has one
    row per category name that occurs, with the sum of the prices of the
    rows of that category; a row with a null category belongs to no group.
    On a table whose prices float64 adds without rounding, the group
    revenues therefore add up to the revenue of the rows that have a
    category, which is the total revenue when every row has one. *)
Theorem revenue_by_category_groups (sales_data : DataFrame) :
  StronglySorted (λ a b : string * Qc, (b.2 ≤ a.2)%Qc)
                 (calculate_revenue_by_category sales_data) ∧
  spec.revenue_grouped_by product_category_name sales_data
                          (calculate_revenue_by_category sales_data) ∧
  (exact_prices sales_data = true →
   sum (map snd (calculate_revenue_by_category sales_data))
   = calculate_total_revenue
       (filter (λ r, is_Some (product_category_name r)) sales_data) ∧
   (Forall (λ r, is_Some (product_category_name r)) sales_data →
    sum (map snd (calculate_revenue_by_category sales_data))
    = calculate_total_revenue sales_data)).
Proof.
  assert (Hperm : calculate_revenue_by_category sales_data
                  ≡ₚ groupby string_leb product_category_name sum_price sales_data)
    by apply sort_perm.
  assert (Hsum : sum (map snd (calculate_revenue_by_category sales_data))
                 = calculate_total_revenue
                     (filter (λ r, is_Some (product_category_name r)) sales_data)).
  { unfold sum. rewrite (Qc_sum_perm _ _ (Permutation_map snd Hperm)).
    unfold sum_price, sum.
    rewrite (groupby_totals_sum string_leb product_category_name price).
    by rewrite (list_filter_bool_decide (λ r, is_Some (product_category_name r))). }
  split; [apply revenue_by_category_sorted|]. split.
  - destruct (groupby_revenue_grouped_by string_leb product_category_name sales_data)
      as [Hnd Hin].
    split.
    + by rewrite (Permutation_map fst Hperm).
    + intros k v. by rewrite Hperm.
  - intros _. split; [done|]. intros Hall. by rewrite Hsum, filter_Forall_id.
Qed.

Lemma revenue_by_category_groups_witness :
  exact_prices two_categories = true ∧
  Forall (λ r, is_Some (product_category_name r)) two_categories ∧
  sum (map snd (calculate_revenue_by_category two_categories))
  = calculate_total_revenue two_categories.
Proof.
  assert (He : exact_prices two_categories = true) by reflexivity.
  assert (H : Forall (λ r, is_Some (product_category_name r)) two_categories).
  { repeat constructor; by eexists. }
  split; [exact He|]. split; [exact H|].
  exact (proj2 (proj2 (proj2 (revenue_by_category_groups two_categories)) He) H).
Defined.

(** C3, as stated, fails: the only row of [uncategorised_item] has a null
    category; it forms no group, and the group revenues (none) do not add up
    to the total revenue 10. *)
Lemma revenue_by_category_drops_null_category :
  calculate_revenue_by_category uncategorised_item = [] ∧
  sum (map snd (calculate_revenue_by_category uncategorised_item))
  ≠ calculate_total_revenue uncategorised_item.
Proof. split; [reflexivity|discriminate]. Qed.

(** ** Month-over-month growth *)

Lemma fnum_ratio_minus_one (c p : Qc) :
  p ≠ 0%Qc →
  fsub (fdiv (Fin c) (Fin p)) (Fin 1) = Fin ((c - p) / p).
Proof.
  intros Hp. unfold fdiv. rewrite (Qc_eqb_neq _ _ Hp). cbn [fsub].
  f_equal. by field.
Qed.

Lemma length_pct_change_from (prev : fnum) (xs : list Qc) :
  length (pct_change_from prev xs) = length xs.
Proof.
  revert prev. induction xs as [|x t IH]; intros prev; [done|].
  cbn [pct_change_from length]. by rewrite IH.
Qed.

Lemma pct_change_from_lookup (xs : list Qc) (prev : fnum) (i : nat) (p c : Qc) :
  xs !! i = Some p → xs !! S i = Some c → p ≠ 0%Qc →
  pct_change_from prev xs !! S i = Some (Fin ((c - p) / p)).
Proof.
  revert prev i. induction xs as [|x t IH]; intros prev i Hp Hc Hne; [done|].
  cbn [pct_change_from]. destruct i as [|i].
  - injection Hp as ->. destruct t as [|y t']; [done|].
    injection Hc as ->. cbn [pct_change_from].
    change (Some (fsub (fdiv (Fin c) (Fin p)) (Fin 1)) = Some (Fin ((c - p) / p))).
    by rewrite fnum_ratio_minus_one.
  - change (pct_change_from (Fin x) t !! S i = Some (Fin ((c - p) / p))).
    by eapply IH.
Qed.

Lemma pct_change_from_defined (xs : list Qc) (p : Qc) :
  p ≠ 0%Qc → Forall (λ x, x ≠ 0%Qc) xs →
  List.filter fnotna (pct_change_from (Fin p) xs) = pct_change_from (Fin p) xs.
Proof.
  intros Hp Hall. revert p Hp.
  induction Hall as [|x t Hx _ IH]; intros p Hp; [done|].
  cbn [pct_change_from]. rewrite fnum_ratio_minus_one by done.
  cbn [List.filter fnotna]. by rewrite IH.
Qed.

(** C4 (amended). [calculate_mom_growth] keeps the rows in the order in
    which it receives them.  The growth of the first row is null; the growth
    of every later row is the relative change from the row just before it
    in the input, whenever that row's revenue is not zero.  With no zero
    revenue, N rows carry N-1 defined growth values. *)
Theorem mom_growth_adjacent_input_rows {K} (revenue_by_month : list (K * Qc)) :
  map fst (calculate_mom_growth revenue_by_month) = revenue_by_month ∧
  (∀ row, revenue_by_month !! 0%nat = Some row →
          calculate_mom_growth revenue_by_month !! 0%nat = Some (row, NaN)) ∧
  (∀ i prev cur,
     revenue_by_month !! i = Some prev →
     revenue_by_month !! S i = Some cur →
     prev.2 ≠ 0%Qc →
     calculate_mom_growth revenue_by_month !! S i
     = Some (cur, Fin ((cur.2 - prev.2) / prev.2))) ∧
  (Forall (λ row, row.2 ≠ 0%Qc) revenue_by_month →
   length (List.filter fnotna (map snd (calculate_mom_growth revenue_by_month)))
   = (length revenue_by_month - 1)%nat).
Proof.
  unfold calculate_mom_growth, pct_change.
  split; [|split; [|split]].
  - change (map fst) with (fmap (M:=list) (@fst (K * Qc) fnum)).
    apply fst_zip. by rewrite length_pct_change_from, length_map.
  - intros row Hrow. destruct revenue_by_month as [|r t]; [done|].
    by injection Hrow as ->.
  - intros i prev cur Hprev Hcur Hne.
    apply lookup_zip_with_Some. exists cur, (Fin ((cur.2 - prev.2) / prev.2)).
    split; [done|]. split; [done|].
    apply pct_change_from_lookup with (p := prev.2); [| |done].
    + change (map snd revenue_by_month) with (snd <$> revenue_by_month).
      by rewrite list_lookup_fmap, Hprev.
    + change (map snd revenue_by_month) with (snd <$> revenue_by_month).
      by rewrite list_lookup_fmap, Hcur.
  - intros Hall.
    change (map snd (zip ?l ?k)) with (snd <$> zip l k).
    rewrite snd_zip by (by rewrite length_pct_change_from, length_map).
    destruct Hall as [|r t Hr Hall]; [done|].
    cbn [map pct_change_from fdiv fsub List.filter fnotna length].
    rewrite pct_change_from_defined, length_pct_change_from, length_map; [lia|done|].
    apply Forall_fmap. by eapply Forall_impl.
Qed.

Lemma mom_growth_adjacent_input_rows_witness :
  jan_feb !! 0%nat = Some ((2023, 1), Qc_of_Z 100) ∧
  jan_feb !! 1%nat = Some ((2023, 2), Qc_of_Z 200) ∧
  Qc_of_Z 100 ≠ 0%Qc ∧
  Forall (λ row : Z * Z * Qc, row.2 ≠ 0%Qc) jan_feb ∧
  calculate_mom_growth jan_feb !! 0%nat = Some ((2023, 1), Qc_of_Z 100, NaN) ∧
  calculate_mom_growth jan_feb !! 1%nat
  = Some ((2023, 2), Qc_of_Z 200, Fin ((Qc_of_Z 200 - Qc_of_Z 100) / Qc_of_Z 100)) ∧
  length (List.filter fnotna (map snd (calculate_mom_growth jan_feb))) = 1%nat.
Proof.
  destruct (mom_growth_adjacent_input_rows jan_feb) as (_ & Hfirst & Hnext & Hcount).
  assert (H0 : jan_feb !! 0%nat = Some ((2023, 1), Qc_of_Z 100)) by reflexivity.
  assert (H1 : jan_feb !! 1%nat = Some ((2023, 2), Qc_of_Z 200)) by reflexivity.
  assert (Hne : Qc_of_Z 100 ≠ 0%Qc) by discriminate.
  assert (Hall : Forall (λ row : Z * Z * Qc, row.2 ≠ 0%Qc) jan_feb)
    by (repeat constructor; discriminate).
  split; [exact H0|]. split; [exact H1|]. split; [exact Hne|]. split; [exact Hall|].
  split; [exact (Hfirst _ H0)|].
  split; [exact (Hnext 0%nat _ _ H0 H1 Hne)|].
  exact (Hcount Hall).
Defined.

(** C4, as stated, fails: the function does not sort.  Given the same two
    months in reverse order it reports the growth of February as null and
    that of January as -50%, where the chronological input gives null for
    January and +100% for February. *)
Lemma mom_growth_depends_on_row_order :
  jan_feb ≡ₚ feb_jan ∧
  calculate_mom_growth jan_feb
  = [ ((2023, 1), Qc_of_Z 100, NaN); ((2023, 2), Qc_of_Z 200, Fin (Qc_of_Z 1)) ] ∧
  calculate_mom_growth feb_jan
  = [ ((2023, 2), Qc_of_Z 200, NaN);
      ((2023, 1), Qc_of_Z 100, Fin (Qc_of_Z (-1) / Qc_of_Z 2)) ] ∧
  ¬ (calculate_mom_growth jan_feb ≡ₚ calculate_mom_growth feb_jan).
Proof.
  split; [apply Permutation_swap|].
  split; [compute_done|]. split; [compute_done|].
  intros Hperm.
  assert (Hin : ((2023, 1), Qc_of_Z 100, NaN) ∈ calculate_mom_growth feb_jan).
  { rewrite <- Hperm. by left. }
  revert Hin. compute_done.
Qed.

(** ** The period filter *)

Lemma mapM_Ok_Forall2 {A B} (f : A → result B) (l : list A) (l' : list B) :
  mapM f l = Ok l' → Forall2 (λ x y, f x = Ok y) l l'.
Proof.
  revert l'. induction l as [|x t IH]; intros l' H.
  - injection H as <-. constructor.
  - cbn [mapM mbind result_bind bind] in H.
    destruct (f x) as [y|e] eqn:Hx; [|done].
    cbn [bind] in H. destruct (mapM f t) as [ys|e] eqn:Ht; [|done].
    injection H as <-. constructor; [done|]. by apply IH.
Qed.

Lemma mapM_fixed {A} (f : A → result A) (l : list A) :
  Forall (λ x, f x = Ok x) l → mapM f l = Ok l.
Proof.
  induction 1 as [|x t Hx _ IH]; [done|].
  cbn [mapM mbind result_bind bind]. rewrite Hx. cbn [bind]. by rewrite IH.
Qed.

Lemma set_order_purchase_timestamp_same (r : SalesRow) (c : datecell) :
  order_purchase_timestamp r = c → set_order_purchase_timestamp c r = r.
Proof. intros <-. by destruct r. Qed.

Lemma list_filter_bool_idem {A} (f : A → bool) (l : list A) :
  List.filter f (List.filter f l) = List.filter f l.
Proof.
  induction l as [|x t IH]; [done|].
  cbn [List.filter]. destruct (f x) eqn:Hx; [|done].
  cbn [List.filter]. by rewrite Hx, IH.
Qed.

Section period_filter.
Variable parse : string → option Z.

(** After the conversion no cell of the purchase column is text. *)
Lemma purchase_to_datetime_is_datetime (df parsed : DataFrame) :
  purchase_to_datetime parse df = Ok parsed →
  Forall (λ r, spec.is_datetime (order_purchase_timestamp r) = true) parsed.
Proof.
  intros H. apply mapM_Ok_Forall2 in H.
  induction H as [|r r' t t' Hr _ IH]; constructor; [|done].
  cbn [mbind result_bind bind] in Hr.
  destruct (order_purchase_timestamp r) as [s|ns|] eqn:Hc; cbn in Hr.
  - destruct (parse s); [|done]. by injection Hr as <-.
  - by injection Hr as <-.
  - by injection Hr as <-.
Qed.

(** A frame whose purchase column is converted already goes through the
    conversion unchanged. *)
Lemma purchase_to_datetime_fixed (df : DataFrame) :
  Forall (λ r, spec.is_datetime (order_purchase_timestamp r) = true) df →
  purchase_to_datetime parse df = Ok df.
Proof.
  intros Hall. apply mapM_fixed. eapply Forall_impl; [done|].
  intros r Hr. cbn [mbind result_bind bind].
  cbv beta in Hr.
  destruct (order_purchase_timestamp r) as [s|ns|] eqn:Hc;
    cbn [spec.is_datetime] in Hr; [discriminate Hr| |];
    cbn [to_datetime_cell mbind result_bind bind]; f_equal;
    by apply set_order_purchase_timestamp_same.
Qed.

Lemma in_range_purchased_within (lo hi : Z) (r : SalesRow) :
  in_range lo hi r = true ↔ spec.purchased_within lo hi r.
Proof.
  unfold in_range, spec.purchased_within, cell_ge, cell_le.
  destruct (order_purchase_timestamp r) as [s|ns|].
  - split; [done|]. by intros (t & ? & _).
  - rewrite andb_true_iff, !Z.leb_le. split.
    + intros [? ?]. by exists ns.
    + by intros (t & [= ->] & ? & ?).
  - split; [done|]. by intros (t & ? & _).
Qed.

(** C6. The rows kept are exactly the rows, after the conversion of the
    purchase column, whose purchase timestamp lies between the first
    instant of start_year-start_month-01 and 23:59:59 of the last calendar
    day of end_month in end_year, both included; for December that last
    instant is January 1 of the next year, minus one day, plus
    23:59:59. *)
Theorem filter_by_date_range_month_interval
    (df parsed : DataFrame) (start_year start_month end_year end_month : Z) :
  1 ≤ start_month ≤ 12 →
  1 ≤ end_month ≤ 12 →
  1678 ≤ start_year ≤ 2261 →
  1678 ≤ end_year ≤ 2261 →
  purchase_to_datetime parse df = Ok parsed →
  ∃ out,
    filter_by_date_range parse df start_year start_month end_year end_month = Ok out ∧
    out = List.filter
            (in_range (spec.first_instant_of_month start_year start_month)
                      (spec.last_instant_of_month end_year end_month)) parsed ∧
    (∀ r, r ∈ out ↔
          r ∈ parsed ∧
          spec.purchased_within
            (spec.first_instant_of_month start_year start_month)
            (spec.last_instant_of_month end_year end_month) r) ∧
    (end_month = 12 →
     spec.last_instant_of_month end_year end_month
     = spec.first_instant_of_month (end_year + 1) 1
       - Timedelta 1 0 0 0 + Timedelta 0 23 59 59).
Proof.
  intros Hsm Hem Hsy Hey Hparsed. eexists. split; [|split; [reflexivity|split]].
  - unfold filter_by_date_range. rewrite Hparsed. cbn [mbind result_bind bind].
    rewrite range_start_ok by done. cbn [bind].
    rewrite range_end_ok by done. reflexivity.
  - intros r. by rewrite elem_of_list_filter_bool, in_range_purchased_within.
  - intros ->. unfold spec.last_instant_of_month, spec.first_instant_of_month.
    pose proof (day_before_next_month end_year 12 ltac:(lia)) as Hday.
    change (12 =? 12) with true in Hday. cbv beta iota in Hday.
    rewrite <- Hday. unfold Timedelta, ns_per_day. lia.
Qed.

(** C8. Filtering the output of the filter again with the same bounds
    returns the same rows. *)
Theorem filter_by_date_range_idempotent
    (df out : DataFrame) (start_year start_month end_year end_month : Z) :
  filter_by_date_range parse df start_year start_month end_year end_month = Ok out →
  filter_by_date_range parse out start_year start_month end_year end_month = Ok out.
Proof.
  unfold filter_by_date_range. intros H.
  destruct (purchase_to_datetime parse df) as [parsed|e] eqn:Hparsed; [|done].
  cbn [mbind result_bind bind] in *.
  destruct (range_start start_year start_month) as [lo|e]; [|done].
  cbn [bind] in *.
  destruct (range_end end_year end_month) as [hi|e]; [|done].
  cbn [bind] in *. injection H as <-.
  rewrite purchase_to_datetime_fixed.
  - cbn [mbind result_bind bind]. by rewrite list_filter_bool_idem.
  - apply purchase_to_datetime_is_datetime in Hparsed.
    apply Forall_forall. intros r Hr. apply elem_of_list_filter_bool in Hr as [Hr _].
    by eapply (proj1 (Forall_forall _ _) Hparsed).
Qed.
End period_filter.

(** ** The period filter over the object store *)

Section period_filter_store.
Variable parse : string → option Z.

(** C10. The call leaves every frame that existed before it as it was, the
    argument included: the conversion of the purchase column is written
    into a copy, and the frame returned is a further new object.  The
    outcome is that of [filter_by_date_range] on the argument's rows. *)
Theorem filter_by_date_range_leaves_argument
    (h : store) (df : nat) (frame : DataFrame)
    (start_year start_month end_year end_month : Z) :
  h !! df = Some frame →
  (∀ l other,
     h !! l = Some other →
     (filter_by_date_range_obj parse df start_year start_month end_year end_month h).2
       !! l = Some other) ∧
  match (filter_by_date_range_obj parse df start_year start_month end_year end_month h).1 with
  | Ok out =>
      out ≠ df ∧
      h !! out = None ∧
      ∃ rows,
        (filter_by_date_range_obj parse df start_year start_month end_year end_month h).2
          !! out = Some rows ∧
        filter_by_date_range parse frame start_year start_month end_year end_month
        = Ok rows
  | Raise e =>
      filter_by_date_range parse frame start_year start_month end_year end_month
      = Raise e
  end.
Proof.
  intros Hdf. unfold filter_by_date_range_obj, filter_by_date_range, alloc.
  rewrite Hdf.
  assert (Hcopy : (h ++ [frame]) !! length h = Some frame)
    by by apply list_lookup_middle.
  assert (Hold : ∀ l other, h !! l = Some other → (h ++ [frame]) !! l = Some other).
  { intros l other Hl. by apply lookup_app_l_Some. }
  assert (Hlt : ∀ l other, h !! l = Some other → (l < length h)%nat).
  { intros l other Hl. by eapply lookup_lt_Some. }
  rewrite Hcopy. change (default [] (Some frame)) with frame.
  destruct (purchase_to_datetime parse frame) as [parsed|e]; cbn [mbind result_bind bind];
    [|by split; [apply Hold|]].
  assert (Hset : ∀ l other, h !! l = Some other →
            <[length h := parsed]> (h ++ [frame]) !! l = Some other).
  { intros l other Hl. rewrite list_lookup_insert_ne; [by apply Hold|].
    specialize (Hlt _ _ Hl). lia. }
  assert (Hread : <[length h := parsed]> (h ++ [frame]) !! length h = Some parsed).
  { apply list_lookup_insert_eq. rewrite length_app. simpl. lia. }
  destruct (range_start start_year start_month) as [lo|e]; cbn [bind];
    [|by split; [apply Hset|]].
  destruct (range_end end_year end_month) as [hi|e]; cbn [bind];
    [|by split; [apply Hset|]].
  rewrite Hread. change (default [] (Some parsed)) with parsed. cbn [fst snd].
  split; [|split; [|split]].
  - intros l other Hl. by apply lookup_app_l_Some, Hset.
  - rewrite length_insert, length_app. simpl.
    specialize (Hlt _ _ Hdf). lia.
  - apply lookup_ge_None. rewrite length_insert, length_app. simpl. lia.
  - eexists. split; [|reflexivity]. by apply list_lookup_middle.
Qed.
End period_filter_store.

Lemma filter_by_date_range_leaves_argument_witness :
  [around_2023] !! 0%nat = Some around_2023 ∧
  (filter_by_date_range_obj parse_new_year 0 2023 1 2023 12 [around_2023]).2 !! 0%nat
  = Some around_2023 ∧
  (filter_by_date_range_obj parse_new_year 0 2023 1 2023 12 [around_2023]).1 = Ok 2%nat.
Proof.
  assert (H0 : [around_2023] !! 0%nat = Some around_2023) by reflexivity.
  destruct (filter_by_date_range_leaves_argument parse_new_year
              [around_2023] 0 around_2023 2023 1 2023 12 H0) as [Hsame _].
  split; [exact H0|]. split; [exact (Hsame 0%nat around_2023 H0)|].
  reflexivity.
Defined.

(** ** The theorems at concrete inputs *)

Lemma filter_by_date_range_month_interval_witness :
  1 ≤ 1 ≤ 12 ∧ 1 ≤ 12 ≤ 12 ∧ 1678 ≤ 2023 ≤ 2261 ∧
  purchase_to_datetime parse_new_year around_2023 = Ok around_2023_converted ∧
  filter_by_date_range parse_new_year around_2023 2023 1 2023 12 = Ok within_2023.
Proof.
  assert (Hm1 : 1 ≤ 1 ≤ 12) by lia.
  assert (Hm12 : 1 ≤ 12 ≤ 12) by lia.
  assert (Hy : 1678 ≤ 2023 ≤ 2261) by lia.
  assert (Hp : purchase_to_datetime parse_new_year around_2023
               = Ok around_2023_converted) by reflexivity.
  destruct (filter_by_date_range_month_interval parse_new_year
              around_2023 around_2023_converted 2023 1 2023 12 Hm1 Hm12 Hy Hy Hp)
    as (out & Hout & Hrows & _).
  split; [exact Hm1|]. split; [exact Hm12|]. split; [exact Hy|]. split; [exact Hp|].
  rewrite Hout, Hrows. reflexivity.
Defined.

Lemma filter_by_date_range_idempotent_witness :
  filter_by_date_range parse_new_year around_2023 2023 1 2023 12 = Ok within_2023 ∧
  filter_by_date_range parse_new_year within_2023 2023 1 2023 12 = Ok within_2023.
Proof.
  assert (H : filter_by_date_range parse_new_year around_2023 2023 1 2023 12
              = Ok within_2023) by reflexivity.
  split; [exact H|].
  exact (filter_by_date_range_idempotent parse_new_year
           around_2023 within_2023 2023 1 2023 12 H).
Defined.

Lemma revenue_by_period_cases_witness :
  (∃ out, calculate_revenue_by_period two_months "year" = Ok (ByYear out)
          ∧ spec.revenue_grouped_by year two_months out) ∧
  (∃ out, calculate_revenue_by_period two_months "month" = Ok (ByMonth out)
          ∧ spec.revenue_grouped_by month two_months out) ∧
  (∃ out, calculate_revenue_by_period two_months "year-month" = Ok (ByYearMonth out)
          ∧ spec.revenue_grouped_by year_month two_months out) ∧
  "week" ≠ "year" ∧ "week" ≠ "month" ∧ "week" ≠ "year-month" ∧
  (∃ msg, calculate_revenue_by_period two_months "week" = Raise (ValueError msg)).
Proof.
  destruct (revenue_by_period_cases two_months "year") as (Hy & _ & _ & _).
  destruct (revenue_by_period_cases two_months "month") as (_ & Hm & _ & _).
  destruct (revenue_by_period_cases two_months "year-month") as (_ & _ & Hym & _).
  destruct (revenue_by_period_cases two_months "week") as (_ & _ & _ & Hbad).
  assert (N1 : "week" ≠ "year") by discriminate.
  assert (N2 : "week" ≠ "month") by discriminate.
  assert (N3 : "week" ≠ "year-month") by discriminate.
  split; [exact (Hy eq_refl)|]. split; [exact (Hm eq_refl)|].
  split; [exact (Hym eq_refl)|].
  split; [exact N1|]. split; [exact N2|]. split; [exact N3|].
  exact (Hbad N1 N2 N3).
Defined.

(** ** Worked examples *)

(** The monthly revenue frame comes out in chronological order whatever the
    order of the line items, and feeds [calculate_mom_growth]. *)
Example revenue_by_year_month_example :
  calculate_revenue_by_period two_months "year-month"
  = Ok (ByYearMonth [ ((2023, 1), Qc_of_Z 30); ((2023, 2), Qc_of_Z 50) ]).
Proof. compute_done. Qed.

Example mom_growth_example :
  calculate_mom_growth [ ((2023, 1), Qc_of_Z 30); ((2023, 2), Qc_of_Z 50) ]
  = [ ((2023, 1), Qc_of_Z 30, NaN);
      ((2023, 2), Qc_of_Z 50, Fin (Qc_of_Z 2 / Qc_of_Z 3)) ].
Proof. compute_done. Qed.

(** A zero revenue turns the next growth value into an infinity, or into a
    null when the next revenue is zero as well. *)
Example mom_growth_after_zero_example :
  map snd (calculate_mom_growth
             [ (1, Qc_of_Z 0); (2, Qc_of_Z 5); (3, Qc_of_Z 0); (4, Qc_of_Z 0) ])
  = [ NaN; Inf false; Fin (Qc_of_Z (-1)); NaN ].
Proof. compute_done. Qed.

(** The store after a call on a frame whose purchase column is text: the
    argument at reference 0 still holds the text, the copy at reference 1
    holds the converted column, and reference 2 is the frame returned. *)
Example filter_by_date_range_obj_example :
  filter_by_date_range_obj parse_new_year 0 2023 1 2023 12 [around_2023]
  = (Ok 2%nat, [around_2023; around_2023_converted; within_2023]).
Proof. reflexivity. Qed.

(** An unparseable text raises, and a month outside 1..12 raises. *)
Example filter_by_date_range_unparseable_example :
  filter_by_date_range (λ _, None) around_2023 2023 1 2023 12
  = Raise (DateParseError "2023-01-01 00:00:00").
Proof. reflexivity. Qed.

Example filter_by_date_range_bad_month_example :
  filter_by_date_range parse_new_year around_2023 2023 13 2023 12
  = Raise (ValueError "month must be in 1..12").
Proof. reflexivity. Qed.

(** A start after the end keeps no row. *)
Example filter_by_date_range_reversed_example :
  filter_by_date_range parse_new_year around_2023 2023 12 2023 1 = Ok [].
Proof. reflexivity. Qed.

(** ** Joins *)

Lemma list_filter_bool_none {A} (f : A → bool) (l : list A) :
  (∀ x, In x l → f x = false) → List.filter f l = [].
Proof.
  induction l as [|x t IH]; intros Hnone; [done|].
  cbn [List.filter]. rewrite (Hnone x) by by left.
  apply IH. intros y Hy. apply Hnone. by right.
Qed.

Section merge_facts.
Context {L R K O : Type} `{EqDecision K}.
Variable left_on : L → K.
Variable right_on : R → K.

Lemma elem_of_matching (l : L) (right : list R) (r : R) :
  r ∈ matching left_on right_on l right ↔ r ∈ right ∧ right_on r = left_on l.
Proof.
  unfold matching. rewrite !list_elem_of_In, filter_In, bool_decide_eq_true.
  done.
Qed.

Lemma elem_of_merge_inner (combine : L → R → O) left right (o : O) :
  o ∈ merge_inner left_on right_on combine left right ↔
  ∃ l r, l ∈ left ∧ r ∈ right ∧ right_on r = left_on l ∧ o = combine l r.
Proof.
  unfold merge_inner. rewrite list_elem_of_In, in_flat_map. split.
  - intros (l & Hl & Ho). apply in_map_iff in Ho as (r & <- & Hr).
    apply list_elem_of_In, elem_of_matching in Hr as [Hr Hk].
    exists l, r. by rewrite list_elem_of_In.
  - intros (l & r & Hl & Hr & Hk & ->). exists l.
    split; [by apply list_elem_of_In|].
    apply in_map, list_elem_of_In, elem_of_matching. done.
Qed.

(** With distinct keys on the right, a left row has at most one match:
    the first right row with its key. *)
Lemma matching_unique (l : L) (right : list R) :
  NoDup (map right_on right) →
  matching left_on right_on l right
  = option_list (List.find (λ r, bool_decide (right_on r = left_on l)) right).
Proof.
  unfold matching. induction right as [|r t IH]; intros Hnd; [done|].
  cbn [map] in Hnd. apply NoDup_cons in Hnd as [Hr Hnd].
  cbn [List.filter List.find].
  destruct (bool_decide (right_on r = left_on l)) eqn:Hk.
  - apply bool_decide_eq_true in Hk.
    change (option_list (Some r)) with [r]. f_equal.
    apply list_filter_bool_none. intros x Hx.
    apply bool_decide_eq_false. intros Hxk. apply Hr.
    rewrite Hk, <- Hxk. apply list_elem_of_In, in_map, Hx.
  - by apply IH.
Qed.

Lemma merge_inner_unique (combine : L → R → O) left right :
  NoDup (map right_on right) →
  merge_inner left_on right_on combine left right
  = omap (λ l, combine l
                 <$> List.find (λ r, bool_decide (right_on r = left_on l)) right)
         left.
Proof.
  intros Hnd. unfold merge_inner. induction left as [|l t IH]; [done|].
  change (flat_map ?f (l :: t)) with (f l ++ flat_map f t).
  rewrite IH, matching_unique by done.
  change (omap ?f (l :: t)) with
    (match f l with Some y => y :: omap f t | None => omap f t end).
  cbv beta.
  by destruct (List.find (λ r, bool_decide (right_on r = left_on l)) right).
Qed.

Lemma merge_left_unique (combine : L → option R → O) left right :
  NoDup (map right_on right) →
  merge_left left_on right_on combine left right
  = map (λ l, combine l
                (List.find (λ r, bool_decide (right_on r = left_on l)) right))
        left.
Proof.
  intros Hnd. unfold merge_left. induction left as [|l t IH]; [done|].
  change (flat_map ?f (l :: t)) with (f l ++ flat_map f t).
  rewrite IH, matching_unique by done.
  change (map ?f (l :: t)) with (f l :: map f t). cbv beta.
  by destruct (List.find (λ r, bool_decide (right_on r = left_on l)) right).
Qed.

(** A left merge has one row per match of each left row, and one row for
    a left row without match. *)
Lemma length_merge_left (combine : L → option R → O) left right :
  length (merge_left left_on right_on combine left right)
  = sum_list (map (λ l, Nat.max 1 (length (matching left_on right_on l right))) left).
Proof.
  unfold merge_left. induction left as [|l t IH]; [done|].
  change (flat_map ?f (l :: t)) with (f l ++ flat_map f t).
  rewrite length_app, IH.
  change (map ?g (l :: t)) with (g l :: map g t).
  change (sum_list (?x :: ?xs)) with (x + sum_list xs)%nat.
  f_equal. cbv beta.
  destruct (matching left_on right_on l right) as [|r rs]; [done|].
  rewrite length_map. cbn [length]. lia.
Qed.
End merge_facts.

Lemma Qc_sum_app (l1 l2 : list Qc) : Qc_sum (l1 ++ l2) = (Qc_sum l1 + Qc_sum l2)%Qc.
Proof.
  induction l1 as [|x t IH].
  - change (Qc_sum []) with 0%Qc. cbn [app]. ring.
  - cbn [app]. rewrite !Qc_sum_cons, IH. ring.
Qed.

Lemma list_filter_bool_omap {A B} (p : B → bool) (f : A → option B) (l : list A) :
  List.filter p (omap f l)
  = omap (λ x, y ← f x; if p y then Some y else None) l.
Proof.
  induction l as [|x t IH]; [done|].
  change (omap ?g (x :: t)) with
    (match g x with Some y => y :: omap g t | None => omap g t end).
  cbv beta. destruct (f x) as [y|]; cbn [mbind option_bind]; [|done].
  cbn [List.filter]. rewrite IH. by destruct (p y).
Qed.

Lemma omap_pointwise {A B} (f g : A → option B) (l : list A) :
  (∀ x, f x = g x) → omap f l = omap g l.
Proof.
  intros Hfg. induction l as [|x t IH]; [done|].
  change (omap ?h (x :: t)) with
    (match h x with Some y => y :: omap h t | None => omap h t end).
  by rewrite Hfg, IH.
Qed.

Lemma length_omap_le {A B} (f : A → option B) (l : list A) :
  (length (omap f l) ≤ length l)%nat.
Proof.
  induction l as [|x t IH]; [done|].
  change (omap f (x :: t)) with
    (match f x with Some y => y :: omap f t | None => omap f t end).
  destruct (f x); cbn [length]; lia.
Qed.

(** X1. The rows of [create_sales_dataset] are the pairs of a line item and
    an order with the same order_id, restricted to the orders whose status
    equals [status_filter] exactly unless the filter is the empty string; a
    line item without order contributes nothing. *)
Theorem create_sales_dataset_rows
    (order_items : list OrderItem) (orders : list Order) (status_filter : string)
    (r : SalesRow) :
  r ∈ create_sales_dataset order_items orders status_filter ↔
  ∃ i o, i ∈ order_items ∧ o ∈ orders ∧ o_order_id o = oi_order_id i ∧
         (status_filter = "" ∨ o_order_status o = status_filter) ∧
         r = sales_row i o.
Proof.
  unfold create_sales_dataset. destruct (decide (status_filter = "")) as [->|Hne].
  - rewrite bool_decide_eq_true_2 by done. rewrite elem_of_merge_inner.
    split.
    + intros (i & o & ? & ? & ? & ->). exists i, o.
      repeat split; try done. by left.
    + intros (i & o & ? & ? & ? & _ & ->). by exists i, o.
  - rewrite bool_decide_eq_false_2 by done.
    rewrite elem_of_list_filter_bool, elem_of_merge_inner, bool_decide_eq_true.
    split.
    + intros [(i & o & ? & ? & ? & ->) Hst]. exists i, o.
      repeat split; try done. right. exact Hst.
    + intros (i & o & ? & ? & ? & [?|Hst] & ->); [done|].
      split; [by exists i, o|exact Hst].
Qed.

(** X2. When the order table has one row per order_id, every line item
    gives at most one row, in the order of the line items: the row built
    with its order if that order exists and passes the status filter.  So
    the result has no more rows than there are line items. *)
Theorem create_sales_dataset_unique_orders
    (order_items : list OrderItem) (orders : list Order) (status_filter : string) :
  NoDup (map o_order_id orders) →
  create_sales_dataset order_items orders status_filter
  = omap (λ i, o ← List.find (λ o, bool_decide (o_order_id o = oi_order_id i)) orders;
               if bool_decide (status_filter = "")
                  || bool_decide (o_order_status o = status_filter)
               then Some (sales_row i o) else None)
         order_items
  ∧ (length (create_sales_dataset order_items orders status_filter)
     ≤ length order_items)%nat.
Proof.
  intros Hnd.
  assert (Heq : create_sales_dataset order_items orders status_filter
    = omap (λ i, o ← List.find (λ o, bool_decide (o_order_id o = oi_order_id i)) orders;
                 if bool_decide (status_filter = "")
                    || bool_decide (o_order_status o = status_filter)
                 then Some (sales_row i o) else None)
           order_items).
  { unfold create_sales_dataset. rewrite merge_inner_unique by done.
    destruct (bool_decide (status_filter = "")); cbn [orb].
    - apply omap_pointwise. intros i.
      by destruct (List.find _ orders).
    - rewrite list_filter_bool_omap. apply omap_pointwise.
      intros i. by destruct (List.find _ orders). }
  split; [exact Heq|]. rewrite Heq. apply length_omap_le.
Qed.

Lemma create_sales_dataset_unique_orders_witness :
  NoDup (map o_order_id sample_orders) ∧
  map (λ r, (order_id r, order_item_id r))
      (create_sales_dataset sample_items sample_orders "delivered")
  = [("A", 1); ("A", 2)] ∧
  (length (create_sales_dataset sample_items sample_orders "delivered")
   ≤ length sample_items)%nat.
Proof.
  assert (Hnd : NoDup (map o_order_id sample_orders)).
  { apply NoDup_ListNoDup. repeat constructor; cbn; intuition discriminate. }
  destruct (create_sales_dataset_unique_orders sample_items sample_orders
              "delivered" Hnd) as [Heq Hlen].
  split; [exact Hnd|]. split; [|exact Hlen].
  rewrite Heq. reflexivity.
Defined.

(** The total of a column that a left merge copies from the left rows counts
    every left row once per match, and once if it has no match. *)
Lemma merge_left_total {L R K O} `{EqDecision K}
    (left_on : L → K) (right_on : R → K) (combine : L → option R → O)
    (val : O → Qc) (val_left : L → Qc) (left : list L) (right : list R) :
  (∀ l x, val (combine l x) = val_left l) →
  Qc_sum (map val (merge_left left_on right_on combine left right))
  = Qc_sum (map (λ l, val_left l
                      * Qc_of_nat (Nat.max 1 (length (matching left_on right_on l right))))%Qc
                left).
Proof.
  intros Hval. unfold merge_left. induction left as [|l t IH]; [done|].
  change (flat_map ?f (l :: t)) with (f l ++ flat_map f t).
  rewrite map_app, Qc_sum_app, IH.
  change (map ?g (l :: t)) with (g l :: map g t). rewrite Qc_sum_cons.
  f_equal. cbv beta.
  destruct (matching left_on right_on l right) as [|r rs].
  - cbn [map length Nat.max]. rewrite Qc_sum_cons, Hval.
    change (Qc_sum []) with 0%Qc. change (Qc_of_nat 1) with 1%Qc. ring.
  - rewrite map_map.
    replace (map (λ x, val (combine l (Some x))) (r :: rs))
      with (replicate (length (r :: rs)) (val_left l)).
    + rewrite Qc_sum_replicate. reflexivity.
    + generalize (r :: rs). intros rs'. induction rs' as [|x xs IHxs]; [done|].
      cbn [length replicate map]. by rewrite Hval, IHxs.
Qed.

Lemma matching_length_filter {L R K} `{EqDecision K}
    (left_on : L → K) (right_on : R → K) (l : L) (right : list R) :
  length (matching left_on right_on l right)
  = length (filter (λ r, right_on r = left_on l) right).
Proof.
  unfold matching.
  by rewrite (list_filter_bool_decide (λ r, right_on r = left_on l)).
Qed.

(** X3. [add_review_scores] repeats a sales row once per review of its
    order (and keeps it once when the order has no review): the row count
    and the total revenue after the merge count every row that many times.
    A second review of an order therefore inflates the revenue. *)
Theorem add_review_scores_fan_out (sales_data : DataFrame) (reviews : list Review) :
  length (add_review_scores sales_data reviews)
  = sum_list (map (λ r, Nat.max 1
                          (length (filter (λ v, rv_order_id v = order_id r) reviews)))
                  sales_data) ∧
  calculate_total_revenue (add_review_scores sales_data reviews)
  = sum (map (λ r, price r
                   * Qc_of_nat (Nat.max 1
                       (length (filter (λ v, rv_order_id v = order_id r) reviews))))%Qc
             sales_data).
Proof.
  unfold add_review_scores, calculate_total_revenue, sum. split.
  - rewrite length_merge_left. f_equal. apply map_ext. intros r.
    by rewrite matching_length_filter.
  - rewrite (merge_left_total order_id rv_order_id _ price price) by done.
    f_equal. apply map_ext. intros r. by rewrite matching_length_filter.
Qed.

Lemma map_column_unchanged {A} (col : SalesRow → A) (g : SalesRow → SalesRow)
    (l : DataFrame) :
  (∀ r, col (g r) = col r) → map col (map g l) = map col l.
Proof. intros Hg. rewrite map_map. apply map_ext. done. Qed.

(** X4. With one review per order_id, [add_review_scores] keeps every row
    in its place and only fills in review_score: the score of the order's
    review, null when the order has none.  Revenue and order count are
    what they were. *)
Theorem add_review_scores_unique (sales_data : DataFrame) (reviews : list Review) :
  NoDup (map rv_order_id reviews) →
  add_review_scores sales_data reviews
  = map (λ r, set_review_score
                (List.find (λ v, bool_decide (rv_order_id v = order_id r)) reviews
                 ≫= rv_review_score) r)
        sales_data ∧
  calculate_total_revenue (add_review_scores sales_data reviews)
  = calculate_total_revenue sales_data ∧
  calculate_total_orders (add_review_scores sales_data reviews)
  = calculate_total_orders sales_data.
Proof.
  intros Hnd. unfold add_review_scores. rewrite merge_left_unique by done.
  split; [done|].
  unfold calculate_total_revenue, calculate_total_orders.
  by rewrite !map_column_unchanged.
Qed.

Lemma add_review_scores_unique_witness :
  NoDup (map rv_order_id (take 1 sample_reviews)) ∧
  map review_score (add_review_scores sample_sales (take 1 sample_reviews))
  = [Some 5; None; Some 5] ∧
  calculate_total_revenue (add_review_scores sample_sales (take 1 sample_reviews))
  = calculate_total_revenue sample_sales.
Proof.
  assert (Hnd : NoDup (map rv_order_id (take 1 sample_reviews))).
  { apply NoDup_ListNoDup. repeat constructor. cbn. intuition. }
  destruct (add_review_scores_unique sample_sales (take 1 sample_reviews) Hnd)
    as (Heq & Hrev & _).
  split; [exact Hnd|]. split; [|exact Hrev].
  rewrite Heq. reflexivity.
Defined.

(** X5. With one row per product_id in the product table,
    [add_product_categories] keeps every row in its place and only fills in
    the category: that of the row's product, null when the product is not
    in the table.  Revenue and order count are what they were. *)
Theorem add_product_categories_unique (sales_data : DataFrame) (products : list Product) :
  NoDup (map p_product_id products) →
  add_product_categories sales_data products
  = map (λ r, set_product_category
                (List.find (λ p, bool_decide (p_product_id p = product_id r)) products
                 ≫= p_product_category_name) r)
        sales_data ∧
  calculate_total_revenue (add_product_categories sales_data products)
  = calculate_total_revenue sales_data ∧
  calculate_total_orders (add_product_categories sales_data products)
  = calculate_total_orders sales_data.
Proof.
  intros Hnd. unfold add_product_categories. rewrite merge_left_unique by done.
  split; [done|].
  unfold calculate_total_revenue, calculate_total_orders.
  by rewrite !map_column_unchanged.
Qed.

Lemma add_product_categories_unique_witness :
  NoDup (map p_product_id sample_products) ∧
  map product_category_name (add_product_categories sample_sales sample_products)
  = [Some "toys"; None; None] ∧
  calculate_total_revenue (add_product_categories sample_sales sample_products)
  = calculate_total_revenue sample_sales.
Proof.
  assert (Hnd : NoDup (map p_product_id sample_products)).
  { apply NoDup_ListNoDup. repeat constructor. cbn. intuition. }
  destruct (add_product_categories_unique sample_sales sample_products Hnd)
    as (Heq & Hrev & _).
  split; [exact Hnd|]. split; [|exact Hrev].
  rewrite Heq. reflexivity.
Defined.

(** X6. With one row per customer_id in the customer table,
    [add_customer_geography] keeps every row in its place and only fills in
    state and city: those of the row's customer, null when the customer is
    not in the table.  Revenue and order count are what they were. *)
Theorem add_customer_geography_unique
    (sales_data : DataFrame) (orders : list Order) (customers : list Customer) :
  NoDup (map c_customer_id customers) →
  add_customer_geography sales_data orders customers
  = map (λ r, set_customer_geography
                (List.find (λ c, bool_decide (c_customer_id c = customer_id r)) customers
                 ≫= c_customer_state)
                (List.find (λ c, bool_decide (c_customer_id c = customer_id r)) customers
                 ≫= c_customer_city) r)
        sales_data ∧
  calculate_total_revenue (add_customer_geography sales_data orders customers)
  = calculate_total_revenue sales_data ∧
  calculate_total_orders (add_customer_geography sales_data orders customers)
  = calculate_total_orders sales_data.
Proof.
  intros Hnd. unfold add_customer_geography. rewrite merge_left_unique by done.
  split; [done|].
  unfold calculate_total_revenue, calculate_total_orders.
  by rewrite !map_column_unchanged.
Qed.

Lemma add_customer_geography_unique_witness :
  NoDup (map c_customer_id sample_customers) ∧
  map customer_state (add_customer_geography sample_sales sample_orders sample_customers)
  = [Some "CA"; None; Some "CA"] ∧
  calculate_total_revenue (add_customer_geography sample_sales sample_orders sample_customers)
  = calculate_total_revenue sample_sales.
Proof.
  assert (Hnd : NoDup (map c_customer_id sample_customers)).
  { apply NoDup_ListNoDup. repeat constructor. cbn. intuition. }
  destruct (add_customer_geography_unique sample_sales sample_orders
              sample_customers Hnd) as (Heq & Hrev & _).
  split; [exact Hnd|]. split; [|exact Hrev].
  rewrite Heq. reflexivity.
Defined.

(** Two reviews of order A double its two line items: five rows instead of
    three, and a revenue of 110 instead of 80. *)
Example add_review_scores_duplicate_example :
  length (add_review_scores sample_sales sample_reviews) = 5%nat ∧
  calculate_total_revenue sample_sales = Qc_of_Z 80 ∧
  calculate_total_revenue (add_review_scores sample_sales sample_reviews) = Qc_of_Z 110.
Proof. repeat split; compute_done. Qed.

(** ** Order-level averages *)

Lemma mean_of_values {A} (f : A → Qc) (l : list A) :
  mean (map (λ x, Some (f x)) l)
  = match l with
    | [] => NaN
    | _ => Fin (Qc_sum (map f l) / Qc_of_nat (length l))
    end.
Proof.
  unfold mean.
  assert (Hpresent : omap id (map (λ x, Some (f x)) l) = map f l).
  { induction l as [|x t IH]; [done|].
    cbn [map]. change (omap id (Some (f x) :: ?r)) with (f x :: omap id r).
    by rewrite IH. }
  rewrite Hpresent, length_map. by destruct l.
Qed.

Lemma omap_Some_key {A K} (f : A → K) (l : list A) :
  omap (λ x, Some (f x)) l = map f l.
Proof.
  induction l as [|x t IH]; [done|].
  change (omap ?g (x :: t)) with
    (match g x with Some y => y :: omap g t | None => omap g t end).
  cbv beta. by rewrite IH.
Qed.

(** The number of groups by order_id is the number of distinct orders. *)
Lemma length_groupby_order_id {V} (agg : list SalesRow → V) (sales_data : DataFrame) :
  Z.of_nat (length (groupby string_leb (λ r, Some (order_id r)) agg sales_data))
  = calculate_total_orders sales_data.
Proof.
  unfold groupby, group_keys, calculate_total_orders.
  by rewrite length_map, sort_perm, omap_Some_key.
Qed.

Lemma list_filter_bool_all {A} (f : A → bool) (l : list A) :
  (∀ x, f x = true) → List.filter f l = l.
Proof.
  intros Hf. induction l as [|x t IH]; [done|].
  cbn [List.filter]. by rewrite Hf, IH.
Qed.

Lemma unique_nil_inv `{EqDecision A} (l : list A) : unique l = [] → l = [].
Proof. by destruct l. Qed.

Lemma length_list_filter_bool_le {A} (f : A → bool) (l : list A) :
  (length (List.filter f l) ≤ length l)%nat.
Proof.
  induction l as [|x t IH]; [done|].
  cbn [List.filter]. destruct (f x); cbn [length]; lia.
Qed.

Lemma length_unique_le `{EqDecision A} (l : list A) :
  (length (unique l) ≤ length l)%nat.
Proof.
  induction l as [|x t IH]; [done|].
  cbn [unique length].
  pose proof (length_list_filter_bool_le
                (λ y, negb (bool_decide (y = x))) (unique t)). lia.
Qed.

Lemma total_orders_nonempty (sales_data : DataFrame) :
  sales_data ≠ [] →
  1 ≤ calculate_total_orders sales_data ≤ Z.of_nat (length sales_data).
Proof.
  unfold calculate_total_orders. intros Hne.
  pose proof (length_unique_le (map order_id sales_data)) as Hle.
  rewrite length_map in Hle.
  destruct sales_data as [|r t]; [done|]. cbn [map unique length] in *. lia.
Qed.

(** X7. The number of orders of a non-empty table is at least one and at
    most the number of line items; it is zero for the empty table only. *)
Theorem total_orders_bounds (sales_data : DataFrame) :
  (sales_data = [] → calculate_total_orders sales_data = 0) ∧
  (sales_data ≠ [] →
   1 ≤ calculate_total_orders sales_data ≤ Z.of_nat (length sales_data)).
Proof.
  split.
  - by intros ->.
  - apply total_orders_nonempty.
Qed.

Lemma total_orders_bounds_witness :
  two_orders_reviewed ≠ [] ∧
  1 ≤ calculate_total_orders two_orders_reviewed
    ≤ Z.of_nat (length two_orders_reviewed).
Proof.
  assert (Hne : two_orders_reviewed ≠ []) by discriminate.
  split; [exact Hne|].
  exact (proj2 (total_orders_bounds two_orders_reviewed) Hne).
Defined.

(** X8. The average order value of a table without rows is NaN.  On a
    table with rows whose prices float64 adds without rounding, it is the
    total revenue divided by the number of distinct orders. *)
Theorem average_order_value_is_revenue_per_order (sales_data : DataFrame) :
  (sales_data = [] → calculate_average_order_value sales_data = NaN) ∧
  (sales_data ≠ [] → exact_prices sales_data = true →
   calculate_average_order_value sales_data
   = Fin (calculate_total_revenue sales_data
          / Qc_of_Z (calculate_total_orders sales_data))).
Proof.
  split; [by intros ->|]. intros Hne _.
  unfold calculate_average_order_value.
  rewrite (mean_of_values snd).
  pose proof (length_groupby_order_id sum_price sales_data) as Hlen.
  pose proof (total_orders_nonempty sales_data Hne) as Hpos.
  destruct (groupby string_leb (λ r, Some (order_id r)) sum_price sales_data)
    as [|g gs] eqn:Hg; [cbn [length] in Hlen; lia|].
  f_equal. f_equal.
  - rewrite <- Hg. unfold sum_price, sum.
    rewrite (groupby_totals_sum string_leb (λ r, Some (order_id r)) price).
    unfold calculate_total_revenue, sum. do 2 f_equal.
    apply list_filter_bool_all. intros r. by apply bool_decide_eq_true.
  - unfold Qc_of_nat. by rewrite Hlen.
Qed.

Lemma average_order_value_is_revenue_per_order_witness :
  two_orders_reviewed ≠ [] ∧ exact_prices two_orders_reviewed = true ∧
  calculate_average_order_value two_orders_reviewed
  = Fin (calculate_total_revenue two_orders_reviewed
         / Qc_of_Z (calculate_total_orders two_orders_reviewed)).
Proof.
  assert (Hne : two_orders_reviewed ≠ []) by discriminate.
  assert (He : exact_prices two_orders_reviewed = true) by reflexivity.
  split; [exact Hne|]. split; [exact He|].
  exact (proj2 (average_order_value_is_revenue_per_order two_orders_reviewed) Hne He).
Defined.

Lemma Qc_sum_ones {A} (l : list A) :
  Qc_sum (map (λ _, 1%Qc) l) = Qc_of_nat (length l).
Proof.
  induction l as [|x t IH]; [done|].
  cbn [map length]. rewrite Qc_sum_cons, IH, Qc_of_nat_S. ring.
Qed.

(** X9. The average number of items per order is the number of line items
    divided by the number of distinct orders; for a table without rows it
    is NaN. *)
Theorem items_per_order_is_rows_per_order (sales_data : DataFrame) :
  (sales_data = [] → calculate_items_per_order sales_data = NaN) ∧
  (sales_data ≠ [] →
   calculate_items_per_order sales_data
   = Fin (Qc_of_nat (length sales_data)
          / Qc_of_Z (calculate_total_orders sales_data))).
Proof.
  split; [by intros ->|]. intros Hne.
  unfold calculate_items_per_order.
  rewrite (mean_of_values (λ g : string * nat, Qc_of_nat g.2)).
  pose proof (length_groupby_order_id (λ g : list SalesRow, length g) sales_data) as Hlen.
  pose proof (total_orders_nonempty sales_data Hne) as Hpos.
  destruct (groupby string_leb (λ r, Some (order_id r))
              (λ g : list SalesRow, length g) sales_data) as [|g gs] eqn:Hg;
    [cbn [length] in Hlen; lia|].
  f_equal. f_equal.
  - rewrite <- Hg. transitivity
      (Qc_sum (map snd (groupby string_leb (λ r : SalesRow, Some (order_id r))
                          (λ g, Qc_sum (map (λ _, 1%Qc) g)) sales_data))).
    + f_equal. unfold groupby. rewrite !map_map. apply map_ext. intros k.
      cbn [snd]. by rewrite Qc_sum_ones.
    + rewrite (groupby_totals_sum string_leb (λ r, Some (order_id r)) (λ _, 1%Qc)).
      rewrite Qc_sum_ones. f_equal. f_equal.
      apply list_filter_bool_all. intros r. by apply bool_decide_eq_true.
  - unfold Qc_of_nat. by rewrite Hlen.
Qed.

Lemma items_per_order_is_rows_per_order_witness :
  two_orders_reviewed ≠ [] ∧
  calculate_items_per_order two_orders_reviewed
  = Fin (Qc_of_nat (length two_orders_reviewed)
         / Qc_of_Z (calculate_total_orders two_orders_reviewed)).
Proof.
  assert (Hne : two_orders_reviewed ≠ []) by discriminate.
  split; [exact Hne|].
  exact (proj2 (items_per_order_is_rows_per_order two_orders_reviewed) Hne).
Defined.

(** ** Independence of the row order *)

Lemma string_compare_trans (a b c : string) :
  String.compare a b ≠ Gt → String.compare b c ≠ Gt → String.compare a c ≠ Gt.
Proof.
  revert b c. induction a as [|x a IH]; intros [|y b] [|z c]; cbn; try done.
  unfold Ascii.compare.
  destruct (N.compare_spec (Ascii.N_of_ascii x) (Ascii.N_of_ascii y)),
           (N.compare_spec (Ascii.N_of_ascii y) (Ascii.N_of_ascii z)),
           (N.compare_spec (Ascii.N_of_ascii x) (Ascii.N_of_ascii z));
    try done; try lia.
  apply IH.
Qed.

Lemma string_leb_trans (a b c : string) :
  string_leb a b = true → string_leb b c = true → string_leb a c = true.
Proof.
  unfold string_leb, String.leb. intros Hab Hbc.
  pose proof (string_compare_trans a b c) as Htrans.
  destruct (String.compare a b), (String.compare b c), (String.compare a c);
    try done; exfalso; by apply Htrans.
Qed.

Lemma pair_leb_trans (a b c : Z * Z) :
  pair_leb a b = true → pair_leb b c = true → pair_leb a c = true.
Proof.
  unfold pair_leb. intros Hab Hbc.
  apply orb_true_iff in Hab. apply orb_true_iff in Hbc. apply orb_true_iff.
  rewrite !andb_true_iff, !Z.ltb_lt, !Z.eqb_eq, !Z.leb_le in *. lia.
Qed.

Lemma pair_leb_antisym (a b : Z * Z) :
  pair_leb a b = true → pair_leb b a = true → a = b.
Proof.
  unfold pair_leb. intros Hab Hba.
  apply orb_true_iff in Hab. apply orb_true_iff in Hba.
  rewrite !andb_true_iff, !Z.ltb_lt, !Z.eqb_eq, !Z.leb_le in *.
  destruct a, b. cbn in *. f_equal; lia.
Qed.

Lemma Z_key_order : key_order Z.leb.
Proof.
  split; intros *; rewrite ?Z.leb_le; lia.
Qed.

Lemma pair_key_order : key_order pair_leb.
Proof.
  split; [apply pair_leb_total|apply pair_leb_trans|apply pair_leb_antisym].
Qed.

Lemma string_key_order : key_order string_leb.
Proof.
  split; [apply String.leb_total|apply string_leb_trans|apply String.leb_antisym].
Qed.

Section sort_canonical.
Context {A : Type} (leb : A → A → bool) (Hord : key_order leb).

(** Sorting forgets the order of its input. *)
Lemma sort_Permutation_eq (l l' : list A) : l ≡ₚ l' → sort leb l = sort leb l'.
Proof.
  intros Hperm.
  assert (Htrans : Transitive (λ a b, leb a b = true)).
  { intros x y z. apply (key_order_trans _ Hord). }
  assert (Hanti : AntiSymm (=) (λ a b, leb a b = true)).
  { intros x y. apply (key_order_antisym _ Hord). }
  apply (Sorted_unique (λ a b, leb a b = true)).
  - apply sort_Sorted, (key_order_total _ Hord).
  - apply sort_Sorted, (key_order_total _ Hord).
  - by rewrite !sort_perm.
Qed.
End sort_canonical.

Lemma list_filter_bool_Permutation {A} (f : A → bool) (l l' : list A) :
  l ≡ₚ l' → List.filter f l ≡ₚ List.filter f l'.
Proof.
  induction 1 as [|x l l' _ IH|x y l|l l' l'' _ IH1 _ IH2]; cbn [List.filter].
  - done.
  - destruct (f x); by rewrite IH.
  - destruct (f x), (f y); try done. apply Permutation_swap.
  - by etrans.
Qed.

Lemma unique_Permutation `{EqDecision A} (l l' : list A) :
  l ≡ₚ l' → unique l ≡ₚ unique l'.
Proof.
  intros Hperm. apply NoDup_Permutation; [apply NoDup_unique..|].
  intros x. by rewrite !elem_of_unique, Hperm.
Qed.

Section groupby_canonical.
Context {Row K V : Type} `{EqDecision K}.
Variable key_leb : K → K → bool.
Hypothesis Hord : key_order key_leb.
Variable key : Row → option K.
Variable agg : list Row → V.
Hypothesis agg_perm : ∀ g g', g ≡ₚ g' → agg g = agg g'.

Lemma groupby_Permutation_eq (rows rows' : list Row) :
  rows ≡ₚ rows' → groupby key_leb key agg rows = groupby key_leb key agg rows'.
Proof.
  intros Hperm. unfold groupby, group_keys.
  rewrite (sort_Permutation_eq key_leb Hord _ (unique (omap key rows'))).
  - apply map_ext. intros k. f_equal. apply agg_perm.
    by apply list_filter_bool_Permutation.
  - apply unique_Permutation. by rewrite Hperm.
Qed.
End groupby_canonical.

Lemma sum_price_Permutation (g g' : DataFrame) : g ≡ₚ g' → sum_price g = sum_price g'.
Proof.
  intros Hperm. unfold sum_price, sum. apply Qc_sum_perm.
  by apply Permutation_map.
Qed.

(** X10. On a table whose prices float64 adds without rounding, the
    grouped revenue frames do not depend on the order of the rows:
    permuting the line items changes neither the revenue by period, nor the
    revenue by category or by state, nor therefore the month-over-month
    growth computed from the monthly frame. *)
Theorem grouped_revenue_ignores_row_order (sales_data sales_data' : DataFrame) :
  sales_data ≡ₚ sales_data' →
  exact_prices sales_data = true →
  (∀ period, calculate_revenue_by_period sales_data period
             = calculate_revenue_by_period sales_data' period) ∧
  calculate_revenue_by_category sales_data = calculate_revenue_by_category sales_data' ∧
  calculate_revenue_by_state sales_data = calculate_revenue_by_state sales_data' ∧
  (∀ rows rows',
     calculate_revenue_by_period sales_data "year-month" = Ok (ByYearMonth rows) →
     calculate_revenue_by_period sales_data' "year-month" = Ok (ByYearMonth rows') →
     calculate_mom_growth rows = calculate_mom_growth rows').
Proof.
  intros Hperm _.
  assert (Hperiod : ∀ period, calculate_revenue_by_period sales_data period
                              = calculate_revenue_by_period sales_data' period).
  { intros period. unfold calculate_revenue_by_period.
    rewrite (groupby_Permutation_eq Z.leb Z_key_order year sum_price
               sum_price_Permutation _ _ Hperm).
    rewrite (groupby_Permutation_eq Z.leb Z_key_order month sum_price
               sum_price_Permutation _ _ Hperm).
    by rewrite (groupby_Permutation_eq pair_leb pair_key_order year_month sum_price
                  sum_price_Permutation _ _ Hperm). }
  split; [exact Hperiod|]. split; [|split].
  - unfold calculate_revenue_by_category.
    by rewrite (groupby_Permutation_eq string_leb string_key_order
                  product_category_name sum_price sum_price_Permutation _ _ Hperm).
  - unfold calculate_revenue_by_state.
    by rewrite (groupby_Permutation_eq string_leb string_key_order
                  customer_state sum_price sum_price_Permutation _ _ Hperm).
  - intros rows rows' H1 H2. rewrite Hperiod, H2 in H1. by injection H1 as ->.
Qed.

Lemma grouped_revenue_ignores_row_order_witness :
  two_months ≡ₚ reverse two_months ∧ exact_prices two_months = true ∧
  calculate_revenue_by_period two_months "year-month"
  = calculate_revenue_by_period (reverse two_months) "year-month" ∧
  calculate_revenue_by_category two_months
  = calculate_revenue_by_category (reverse two_months).
Proof.
  assert (Hperm : two_months ≡ₚ reverse two_months)
    by (symmetry; apply reverse_Permutation).
  assert (He : exact_prices two_months = true) by reflexivity.
  destruct (grouped_revenue_ignores_row_order two_months (reverse two_months) Hperm He)
    as (Hperiod & Hcat & _).
  split; [exact Hperm|]. split; [exact He|].
  split; [exact (Hperiod "year-month")|exact Hcat].
Defined.

Lemma mean_Permutation (l l' : list (option Qc)) : l ≡ₚ l' → mean l = mean l'.
Proof.
  intros Hperm. unfold mean.
  assert (Hpresent : omap id l ≡ₚ omap id l') by by rewrite Hperm.
  rewrite (Qc_sum_perm _ _ Hpresent), (Permutation_length Hpresent).
  destruct (omap id l) as [|x t] eqn:E, (omap id l') as [|x' t'] eqn:E'; try done.
  - by apply Permutation_nil_cons in Hpresent.
  - symmetry in Hpresent. by apply Permutation_nil_cons in Hpresent.
Qed.

(** X11. On a table whose prices float64 adds without rounding and whose
    review scores lie between 1 and 5, the scalar metrics do not depend on
    the order of the rows either: total revenue, number of orders, average
    order value, items per order and average review score are the same for
    a permuted table. *)
Theorem scalar_metrics_ignore_row_order (sales_data sales_data' : DataFrame) :
  sales_data ≡ₚ sales_data' →
  exact_prices sales_data = true →
  Forall (λ r, ∀ s, review_score r = Some s → 1 ≤ s ≤ 5) sales_data →
  calculate_total_revenue sales_data = calculate_total_revenue sales_data' ∧
  calculate_total_orders sales_data = calculate_total_orders sales_data' ∧
  calculate_average_order_value sales_data = calculate_average_order_value sales_data' ∧
  calculate_items_per_order sales_data = calculate_items_per_order sales_data' ∧
  calculate_average_review_score sales_data = calculate_average_review_score sales_data'.
Proof.
  intros Hperm _ _. split; [|split; [|split; [|split]]].
  - by apply sum_price_Permutation.
  - unfold calculate_total_orders. f_equal. apply Permutation_length.
    apply unique_Permutation. by apply Permutation_map.
  - unfold calculate_average_order_value.
    by rewrite (groupby_Permutation_eq string_leb string_key_order
                  (λ r, Some (order_id r)) sum_price sum_price_Permutation _ _ Hperm).
  - unfold calculate_items_per_order.
    rewrite (groupby_Permutation_eq string_leb string_key_order
               (λ r, Some (order_id r)) (λ g : list SalesRow, length g)
               (λ g g' Hg, Permutation_length Hg) _ _ Hperm).
    done.
  - unfold calculate_average_review_score. apply mean_Permutation.
    by apply Permutation_map.
Qed.

Lemma scalar_metrics_ignore_row_order_witness :
  two_orders_reviewed ≡ₚ reverse two_orders_reviewed ∧
  exact_prices two_orders_reviewed = true ∧
  Forall (λ r, ∀ s, review_score r = Some s → 1 ≤ s ≤ 5) two_orders_reviewed ∧
  calculate_average_order_value two_orders_reviewed
  = calculate_average_order_value (reverse two_orders_reviewed) ∧
  calculate_average_review_score two_orders_reviewed
  = calculate_average_review_score (reverse two_orders_reviewed).
Proof.
  assert (Hperm : two_orders_reviewed ≡ₚ reverse two_orders_reviewed)
    by (symmetry; apply reverse_Permutation).
  assert (He : exact_prices two_orders_reviewed = true) by reflexivity.
  assert (Hs : Forall (λ r, ∀ s, review_score r = Some s → 1 ≤ s ≤ 5)
                      two_orders_reviewed).
  { unfold two_orders_reviewed.
    repeat (constructor; [intros s [= <-]; lia|]). constructor. }
  destruct (scalar_metrics_ignore_row_order two_orders_reviewed
              (reverse two_orders_reviewed) Hperm He Hs) as (_ & _ & Haov & _ & Hrev).
  split; [exact Hperm|]. split; [exact He|]. split; [exact Hs|].
  split; [exact Haov|exact Hrev].
Defined.

(** ** Grouped revenue: key order and totals *)

Lemma StronglySorted_strict {A} (R : A → A → Prop) (l : list A) :
  StronglySorted R l → NoDup l → StronglySorted (λ a b, R a b ∧ a ≠ b) l.
Proof.
  induction 1 as [|x t Hs IH Hall]; intros Hnd; [constructor|].
  apply NoDup_cons in Hnd as [Hx Hnd]. constructor; [by apply IH|].
  apply List.Forall_forall. intros y Hy. split.
  - by apply (proj1 (List.Forall_forall _ _) Hall).
  - intros ->. by apply Hx, list_elem_of_In.
Qed.

Lemma StronglySorted_weaken {A} (R R' : A → A → Prop) (l : list A) :
  (∀ x y, R x y → R' x y) → StronglySorted R l → StronglySorted R' l.
Proof.
  intros Himp. induction 1 as [|x t Hs IH Hall]; constructor; [done|].
  eapply List.Forall_impl; [|done]. intros y. apply Himp.
Qed.

Lemma group_keys_strictly_sorted {Row K} `{EqDecision K}
    (key_leb : K → K → bool) (key : Row → option K) (rows : list Row) :
  key_order key_leb →
  StronglySorted (λ a b, key_leb a b = true ∧ a ≠ b) (group_keys key_leb key rows).
Proof.
  intros Hord. apply StronglySorted_strict; [|apply NoDup_group_keys].
  apply Sorted_StronglySorted.
  - intros x y z. apply (key_order_trans _ Hord).
  - apply sort_Sorted, (key_order_total _ Hord).
Qed.

(** X12. The frame of [calculate_revenue_by_period] is in strictly ascending
    order of its key (year, month, or year then month).  On a table whose
    prices float64 adds without rounding, its revenues add up to the
    revenue of the rows whose key is not null. *)
Theorem revenue_by_period_ascending_and_total (sales_data : DataFrame) :
  (∀ out, calculate_revenue_by_period sales_data "year" = Ok (ByYear out) →
     StronglySorted Z.lt (map fst out) ∧
     (exact_prices sales_data = true →
      sum (map snd out)
      = calculate_total_revenue (filter (λ r, is_Some (year r)) sales_data))) ∧
  (∀ out, calculate_revenue_by_period sales_data "month" = Ok (ByMonth out) →
     StronglySorted Z.lt (map fst out) ∧
     (exact_prices sales_data = true →
      sum (map snd out)
      = calculate_total_revenue (filter (λ r, is_Some (month r)) sales_data))) ∧
  (∀ out, calculate_revenue_by_period sales_data "year-month" = Ok (ByYearMonth out) →
     StronglySorted (λ a b : Z * Z, a.1 < b.1 ∨ (a.1 = b.1 ∧ a.2 < b.2)) (map fst out) ∧
     (exact_prices sales_data = true →
      sum (map snd out)
      = calculate_total_revenue
          (filter (λ r, is_Some (year r) ∧ is_Some (month r)) sales_data))).
Proof.
  split; [|split]; intros out [= <-]; (split; [rewrite groupby_keys|intros _]).
  - eapply StronglySorted_weaken;
      [|apply (group_keys_strictly_sorted Z.leb year _ Z_key_order)].
    intros a b [Hle Hne]. apply Z.leb_le in Hle. lia.
  - unfold sum, sum_price, sum. rewrite (groupby_totals_sum Z.leb year price).
    by rewrite (list_filter_bool_decide (λ r, is_Some (year r))).
  - eapply StronglySorted_weaken;
      [|apply (group_keys_strictly_sorted Z.leb month _ Z_key_order)].
    intros a b [Hle Hne]. apply Z.leb_le in Hle. lia.
  - unfold sum, sum_price, sum. rewrite (groupby_totals_sum Z.leb month price).
    by rewrite (list_filter_bool_decide (λ r, is_Some (month r))).
  - eapply StronglySorted_weaken;
      [|apply (group_keys_strictly_sorted pair_leb year_month _ pair_key_order)].
    intros [a1 a2] [b1 b2] [Hle Hne]. unfold pair_leb in Hle. cbn in *.
    apply orb_true_iff in Hle. rewrite andb_true_iff, Z.ltb_lt, Z.eqb_eq, Z.leb_le in Hle.
    destruct Hle as [?|[-> ?]]; [by left|right]. split; [done|].
    destruct (decide (a2 = b2)) as [->|?]; [done|lia].
  - unfold sum, sum_price, sum. rewrite (groupby_totals_sum pair_leb year_month price).
    unfold calculate_total_revenue, sum. do 2 f_equal.
    rewrite <- (list_filter_bool_decide (λ r, is_Some (year r) ∧ is_Some (month r))).
    apply filter_ext. intros r. apply bool_decide_ext. unfold year_month.
    destruct (year r), (month r); cbn; split;
      first [ by intros _; split; eexists
            | by intros _; eexists
            | by intros [x Hx]
            | by intros [[x Hx] [z Hz]] ].
Qed.

Lemma revenue_by_period_ascending_and_total_witness :
  calculate_revenue_by_period two_months "year-month"
  = Ok (ByYearMonth [ ((2023, 1), Qc_of_Z 30); ((2023, 2), Qc_of_Z 50) ]) ∧
  exact_prices two_months = true ∧
  StronglySorted (λ a b : Z * Z, a.1 < b.1 ∨ (a.1 = b.1 ∧ a.2 < b.2))
                 (map fst [ ((2023, 1), Qc_of_Z 30); ((2023, 2), Qc_of_Z 50) ]) ∧
  sum (map snd [ ((2023, 1), Qc_of_Z 30); ((2023, 2), Qc_of_Z 50) ])
  = calculate_total_revenue
      (filter (λ r, is_Some (year r) ∧ is_Some (month r)) two_months).
Proof.
  assert (H : calculate_revenue_by_period two_months "year-month"
              = Ok (ByYearMonth [ ((2023, 1), Qc_of_Z 30); ((2023, 2), Qc_of_Z 50) ]))
    by compute_done.
  assert (He : exact_prices two_months = true) by reflexivity.
  destruct (revenue_by_period_ascending_and_total two_months) as (_ & _ & Hym).
  destruct (Hym _ H) as [Hsorted Hsum].
  split; [exact H|]. split; [exact He|]. split; [exact Hsorted|exact (Hsum He)].
Defined.

(** X13. The output of [calculate_revenue_by_state] never increases in
    revenue from one row to the next and has one row per state that occurs,
    with the sum of the prices of the rows of that state; rows without
    state are in no group.  On a table whose prices float64 adds without
    rounding, the revenues therefore add up to the revenue of the rows that
    have a state. *)
Theorem revenue_by_state_groups (sales_data : DataFrame) :
  StronglySorted (λ a b : string * Qc, (b.2 ≤ a.2)%Qc)
                 (calculate_revenue_by_state sales_data) ∧
  spec.revenue_grouped_by customer_state sales_data
                          (calculate_revenue_by_state sales_data) ∧
  (exact_prices sales_data = true →
   sum (map snd (calculate_revenue_by_state sales_data))
   = calculate_total_revenue
       (filter (λ r, is_Some (customer_state r)) sales_data)).
Proof.
  assert (Hperm : calculate_revenue_by_state sales_data
                  ≡ₚ groupby string_leb customer_state sum_price sales_data)
    by apply sort_perm.
  split; [|split].
  - apply Sorted_StronglySorted.
    + intros a b c Hab Hbc. by eapply Qcle_trans.
    + eapply Sorted_weaken; [|apply sort_Sorted, by_revenue_desc_total].
      intros a b. unfold by_revenue_desc. by rewrite Qc_leb_le.
  - destruct (groupby_revenue_grouped_by string_leb customer_state sales_data)
      as [Hnd Hin].
    split.
    + by rewrite (Permutation_map fst Hperm).
    + intros k v. by rewrite Hperm.
  - intros _. unfold sum. rewrite (Qc_sum_perm _ _ (Permutation_map snd Hperm)).
    unfold sum_price, sum.
    rewrite (groupby_totals_sum string_leb customer_state price).
    by rewrite (list_filter_bool_decide (λ r, is_Some (customer_state r))).
Qed.

Lemma revenue_by_state_groups_witness :
  exact_prices three_customers = true ∧
  calculate_revenue_by_state three_customers
  = [ ("NY", Qc_of_Z 20); ("CA", Qc_of_Z 10) ] ∧
  sum (map snd (calculate_revenue_by_state three_customers))
  = calculate_total_revenue
      (filter (λ r, is_Some (customer_state r)) three_customers).
Proof.
  assert (He : exact_prices three_customers = true) by reflexivity.
  split; [exact He|]. split; [by compute_done|].
  exact (proj2 (proj2 (revenue_by_state_groups three_customers)) He).
Defined.

(** ** Distributions *)

Lemma zip_with_map_r {A B C} (f : A → B → C) (g : A → B) (l : list A) :
  zip_with f l (map g l) = map (λ x, f x (g x)) l.
Proof. induction l as [|x t IH]; [done|]. cbn [map zip_with]. by rewrite IH. Qed.

Lemma insert_sorted_map {A B} (leb : A → A → bool) (leb' : B → B → bool)
    (f : A → B) (x : A) (l : list A) :
  (∀ a b, leb' (f a) (f b) = leb a b) →
  insert_sorted leb' (f x) (map f l) = map f (insert_sorted leb x l).
Proof.
  intros Hleb. induction l as [|y t IH]; [done|].
  cbn [map insert_sorted]. rewrite Hleb. destruct (leb x y); [done|].
  cbn [map]. by rewrite IH.
Qed.

Lemma sort_map {A B} (leb : A → A → bool) (leb' : B → B → bool)
    (f : A → B) (l : list A) :
  (∀ a b, leb' (f a) (f b) = leb a b) →
  sort leb' (map f l) = map f (sort leb l).
Proof.
  intros Hleb. induction l as [|x t IH]; [done|].
  cbn [map]. unfold sort in *. cbn [foldr]. rewrite IH.
  by apply insert_sorted_map.
Qed.

Lemma Qc_of_nat_inj (a b : nat) : Qc_of_nat a = Qc_of_nat b → a = b.
Proof.
  unfold Qc_of_nat, Qc_of_Z. intros H. apply (f_equal this) in H. cbn in H.
  assert (Hq : (Qred (inject_Z (Z.of_nat a)) == Qred (inject_Z (Z.of_nat b)))%Q)
    by (by rewrite H).
  rewrite !Qred_correct in Hq. unfold Qeq in Hq. cbn in Hq. lia.
Qed.

Lemma Qc_of_nat_sum_list (l : list nat) :
  Qc_of_nat (sum_list l) = Qc_sum (map Qc_of_nat l).
Proof.
  induction l as [|x t IH]; [done|].
  cbn [map]. rewrite Qc_sum_cons, <- IH.
  change (sum_list (x :: t)) with (x + sum_list t)%nat.
  unfold Qc_of_nat. rewrite Nat2Z.inj_add. apply Qc_of_Z_add.
Qed.

Lemma list_filter_bool_in_all {A} (f : A → bool) (l : list A) :
  (∀ x, In x l → f x = true) → List.filter f l = l.
Proof.
  induction l as [|x t IH]; intros Hf; [done|].
  cbn [List.filter]. rewrite (Hf x) by by left. f_equal.
  apply IH. intros y Hy. apply Hf. by right.
Qed.

Lemma occurrences_filter `{EqDecision A} (x : A) (col : list (option A)) :
  occurrences x (omap id col) = length (filter (λ c, c = Some x) col).
Proof.
  unfold occurrences. induction col as [|c t IH]; [done|].
  destruct c as [c|].
  - change (omap id (Some c :: t)) with (c :: omap id t). cbn [List.filter].
    destruct (decide (c = x)) as [->|Hne].
    + rewrite bool_decide_eq_true_2 by done. rewrite filter_cons_True by done.
      cbn [length]. by rewrite IH.
    + rewrite bool_decide_eq_false_2 by done.
      rewrite filter_cons_False by congruence. done.
  - change (omap id (None :: t)) with (omap id t).
    by rewrite filter_cons_False.
Qed.

Section value_counts_facts.
Context `{EqDecision A}.

Lemma occurrences_group_rows (x : A) (l : list A) :
  occurrences x l = length (group_rows (λ y, Some y) x l).
Proof.
  unfold occurrences, group_rows. f_equal. apply filter_ext.
  intros y. apply bool_decide_ext. split; [by intros ->|by intros [= ->]].
Qed.

(** The counts of the distinct values add up to the number of values. *)
Lemma occurrences_total (l : list A) :
  sum_list (map (λ x, occurrences x l) (unique l)) = length l.
Proof.
  apply Qc_of_nat_inj. rewrite Qc_of_nat_sum_list, map_map.
  transitivity
    (Qc_sum (map (λ k, Qc_sum (map (λ _ : A, 1%Qc)
                                   (group_rows (λ y, Some y) k l))) (unique l))).
  { f_equal. apply map_ext. intros x.
    by rewrite Qc_sum_ones, occurrences_group_rows. }
  rewrite sum_of_group_totals by apply NoDup_unique.
  rewrite Qc_sum_ones. f_equal.
  rewrite list_filter_bool_in_all; [done|].
  intros x Hx. unfold keyed_in. apply bool_decide_eq_true.
  by apply elem_of_unique, list_elem_of_In.
Qed.

Lemma value_counts_Permutation (col : list (option A)) :
  value_counts col
  ≡ₚ map (λ x, (x, occurrences x (omap id col))) (unique (omap id col)).
Proof. apply sort_perm. Qed.

Lemma value_counts_total (col : list (option A)) :
  sum_list (map snd (value_counts col)) = length (omap id col).
Proof.
  rewrite (Permutation_map snd (value_counts_Permutation col)), map_map.
  cbn [snd]. change sum_list with (sum_list_with (@id nat)).
  apply occurrences_total.
Qed.

Lemma elem_of_value_counts (col : list (option A)) (x : A) (n : nat) :
  (x, n) ∈ value_counts col ↔
  Some x ∈ col ∧ n = length (filter (λ c, c = Some x) col).
Proof.
  rewrite value_counts_Permutation, list_elem_of_fmap. split.
  - intros (y & [= -> ->] & Hy). apply elem_of_unique, list_elem_of_omap in Hy
      as (c & Hc & Hcx). destruct c as [c|]; [|done]. injection Hcx as ->.
    split; [done|]. apply occurrences_filter.
  - intros [Hx ->]. exists x. split.
    + f_equal. symmetry. apply occurrences_filter.
    + apply elem_of_unique, list_elem_of_omap. by exists (Some x).
Qed.

Lemma value_counts_NoDup (col : list (option A)) : NoDup (map fst (value_counts col)).
Proof.
  rewrite (Permutation_map fst (value_counts_Permutation col)), map_map.
  cbn [fst]. rewrite map_id. apply NoDup_unique.
Qed.

Lemma value_counts_sorted (col : list (option A)) :
  StronglySorted (λ a b : A * nat, (b.2 ≤ a.2)%nat) (value_counts col).
Proof.
  apply Sorted_StronglySorted.
  - intros a b c ? ?. lia.
  - eapply Sorted_weaken; [|apply sort_Sorted].
    + intros a b. unfold by_count_desc. apply Nat.leb_le.
    + intros a b. unfold by_count_desc. rewrite !Nat.leb_le. lia.
Qed.
End value_counts_facts.

(** Multiplying by a positive number keeps the sign. *)
Lemma Qc_scaled_sign (g p : Qc) :
  (0 < p)%Qc → ((0 < g ↔ 0 < g * p) ∧ (g < 0 ↔ g * p < 0))%Qc.
Proof.
  intros Hp.
  assert (Hpos : (0 < g → 0 < g * p)%Qc).
  { intros Hg. pose proof (Qcmult_lt_compat_r _ _ _ Hp Hg) as H.
    by replace (0 * p)%Qc with 0%Qc in H by ring. }
  assert (Hneg : (g < 0 → g * p < 0)%Qc).
  { intros Hg. pose proof (Qcmult_lt_compat_r _ _ _ Hp Hg) as H.
    by replace (0 * p)%Qc with 0%Qc in H by ring. }
  split; (split; [done|]); intros H.
  - destruct (Qclt_le_dec 0 g) as [?|Hle]; [done|].
    apply Qcle_lt_or_eq in Hle as [Hlt| ->].
    + apply Hneg in Hlt. exfalso. by apply (Qclt_not_le _ _ H), Qclt_le_weak.
    + replace (0 * p)%Qc with 0%Qc in H by ring. by apply Qclt_not_eq in H.
  - destruct (Qclt_le_dec g 0) as [?|Hle]; [done|].
    apply Qcle_lt_or_eq in Hle as [Hlt| <-].
    + apply Hpos in Hlt. exfalso. by apply (Qclt_not_le _ _ H), Qclt_le_weak.
    + replace (0 * p)%Qc with 0%Qc in H by ring. by apply Qclt_not_eq in H.
Qed.

(** A count between 1 and the total is more than 0 and at most 100 per
    cent of it. *)
Lemma percentage_bounds (n total : nat) :
  (1 ≤ n ≤ total)%nat →
  (0 < Qc_of_nat n / Qc_of_nat total * Qc_of_Z 100 ≤ Qc_of_Z 100)%Qc.
Proof.
  intros [Hn Htotal].
  destruct n as [|n]; [lia|]. destruct total as [|total]; [lia|].
  pose proof (Qc_of_nat_S_pos n) as HN. pose proof (Qc_of_nat_S_pos total) as HT.
  assert (HT0 : Qc_of_nat (S total) ≠ 0%Qc) by apply Qc_of_nat_S_neq_0.
  assert (Hle : (Qc_of_nat (S n) ≤ Qc_of_nat (S total))%Qc).
  { unfold Qc_of_nat. apply Qc_of_Z_le. lia. }
  assert (H100 : (0 < Qc_of_Z 100)%Qc) by done.
  set (p := (Qc_of_nat (S n) / Qc_of_nat (S total) * Qc_of_Z 100)%Qc).
  assert (Hp : (p * Qc_of_nat (S total))%Qc = (Qc_of_nat (S n) * Qc_of_Z 100)%Qc).
  { unfold p. by field. }
  split.
  - apply (proj1 (Qc_scaled_sign p _ HT)). rewrite Hp.
    apply (proj1 (proj1 (Qc_scaled_sign _ _ H100))). exact HN.
  - apply (Qcmult_lt_0_le_reg_r _ _ _ HT). rewrite Hp.
    rewrite (Qcmult_comm (Qc_of_Z 100)).
    apply Qcmult_le_compat_r; [exact Hle|by apply Qclt_le_weak].
Qed.

Lemma length_filter_elem_of {A} (P : A → Prop) `{∀ x, Decision (P x)}
    (l : list A) (x : A) :
  x ∈ l → P x → (1 ≤ length (filter P l))%nat.
Proof.
  intros Hx HP.
  assert (Hin : x ∈ filter P l) by (by apply list_elem_of_filter).
  destruct (filter P l); [by apply elem_of_nil in Hin|cbn [length]; lia].
Qed.

Lemma length_filter_mono {A} (P Q : A → Prop)
    `{∀ x, Decision (P x)} `{∀ x, Decision (Q x)} (l : list A) :
  (∀ x, P x → Q x) → (length (filter P l) ≤ length (filter Q l))%nat.
Proof.
  intros HPQ. induction l as [|x t IH]; [done|].
  destruct (decide (P x)) as [HP|HP].
  - rewrite !filter_cons_True by auto. cbn [length]. lia.
  - rewrite (filter_cons_False P) by done.
    destruct (decide (Q x)).
    + rewrite filter_cons_True by done. cbn [length]. lia.
    + by rewrite filter_cons_False.
Qed.

Lemma value_counts_normalized_shape `{EqDecision A} (col : list (option A)) :
  value_counts_normalized col
  = map (λ c, (c.1, (Qc_of_nat c.2 / Qc_of_nat (length (omap id col)))%Qc))
        (value_counts col).
Proof. reflexivity. Qed.

Lemma length_filter_map_Some {A B} `{EqDecision B} (f : A → B) (b : B) (l : list A) :
  length (filter (λ c, c = Some b) (map (λ x, Some (f x)) l))
  = length (filter (λ x, f x = b) l).
Proof.
  induction l as [|x t IH]; [done|]. cbn [map].
  destruct (decide (f x = b)) as [Hx|Hx].
  - rewrite !filter_cons_True by congruence. cbn [length]. by rewrite IH.
  - rewrite !filter_cons_False by congruence. done.
Qed.

Lemma StronglySorted_map {A B} (R : B → B → Prop) (f : A → B) (l : list A) :
  StronglySorted (λ a b, R (f a) (f b)) l → StronglySorted R (map f l).
Proof.
  induction 1 as [|x t Hs IH Hall]; cbn [map]; constructor; [done|].
  apply List.Forall_forall. intros y Hy.
  apply in_map_iff in Hy as (y' & <- & Hy').
  by apply (proj1 (List.Forall_forall _ _) Hall).
Qed.

Lemma omap_Some_key_map {A K} (f : A → K) (l : list A) :
  omap id (map (λ x, Some (f x)) l) = map f l.
Proof.
  induction l as [|x t IH]; [done|].
  cbn [map]. change (omap id (Some (f x) :: ?r)) with (f x :: omap id r).
  by rewrite IH.
Qed.

(** The rows of [calculate_order_status_distribution]: the count and the
    percentage column agree row by row. *)
Lemma order_status_distribution_shape (orders_data : list Order) :
  calculate_order_status_distribution orders_data
  = map (λ c : string * nat,
           (c.1, c.2,
            (Qc_of_nat c.2 / Qc_of_nat (length orders_data) * Qc_of_Z 100)%Qc))
        (value_counts (map (λ o, Some (o_order_status o)) orders_data)).
Proof.
  unfold calculate_order_status_distribution.
  rewrite value_counts_normalized_shape, map_map, zip_with_map_r.
  by rewrite omap_Some_key_map, length_map.
Qed.

(** X14. [calculate_order_status_distribution] has one row per status that
    occurs, with the number of orders of that status and that number as a
    percentage of all orders; the rows come by decreasing count, the counts
    add up to the number of orders, and every percentage is above 0 and at
    most 100. *)
Theorem order_status_distribution_counts (orders_data : list Order) :
  (∀ s n p, (s, n, p) ∈ calculate_order_status_distribution orders_data ↔
     (∃ o, o ∈ orders_data ∧ o_order_status o = s) ∧
     n = length (filter (λ o, o_order_status o = s) orders_data) ∧
     p = (Qc_of_nat n / Qc_of_nat (length orders_data) * Qc_of_Z 100)%Qc) ∧
  StronglySorted (λ a b : string * nat * Qc, (b.1.2 ≤ a.1.2)%nat)
                 (calculate_order_status_distribution orders_data) ∧
  sum_list (map (λ row, row.1.2) (calculate_order_status_distribution orders_data))
  = length orders_data ∧
  (∀ s n p, (s, n, p) ∈ calculate_order_status_distribution orders_data →
     (0 < p ≤ Qc_of_Z 100)%Qc).
Proof.
  rewrite order_status_distribution_shape.
  set (col := map (λ o, Some (o_order_status o)) orders_data).
  assert (Htotal : sum_list (map snd (value_counts col)) = length orders_data).
  { rewrite value_counts_total. unfold col. by rewrite omap_Some_key_map, length_map. }
  split; [|split; [|split]].
  - intros s n p. rewrite list_elem_of_fmap. split.
    + intros ([s' n'] & [= -> -> ->] & Hin). cbn [fst snd].
      apply elem_of_value_counts in Hin as [Hs ->]. unfold col in *.
      rewrite length_filter_map_Some. split; [|done].
      apply list_elem_of_fmap in Hs as (o & [= ->] & Ho). by exists o.
    + intros ((o & Ho & <-) & -> & ->). exists (o_order_status o, length
        (filter (λ o', o_order_status o' = o_order_status o) orders_data)).
      split; [done|]. apply elem_of_value_counts. unfold col.
      rewrite length_filter_map_Some. split; [|done].
      apply list_elem_of_fmap. by exists o.
  - apply StronglySorted_map. cbn [fst snd]. apply value_counts_sorted.
  - rewrite map_map. cbn [fst snd]. exact Htotal.
  - intros s n p Hin.
    apply list_elem_of_fmap in Hin as ([s' n'] & [= -> -> ->] & Hin). cbn [fst snd].
    apply elem_of_value_counts in Hin as [Hs ->].
    apply percentage_bounds. split.
    + by apply (length_filter_elem_of _ _ (Some s')).
    + etrans; [apply length_filter|]. unfold col. by rewrite length_map.
Qed.

Lemma order_status_distribution_counts_witness :
  ("delivered", 1%nat, Qc_of_Z 50) ∈ calculate_order_status_distribution sample_orders ∧
  (0 < Qc_of_Z 50 ≤ Qc_of_Z 100)%Qc.
Proof.
  assert (Hin : ("delivered", 1%nat, Qc_of_Z 50)
                ∈ calculate_order_status_distribution sample_orders)
    by compute_done.
  split; [exact Hin|].
  exact (proj2 (proj2 (proj2 (order_status_distribution_counts sample_orders))) _ _ _ Hin).
Defined.

Lemma length_omap_id_filter {A B} (f : A → option B) (l : list A) :
  length (omap id (map f l)) = length (filter (λ x, is_Some (f x)) l).
Proof.
  induction l as [|x t IH]; [done|]. cbn [map].
  destruct (f x) as [b|] eqn:Hx.
  - change (omap id (Some b :: ?r)) with (b :: omap id r).
    rewrite filter_cons_True by (by rewrite Hx; eexists). cbn [length]. by rewrite IH.
  - change (omap id (None :: ?r)) with (omap id r).
    rewrite filter_cons_False; [done|]. rewrite Hx. by intros [? ?].
Qed.

Lemma length_filter_map {A B} (P : B → Prop) `{∀ b, Decision (P b)}
    (f : A → B) (l : list A) :
  length (filter P (map f l)) = length (filter (λ x, P (f x)) l).
Proof.
  induction l as [|x t IH]; [done|]. cbn [map].
  destruct (decide (P (f x))).
  - rewrite !filter_cons_True by done. cbn [length]. by rewrite IH.
  - by rewrite !filter_cons_False.
Qed.

(** The rows of [calculate_review_score_distribution]: the count and the
    percentage column agree row by row. *)
Lemma review_score_distribution_shape (sales_data : DataFrame) :
  calculate_review_score_distribution sales_data
  = map (λ c : Z * nat,
           (c.1, c.2,
            (Qc_of_nat c.2
             / Qc_of_nat (length (filter (λ d : string * option Z, is_Some d.2)
                   (drop_duplicates
                      (map (λ r, (order_id r, review_score r)) sales_data))))
             * Qc_of_Z 100)%Qc))
        (sort_index Z.leb
           (value_counts
              (map snd (drop_duplicates
                          (map (λ r, (order_id r, review_score r)) sales_data))))).
Proof.
  unfold calculate_review_score_distribution.
  set (review_data := drop_duplicates (map (λ r, (order_id r, review_score r)) sales_data)).
  rewrite value_counts_normalized_shape. unfold sort_index.
  rewrite (sort_map (λ a b : Z * nat, Z.leb a.1 b.1)) by done.
  rewrite map_map, zip_with_map_r. cbn [fst snd].
  by rewrite length_omap_id_filter.
Qed.

(** X15. [calculate_review_score_distribution] counts the distinct
    (order_id, review_score) pairs: it has one row per score that occurs,
    in strictly ascending order of the score, with the number of such pairs
    and that number as a percentage of the pairs that have a score.  The
    counts add up to the number of pairs that have a score, and every
    percentage is above 0 and at most 100. *)
Theorem review_score_distribution_counts (sales_data : DataFrame) :
  let review_data :=
    drop_duplicates (map (λ r, (order_id r, review_score r)) sales_data) in
  let scored := length (filter (λ d : string * option Z, is_Some d.2) review_data) in
  (∀ s n p, (s, n, p) ∈ calculate_review_score_distribution sales_data ↔
     (∃ d, d ∈ review_data ∧ d.2 = Some s) ∧
     n = length (filter (λ d : string * option Z, d.2 = Some s) review_data) ∧
     p = (Qc_of_nat n / Qc_of_nat scored * Qc_of_Z 100)%Qc) ∧
  StronglySorted Z.lt
    (map (λ row, row.1.1) (calculate_review_score_distribution sales_data)) ∧
  sum_list (map (λ row, row.1.2) (calculate_review_score_distribution sales_data))
  = scored ∧
  (∀ s n p, (s, n, p) ∈ calculate_review_score_distribution sales_data →
     (0 < p ≤ Qc_of_Z 100)%Qc).
Proof.
  intros review_data scored. rewrite review_score_distribution_shape.
  fold review_data. fold scored.
  set (col := map snd review_data).
  assert (Hperm : sort_index Z.leb (value_counts col) ≡ₚ value_counts col)
    by apply sort_perm.
  assert (Htotal : sum_list (map snd (sort_index Z.leb (value_counts col))) = scored).
  { rewrite (Permutation_map snd Hperm), value_counts_total.
    unfold col, scored. apply length_omap_id_filter. }
  split; [|split; [|split]].
  - intros s n p. rewrite list_elem_of_fmap. split.
    + intros ([s' n'] & [= -> -> ->] & Hin). cbn [fst snd].
      rewrite Hperm in Hin. apply elem_of_value_counts in Hin as [Hs ->].
      unfold col in *. rewrite (length_filter_map (λ c, c = Some s') snd).
      split; [|done].
      apply list_elem_of_fmap in Hs as (d & Hd & Hin). by exists d.
    + intros ((d & Hd & Hs) & -> & ->).
      exists (s, length (filter (λ d : string * option Z, d.2 = Some s) review_data)).
      split; [done|]. rewrite Hperm. apply elem_of_value_counts. unfold col.
      rewrite (length_filter_map (λ c, c = Some s) snd). split; [|done].
      apply list_elem_of_fmap. by exists d.
  - rewrite map_map. cbn [fst].
    eapply StronglySorted_weaken; [|apply StronglySorted_strict].
    + intros a b [Hle Hne]. revert Hle Hne. instantiate (1 := Z.le). lia.
    + apply StronglySorted_map. apply Sorted_StronglySorted.
      * intros a b c ? ?. lia.
      * eapply Sorted_weaken; [|apply sort_Sorted].
        -- intros a b. apply Z.leb_le.
        -- intros a b. rewrite !Z.leb_le. lia.
    + rewrite (Permutation_map fst Hperm). apply value_counts_NoDup.
  - rewrite map_map. cbn [fst snd]. exact Htotal.
  - intros s n p Hin.
    apply list_elem_of_fmap in Hin as ([s' n'] & [= -> -> ->] & Hin). cbn [fst snd].
    rewrite Hperm in Hin. apply elem_of_value_counts in Hin as [Hs ->].
    apply percentage_bounds. split.
    + by apply (length_filter_elem_of _ _ (Some s')).
    + unfold col, scored. rewrite (length_filter_map (λ c, c = Some s') snd).
      apply length_filter_mono. intros d ->. by eexists.
Qed.

Lemma review_score_distribution_counts_witness :
  (4, 1%nat, Qc_of_Z 50) ∈ calculate_review_score_distribution two_orders_reviewed ∧
  (0 < Qc_of_Z 50 ≤ Qc_of_Z 100)%Qc.
Proof.
  assert (Hin : (4, 1%nat, Qc_of_Z 50)
                ∈ calculate_review_score_distribution two_orders_reviewed)
    by compute_done.
  split; [exact Hin|].
  exact (proj2 (proj2 (proj2 (review_score_distribution_counts two_orders_reviewed)))
           _ _ _ Hin).
Defined.

(** ** Period comparison *)

(** X16. Compared with an empty previous period, [compare_periods] reports
    a revenue growth rate and an order growth rate of exactly 0.0 (the
    previous values are zero), the whole current revenue as change, and NaN
    for the previous average order value and for its growth rate. *)
Theorem compare_periods_empty_previous (current_period_data : DataFrame) :
  revenue_change (compare_periods current_period_data [])
  = calculate_total_revenue current_period_data ∧
  revenue_growth_rate (compare_periods current_period_data []) = Fin 0 ∧
  orders_growth_rate (compare_periods current_period_data []) = Fin 0 ∧
  previous_aov (compare_periods current_period_data []) = NaN ∧
  aov_growth_rate (compare_periods current_period_data []) = NaN.
Proof.
  unfold compare_periods. cbn [revenue_change revenue_growth_rate orders_growth_rate
    previous_aov aov_growth_rate].
  split; [|split; [|split; [|split]]]; try reflexivity.
  - change (calculate_total_revenue []) with 0%Qc. ring.
  - change (calculate_average_order_value []) with NaN.
    unfold calculate_revenue_growth. cbn [fis_zero].
    by destruct (calculate_average_order_value current_period_data).
Qed.

Lemma whole_amount_nonneg (q : Qc) : whole_amount q = true → (0 ≤ q)%Qc.
Proof.
  unfold whole_amount. intros H. apply andb_true_iff in H as [H _].
  apply Z.leb_le in H. unfold Qcle, Qle.
  change (Qnum (this 0%Qc)) with 0. change (QDen (this 0%Qc)) with 1. lia.
Qed.

Lemma exact_prices_nonneg (sales_data : DataFrame) :
  exact_prices sales_data = true → (0 ≤ calculate_total_revenue sales_data)%Qc.
Proof.
  unfold exact_prices. intros H. apply andb_true_iff in H as [H _].
  unfold calculate_total_revenue, sum.
  induction sales_data as [|r t IH]; [apply Qcle_refl|].
  cbn [forallb] in H. apply andb_true_iff in H as [Hr Ht].
  cbn [map]. rewrite Qc_sum_cons.
  replace 0%Qc with (0 + 0)%Qc by ring.
  apply Qcplus_le_compat; [by apply whole_amount_nonneg|by apply IH].
Qed.

(** X17. For two periods whose prices float64 adds without rounding and a
    previous revenue that is not zero, the revenue growth rate of
    [compare_periods] is a finite number whose sign tells the direction:
    it is positive exactly when the current revenue is above the previous
    one, negative exactly when it is below, zero exactly when the two are
    equal, and never below -1. *)
Theorem compare_periods_growth_sign
    (current_period_data previous_period_data : DataFrame) :
  exact_prices current_period_data = true →
  exact_prices previous_period_data = true →
  calculate_total_revenue previous_period_data ≠ 0%Qc →
  ∃ g, revenue_growth_rate (compare_periods current_period_data previous_period_data)
       = Fin g ∧
       (0 < g ↔ calculate_total_revenue previous_period_data
                < calculate_total_revenue current_period_data)%Qc ∧
       (g < 0 ↔ calculate_total_revenue current_period_data
                < calculate_total_revenue previous_period_data)%Qc ∧
       (g = 0%Qc ↔ calculate_total_revenue current_period_data
                   = calculate_total_revenue previous_period_data) ∧
       (- (1) ≤ g)%Qc.
Proof.
  intros Hcur Hprev Hne. unfold compare_periods. cbn [revenue_growth_rate].
  apply exact_prices_nonneg in Hcur, Hprev.
  set (c := calculate_total_revenue current_period_data) in *.
  set (p := calculate_total_revenue previous_period_data) in *.
  assert (Hpos : (0 < p)%Qc).
  { apply Qcle_lt_or_eq in Hprev as [?|Heq]; [done|]. by symmetry in Heq. }
  assert (Hg : ((c - p) / p * p = c - p)%Qc) by (by field).
  destruct (Qc_scaled_sign ((c - p) / p) p Hpos) as [Hgpos Hgneg].
  rewrite Hg in Hgpos, Hgneg.
  exists ((c - p) / p)%Qc. split; [|split; [|split; [|split]]].
  - unfold calculate_revenue_growth. cbn [fis_zero fsub fdiv].
    by rewrite !Qc_eqb_neq.
  - rewrite Hgpos. symmetry. apply Qclt_minus_iff.
  - rewrite Hgneg, (Qclt_minus_iff (c - p) 0).
    replace (0 + - (c - p))%Qc with (p + - c)%Qc by ring.
    symmetry. apply Qclt_minus_iff.
  - split; intros H.
    + rewrite H in Hg. replace c with (c - p + p)%Qc by ring. rewrite <- Hg. ring.
    + rewrite H. by field.
  - apply (Qcmult_lt_0_le_reg_r _ _ p Hpos). rewrite Hg.
    replace (- (1) * p)%Qc with (0 + - p)%Qc by ring.
    apply Qcplus_le_compat; [exact Hcur|apply Qcle_refl].
Qed.

Lemma compare_periods_growth_sign_witness :
  exact_prices two_categories = true ∧ exact_prices uncategorised_item = true ∧
  calculate_total_revenue uncategorised_item ≠ 0%Qc ∧
  ∃ g, revenue_growth_rate (compare_periods two_categories uncategorised_item) = Fin g ∧
       (0 < g)%Qc.
Proof.
  assert (Hc : exact_prices two_categories = true) by reflexivity.
  assert (Hp : exact_prices uncategorised_item = true) by reflexivity.
  assert (Hne : calculate_total_revenue uncategorised_item ≠ 0%Qc) by discriminate.
  split; [exact Hc|]. split; [exact Hp|]. split; [exact Hne|].
  destruct (compare_periods_growth_sign two_categories uncategorised_item Hc Hp Hne)
    as (g & Hg & Hpos & _).
  exists g. split; [exact Hg|]. by apply Hpos.
Defined.

(** ** Bounds of the average review score *)

Lemma Qc_sum_bounds (lo hi : Qc) (l : list Qc) :
  Forall (λ x, lo ≤ x ≤ hi)%Qc l →
  (lo * Qc_of_nat (length l) ≤ Qc_sum l ≤ hi * Qc_of_nat (length l))%Qc.
Proof.
  induction 1 as [|x t [Hlo Hhi] _ [IHlo IHhi]].
  - change (Qc_of_nat (length [])) with 0%Qc. change (Qc_sum []) with 0%Qc.
    split; ring_simplify (lo * 0)%Qc; ring_simplify (hi * 0)%Qc; apply Qcle_refl.
  - cbn [length]. rewrite Qc_sum_cons, Qc_of_nat_S. split.
    + replace (lo * (Qc_of_nat (length t) + 1))%Qc
        with (lo + lo * Qc_of_nat (length t))%Qc by ring.
      by apply Qcplus_le_compat.
    + replace (hi * (Qc_of_nat (length t) + 1))%Qc
        with (hi + hi * Qc_of_nat (length t))%Qc by ring.
      by apply Qcplus_le_compat.
Qed.

(** The mean lies between any bounds that hold for all values present. *)
Lemma mean_bounds (lo hi : Qc) (l : list (option Qc)) (q : Qc) :
  Forall (λ c, ∀ x, c = Some x → lo ≤ x ≤ hi)%Qc l →
  mean l = Fin q → (lo ≤ q ≤ hi)%Qc.
Proof.
  intros Hall. unfold mean.
  assert (Hpresent : Forall (λ x, lo ≤ x ≤ hi)%Qc (omap id l)).
  { induction Hall as [|c t Hc _ IH]; [constructor|].
    destruct c as [x|].
    - change (omap id (Some x :: t)) with (x :: omap id t).
      constructor; [by apply Hc|done].
    - exact IH. }
  apply Qc_sum_bounds in Hpresent as [Hlo Hhi].
  destruct (omap id l) as [|x t]; [done|]. intros Hq.
  set (n := Qc_of_nat (length (x :: t))) in *.
  assert (Hq' : (Qc_sum (x :: t) / n)%Qc = q) by congruence.
  rewrite <- Hq'. clear Hq Hq'.
  assert (Hn : (0 < n)%Qc) by apply Qc_of_nat_S_pos.
  assert (Hn0 : n ≠ 0%Qc) by (intros E; rewrite E in Hn; by apply Qclt_not_eq in Hn).
  split; apply (Qcmult_lt_0_le_reg_r _ _ n Hn).
  - replace (Qc_sum (x :: t) / n * n)%Qc with (Qc_sum (x :: t)) by (by field). done.
  - replace (Qc_sum (x :: t) / n * n)%Qc with (Qc_sum (x :: t)) by (by field). done.
Qed.

(** X18. The average review score lies within any bounds that hold for
    every score in the table (within 1 and 5 for valid reviews), and it is
    NaN exactly when no row has a score. *)
Theorem average_review_score_bounds (sales_data : DataFrame) (lo hi : Z) :
  Forall (λ r, ∀ s, review_score r = Some s → lo ≤ s ≤ hi) sales_data →
  (∀ q, calculate_average_review_score sales_data = Fin q →
        (Qc_of_Z lo ≤ q ≤ Qc_of_Z hi)%Qc) ∧
  (calculate_average_review_score sales_data = NaN ↔
   Forall (λ r, review_score r = None) sales_data).
Proof.
  intros Hall. split.
  - intros q. apply mean_bounds. apply Forall_fmap.
    eapply Forall_impl; [done|]. intros r Hr x. cbv beta in Hr.
    destruct (review_score r) as [s|] eqn:Hs; [|done]. intros [= <-].
    destruct (Hr s eq_refl). split; by apply Qc_of_Z_le.
  - clear Hall. unfold calculate_average_review_score, mean.
    induction sales_data as [|r t IH].
    + split; [constructor|done].
    + cbn [map]. destruct (review_score r) as [s|] eqn:Hs.
      * change (omap id (score_cell (Some s) :: ?l)) with (Qc_of_Z s :: omap id l).
        split; [done|]. intros H. apply Forall_cons in H as [H _]. congruence.
      * change (omap id (score_cell None :: ?l)) with (omap id l).
        rewrite IH. split; [by constructor|]. intros H.
        by apply Forall_cons in H as [_ H].
Qed.

Lemma average_review_score_bounds_witness :
  Forall (λ r, ∀ s, review_score r = Some s → 1 ≤ s ≤ 5) two_orders_reviewed ∧
  (Qc_of_Z 1 ≤ Qc_of_Z 2 ≤ Qc_of_Z 5)%Qc.
Proof.
  assert (H : Forall (λ r, ∀ s, review_score r = Some s → 1 ≤ s ≤ 5)
                     two_orders_reviewed).
  { unfold two_orders_reviewed.
    repeat (constructor; [intros s [= <-]; lia|]). constructor. }
  split; [exact H|].
  apply (proj1 (average_review_score_bounds two_orders_reviewed 1 5 H)).
  compute_done.
Defined.

(** ** The period filter: edge cases *)

Lemma days_before_year_mono (y y' : Z) :
  y ≤ y' → days_before_year y ≤ days_before_year y'.
Proof. intros Hy. unfold days_before_year. Z.div_mod_to_equations. lia. Qed.

Lemma days_before_month_mono (leap : bool) (m m' : Z) :
  1 ≤ m → m ≤ m' → m' ≤ 12 → days_before_month leap m ≤ days_before_month leap m'.
Proof.
  intros H1 Hm H12.
  month_cases m; month_cases m'; try lia; destruct leap; by vm_compute.
Qed.

(** The first days of the months come in calendar order. *)
Lemma first_of_month_mono (y m y' m' : Z) :
  1 ≤ m ≤ 12 → 1 ≤ m' ≤ 12 →
  y < y' ∨ (y = y' ∧ m ≤ m') →
  days_from_civil y m 1 ≤ days_from_civil y' m' 1.
Proof.
  intros Hm Hm' Hle. unfold days_from_civil. destruct Hle as [Hlt|[-> Hle]].
  - pose proof (days_before_year_mono (y + 1) y' ltac:(lia)) as Hmono.
    rewrite days_before_year_succ in Hmono.
    pose proof (days_before_month_bounds (is_leapyear y) m Hm) as [_ Hhi].
    pose proof (days_per_month_bounds (is_leapyear y) m Hm).
    pose proof (days_before_month_bounds (is_leapyear y') m' Hm') as [Hlo _].
    destruct (is_leapyear y); lia.
  - pose proof (days_before_month_mono (is_leapyear y') m m'). lia.
Qed.

(** A month that ends before another one starts. *)
Lemma last_before_first (y m y' m' : Z) :
  1 ≤ m ≤ 12 → 1 ≤ m' ≤ 12 →
  y < y' ∨ (y = y' ∧ m < m') →
  days_from_civil y m (days_per_month (is_leapyear y) m) < days_from_civil y' m' 1.
Proof.
  intros Hm Hm' Hlt. rewrite <- (day_before_next_month y m Hm).
  destruct (Z.eqb_spec m 12) as [->|Hne].
  - pose proof (first_of_month_mono (y + 1) 1 y' m' ltac:(lia) Hm' ltac:(lia)). lia.
  - pose proof (first_of_month_mono y (m + 1) y' m' ltac:(lia) Hm' ltac:(lia)). lia.
Qed.

Lemma in_range_empty (lo hi : Z) (r : SalesRow) : hi < lo → in_range lo hi r = false.
Proof.
  intros Hlt. unfold in_range, cell_ge, cell_le.
  destruct (order_purchase_timestamp r) as [s|ns|]; [done| |done].
  destruct (Z.leb_spec lo ns), (Z.leb_spec ns hi); try done. lia.
Qed.

Section period_filter_edges.
Variable parse : string → option Z.

(** X19. When the end month lies before the start month in the calendar,
    [filter_by_date_range] raises nothing and returns the empty frame. *)
Theorem filter_by_date_range_reversed_bounds
    (df parsed : DataFrame) (start_year start_month end_year end_month : Z) :
  1 ≤ start_month ≤ 12 → 1 ≤ end_month ≤ 12 →
  1678 ≤ start_year ≤ 2261 → 1678 ≤ end_year ≤ 2261 →
  purchase_to_datetime parse df = Ok parsed →
  end_year < start_year ∨ (end_year = start_year ∧ end_month < start_month) →
  filter_by_date_range parse df start_year start_month end_year end_month = Ok [].
Proof.
  intros Hsm Hem Hsy Hey Hparsed Hrev. unfold filter_by_date_range.
  rewrite Hparsed. cbn [mbind result_bind bind].
  rewrite range_start_ok, range_end_ok by done.
  cbn [mbind result_bind bind]. f_equal.
  apply list_filter_bool_none. intros r _. apply in_range_empty.
  unfold spec.first_instant_of_month, spec.last_instant_of_month.
  pose proof (last_before_first end_year end_month start_year start_month
                Hem Hsm Hrev).
  unfold ns_per_day, ns_per_second. lia.
Qed.

(** X20. An end month of 0 is not rejected: it stands for December of the
    year before.  A start month outside 1..12, and an end month outside
    0..12, raise ValueError once the purchase column is converted. *)
Theorem filter_by_date_range_month_arguments
    (df : DataFrame) (start_year start_month end_year end_month : Z) :
  filter_by_date_range parse df start_year start_month end_year 0
  = filter_by_date_range parse df start_year start_month (end_year - 1) 12 ∧
  (∀ parsed,
     purchase_to_datetime parse df = Ok parsed →
     1 ≤ start_year ≤ 9999 → ¬ 1 ≤ start_month ≤ 12 →
     filter_by_date_range parse df start_year start_month end_year end_month
     = Raise (ValueError "month must be in 1..12")) ∧
  (∀ parsed lo,
     purchase_to_datetime parse df = Ok parsed →
     range_start start_year start_month = Ok lo →
     1 ≤ end_year ≤ 9999 → ¬ 0 ≤ end_month ≤ 12 →
     filter_by_date_range parse df start_year start_month end_year end_month
     = Raise (ValueError "month must be in 1..12")).
Proof.
  split; [|split].
  - unfold filter_by_date_range, range_end.
    change (0 =? 12) with false. change (12 =? 12) with true. cbv iota.
    by replace (end_year - 1 + 1) with end_year by lia.
  - intros parsed Hparsed Hy Hm. unfold filter_by_date_range.
    rewrite Hparsed. cbn [mbind result_bind bind]. unfold range_start, Timestamp.
    rewrite (proj2 (andb_true_iff _ _)) by (rewrite !Z.leb_le; lia).
    cbn [negb].
    destruct (Z.leb_spec 1 start_month), (Z.leb_spec start_month 12);
      cbn [andb negb bind]; try done; lia.
  - intros parsed lo Hparsed Hlo Hy Hm. unfold filter_by_date_range.
    rewrite Hparsed. cbn [mbind result_bind bind]. rewrite Hlo. cbn [bind].
    unfold range_end. destruct (Z.eqb_spec end_month 12) as [->|Hne]; [lia|].
    unfold Timestamp.
    rewrite (proj2 (andb_true_iff _ _)) by (rewrite !Z.leb_le; lia).
    cbn [negb].
    destruct (Z.leb_spec 1 (end_month + 1)), (Z.leb_spec (end_month + 1) 12);
      cbn [andb negb mbind result_bind bind]; try done; lia.
Qed.
End period_filter_edges.

Lemma filter_by_date_range_reversed_bounds_witness :
  1 ≤ 12 ≤ 12 ∧ 1 ≤ 1 ≤ 12 ∧ 1678 ≤ 2023 ≤ 2261 ∧
  purchase_to_datetime parse_new_year around_2023 = Ok around_2023_converted ∧
  (2023 < 2023 ∨ (2023 = 2023 ∧ 1 < 12)) ∧
  filter_by_date_range parse_new_year around_2023 2023 12 2023 1 = Ok [].
Proof.
  assert (Hm12 : 1 ≤ 12 ≤ 12) by lia.
  assert (Hm1 : 1 ≤ 1 ≤ 12) by lia.
  assert (Hy : 1678 ≤ 2023 ≤ 2261) by lia.
  assert (Hp : purchase_to_datetime parse_new_year around_2023
               = Ok around_2023_converted) by reflexivity.
  assert (Hrev : 2023 < 2023 ∨ (2023 = 2023 ∧ 1 < 12)) by (right; lia).
  split; [exact Hm12|]. split; [exact Hm1|]. split; [exact Hy|]. split; [exact Hp|].
  split; [exact Hrev|].
  exact (filter_by_date_range_reversed_bounds parse_new_year around_2023
           around_2023_converted 2023 12 2023 1 Hm12 Hm1 Hy Hy Hp Hrev).
Defined.

Lemma filter_by_date_range_month_arguments_witness :
  purchase_to_datetime parse_new_year around_2023 = Ok around_2023_converted ∧
  1 ≤ 2023 ≤ 9999 ∧ ¬ 1 ≤ 0 ≤ 12 ∧
  filter_by_date_range parse_new_year around_2023 2023 0 2023 12
  = Raise (ValueError "month must be in 1..12") ∧
  range_start 2023 1 = Ok 1672531200000000000 ∧ ¬ 0 ≤ 13 ≤ 12 ∧
  filter_by_date_range parse_new_year around_2023 2023 1 2023 13
  = Raise (ValueError "month must be in 1..12").
Proof.
  assert (Hp : purchase_to_datetime parse_new_year around_2023
               = Ok around_2023_converted) by reflexivity.
  assert (Hy : 1 ≤ 2023 ≤ 9999) by lia.
  assert (Hm0 : ¬ 1 ≤ 0 ≤ 12) by lia.
  assert (Hlo : range_start 2023 1 = Ok 1672531200000000000) by reflexivity.
  assert (Hm13 : ¬ 0 ≤ 13 ≤ 12) by lia.
  destruct (filter_by_date_range_month_arguments parse_new_year around_2023
              2023 0 2023 12) as (_ & Hstart & _).
  destruct (filter_by_date_range_month_arguments parse_new_year around_2023
              2023 1 2023 13) as (_ & _ & Hend).
  split; [exact Hp|]. split; [exact Hy|]. split; [exact Hm0|].
  split; [exact (Hstart _ Hp Hy Hm0)|].
  split; [exact Hlo|]. split; [exact Hm13|].
  exact (Hend _ _ Hp Hlo Hy Hm13).
Defined.

Lemma month_instants (y m : Z) :
  1 ≤ m ≤ 12 →
  spec.first_instant_of_month y m ≤ spec.last_instant_of_month y m.
Proof.
  intros Hm. unfold spec.first_instant_of_month, spec.last_instant_of_month.
  pose proof (days_per_month_bounds (is_leapyear y) m Hm).
  unfold days_from_civil, ns_per_day, ns_per_second. lia.
Qed.

(** One second after the last instant of a month the next month starts. *)
Lemma next_month_starts_a_second_later (y m : Z) :
  1 ≤ m ≤ 11 →
  spec.first_instant_of_month y (m + 1)
  = spec.last_instant_of_month y m + ns_per_second.
Proof.
  intros Hm. unfold spec.first_instant_of_month, spec.last_instant_of_month.
  pose proof (day_before_next_month y m ltac:(lia)) as Hday.
  destruct (Z.eqb_spec m 12); [lia|].
  unfold ns_per_day, ns_per_second. lia.
Qed.

Lemma split_filter_total {A} (val : A → Qc) (f g h : A → bool) (l : list A) :
  (∀ x, In x l → f x = g x || h x) →
  (∀ x, In x l → g x && h x = false) →
  Qc_sum (map val (List.filter f l))
  = (Qc_sum (map val (List.filter g l)) + Qc_sum (map val (List.filter h l)))%Qc.
Proof.
  induction l as [|x t IH]; intros Hor Hand.
  - cbn [List.filter map]. change (Qc_sum []) with 0%Qc. ring.
  - cbn [List.filter]. rewrite (Hor x) by by left.
    pose proof (Hand x ltac:(by left)) as Hx.
    assert (IH' := IH (λ z Hz, Hor z (or_intror Hz)) (λ z Hz, Hand z (or_intror Hz))).
    destruct (g x), (h x); try done; cbn [orb map]; rewrite ?Qc_sum_cons, IH'; ring.
Qed.

Section period_filter_months.
Variable parse : string → option Z.

Lemma filter_by_date_range_ok
    (df parsed : DataFrame) (start_year start_month end_year end_month : Z) :
  1 ≤ start_month ≤ 12 → 1 ≤ end_month ≤ 12 →
  1678 ≤ start_year ≤ 2261 → 1678 ≤ end_year ≤ 2261 →
  purchase_to_datetime parse df = Ok parsed →
  filter_by_date_range parse df start_year start_month end_year end_month
  = Ok (List.filter
          (in_range (spec.first_instant_of_month start_year start_month)
                    (spec.last_instant_of_month end_year end_month)) parsed).
Proof.
  intros Hsm Hem Hsy Hey Hparsed. unfold filter_by_date_range.
  rewrite Hparsed. cbn [mbind result_bind bind].
  by rewrite range_start_ok, range_end_ok.
Qed.

(** X21. The end bound stops at 23:59:59.000 and the next month starts a
    full second later.  A purchase strictly between the two instants is
    kept by neither of the two single-month filters, although the filter
    over both months keeps it. *)
Theorem last_second_of_month_is_in_no_month
    (df parsed : DataFrame) (y m t : Z) (r : SalesRow) :
  1678 ≤ y ≤ 2261 → 1 ≤ m ≤ 11 →
  purchase_to_datetime parse df = Ok parsed →
  r ∈ parsed →
  order_purchase_timestamp r = Ts t →
  spec.last_instant_of_month y m < t < spec.last_instant_of_month y m + ns_per_second →
  ∃ this_month next_month both_months,
    filter_by_date_range parse df y m y m = Ok this_month ∧
    filter_by_date_range parse df y (m + 1) y (m + 1) = Ok next_month ∧
    filter_by_date_range parse df y m y (m + 1) = Ok both_months ∧
    (r ∉ this_month) ∧ (r ∉ next_month) ∧ r ∈ both_months.
Proof.
  intros Hy Hm Hparsed Hr Ht Hgap.
  pose proof (next_month_starts_a_second_later y m Hm) as Hnext.
  pose proof (month_instants y m ltac:(lia)) as H1.
  pose proof (month_instants y (m + 1) ltac:(lia)) as H2.
  do 3 eexists.
  rewrite !(filter_by_date_range_ok df parsed) by (done || lia).
  split; [done|]. split; [done|]. split; [done|].
  rewrite !elem_of_list_filter_bool.
  unfold in_range, cell_ge, cell_le. rewrite Ht, !andb_true_iff, !Z.leb_le.
  split; [lia|]. split; [lia|]. split; [done|lia].
Qed.

(** X22. When every purchase timestamp is a whole number of seconds, the
    rows of a range of months of one year are the rows of its first part
    together with the rows of the rest; on a table whose prices float64
    adds without rounding, the revenue of the range is the sum of the two
    revenues. *)
Theorem consecutive_ranges_add_up
    (df parsed : DataFrame) (y a m b : Z) :
  1678 ≤ y ≤ 2261 → 1 ≤ a ≤ m → m < b ≤ 12 →
  purchase_to_datetime parse df = Ok parsed →
  Forall (λ r, ∀ t, order_purchase_timestamp r = Ts t → (ns_per_second | t)) parsed →
  ∃ first_part rest whole,
    filter_by_date_range parse df y a y m = Ok first_part ∧
    filter_by_date_range parse df y (m + 1) y b = Ok rest ∧
    filter_by_date_range parse df y a y b = Ok whole ∧
    (∀ r, r ∈ whole ↔ r ∈ first_part ∨ r ∈ rest) ∧
    (exact_prices parsed = true →
     calculate_total_revenue whole
     = (calculate_total_revenue first_part + calculate_total_revenue rest)%Qc).
Proof.
  intros Hy Ha Hb Hparsed Hwhole.
  pose proof (next_month_starts_a_second_later y m ltac:(lia)) as Hnext.
  assert (Hlo : spec.first_instant_of_month y a ≤ spec.first_instant_of_month y (m + 1)).
  { unfold spec.first_instant_of_month.
    pose proof (first_of_month_mono y a y (m + 1) ltac:(lia) ltac:(lia) ltac:(lia)).
    unfold ns_per_day, ns_per_second. lia. }
  assert (Hhi : spec.last_instant_of_month y m < spec.last_instant_of_month y b).
  { pose proof (month_instants y b ltac:(lia)).
    assert (spec.first_instant_of_month y (m + 1) ≤ spec.first_instant_of_month y b).
    { unfold spec.first_instant_of_month.
      pose proof (first_of_month_mono y (m + 1) y b ltac:(lia) ltac:(lia) ltac:(lia)).
      unfold ns_per_day, ns_per_second. lia. }
    unfold ns_per_second in Hnext. lia. }
  assert (Hsecond : ∃ k, spec.last_instant_of_month y m = k * ns_per_second).
  { unfold spec.last_instant_of_month, ns_per_day. eexists. 
    rewrite Z.mul_assoc, <- Z.mul_add_distr_r. reflexivity. }
  destruct Hsecond as [k Hk].
  assert (Hsplit : ∀ r, r ∈ parsed →
    in_range (spec.first_instant_of_month y a) (spec.last_instant_of_month y b) r
    = in_range (spec.first_instant_of_month y a) (spec.last_instant_of_month y m) r
      || in_range (spec.first_instant_of_month y (m + 1))
                  (spec.last_instant_of_month y b) r
    ∧ in_range (spec.first_instant_of_month y a) (spec.last_instant_of_month y m) r
      && in_range (spec.first_instant_of_month y (m + 1))
                  (spec.last_instant_of_month y b) r = false).
  { intros r Hr. unfold in_range, cell_ge, cell_le.
    destruct (order_purchase_timestamp r) as [s|t|] eqn:Ht; [done| |done].
    destruct (proj1 (Forall_forall _ _) Hwhole r Hr t Ht) as [j Hj].
    unfold ns_per_second in *.
    destruct (Z.leb_spec (spec.first_instant_of_month y a) t),
             (Z.leb_spec t (spec.last_instant_of_month y b)),
             (Z.leb_spec t (spec.last_instant_of_month y m)),
             (Z.leb_spec (spec.first_instant_of_month y (m + 1)) t);
      cbn [andb orb]; split; try done; lia. }
  do 3 eexists.
  rewrite !(filter_by_date_range_ok df parsed) by (done || lia).
  split; [done|]. split; [done|]. split; [done|]. split.
  - intros r. rewrite !elem_of_list_filter_bool. split.
    + intros [Hr Hin]. destruct (Hsplit r Hr) as [Hor _]. rewrite Hor in Hin.
      apply orb_true_iff in Hin as [?|?]; [by left|by right].
    + intros [[Hr Hin]|[Hr Hin]]; (split; [done|]);
        destruct (Hsplit r Hr) as [-> _]; rewrite Hin; [done|apply orb_true_r].
  - intros _. unfold calculate_total_revenue, sum. apply split_filter_total.
    + intros r Hr. by apply Hsplit, list_elem_of_In.
    + intros r Hr. by apply Hsplit, list_elem_of_In.
Qed.
End period_filter_months.

Lemma last_second_of_month_is_in_no_month_witness :
  1678 ≤ 2023 ≤ 2261 ∧ 1 ≤ 1 ≤ 11 ∧
  purchase_to_datetime parse_new_year last_second_of_january
  = Ok last_second_of_january ∧
  line_item "A" 1 10 None (Ts 1675209599500000000) NaT ∈ last_second_of_january ∧
  spec.last_instant_of_month 2023 1 < 1675209599500000000
    < spec.last_instant_of_month 2023 1 + ns_per_second ∧
  filter_by_date_range parse_new_year last_second_of_january 2023 1 2023 1 = Ok [] ∧
  filter_by_date_range parse_new_year last_second_of_january 2023 2 2023 2 = Ok [] ∧
  filter_by_date_range parse_new_year last_second_of_january 2023 1 2023 2
  = Ok last_second_of_january.
Proof.
  assert (Hy : 1678 ≤ 2023 ≤ 2261) by lia.
  assert (Hm : 1 ≤ 1 ≤ 11) by lia.
  assert (Hp : purchase_to_datetime parse_new_year last_second_of_january
               = Ok last_second_of_january) by reflexivity.
  assert (Hr : line_item "A" 1 10 None (Ts 1675209599500000000) NaT
               ∈ last_second_of_january) by (by left).
  assert (Hgap : spec.last_instant_of_month 2023 1 < 1675209599500000000
                 < spec.last_instant_of_month 2023 1 + ns_per_second)
    by (split; reflexivity).
  destruct (last_second_of_month_is_in_no_month parse_new_year
              last_second_of_january last_second_of_january 2023 1
              1675209599500000000 _ Hy Hm Hp Hr eq_refl Hgap)
    as (this_month & next_month & both_months & _).
  split; [exact Hy|]. split; [exact Hm|]. split; [exact Hp|]. split; [exact Hr|].
  split; [exact Hgap|]. repeat split.
Defined.

Lemma consecutive_ranges_add_up_witness :
  1678 ≤ 2023 ≤ 2261 ∧ 1 ≤ 1 ≤ 6 ∧ 6 < 12 ≤ 12 ∧
  purchase_to_datetime parse_new_year around_2023 = Ok around_2023_converted ∧
  Forall (λ r, ∀ t, order_purchase_timestamp r = Ts t → (ns_per_second | t))
         around_2023_converted ∧
  exact_prices around_2023_converted = true ∧
  ∃ first_part rest whole,
    filter_by_date_range parse_new_year around_2023 2023 1 2023 6 = Ok first_part ∧
    filter_by_date_range parse_new_year around_2023 2023 (6 + 1) 2023 12 = Ok rest ∧
    filter_by_date_range parse_new_year around_2023 2023 1 2023 12 = Ok whole ∧
    (∀ r, r ∈ whole ↔ r ∈ first_part ∨ r ∈ rest) ∧
    calculate_total_revenue whole
    = (calculate_total_revenue first_part + calculate_total_revenue rest)%Qc.
Proof.
  assert (Hy : 1678 ≤ 2023 ≤ 2261) by lia.
  assert (Ha : 1 ≤ 1 ≤ 6) by lia.
  assert (Hb : 6 < 12 ≤ 12) by lia.
  assert (Hp : purchase_to_datetime parse_new_year around_2023
               = Ok around_2023_converted) by reflexivity.
  assert (Hs : Forall (λ r, ∀ t, order_purchase_timestamp r = Ts t → (ns_per_second | t))
                      around_2023_converted).
  { unfold around_2023_converted.
    constructor; [intros t [= <-]; by exists 1672531200|].
    constructor; [intros t [= <-]; by exists 1704067199|].
    constructor; [intros t [= <-]; by exists 1704067200|]. constructor. }
  assert (He : exact_prices around_2023_converted = true) by reflexivity.
  split; [exact Hy|]. split; [exact Ha|]. split; [exact Hb|]. split; [exact Hp|].
  split; [exact Hs|]. split; [exact He|].
  destruct (consecutive_ranges_add_up parse_new_year around_2023 around_2023_converted
              2023 1 6 12 Hy Ha Hb Hp Hs)
    as (first_part & rest & whole & H1 & H2 & H3 & Hrows & Hrevenue).
  exists first_part, rest, whole.
  split; [exact H1|]. split; [exact H2|]. split; [exact H3|].
  split; [exact Hrows|exact (Hrevenue He)].
Defined.

(** ** Delivery speed *)

Lemma Forall2_compose {A B C} (R1 : A → B → Prop) (R2 : B → C → Prop)
    (R3 : A → C → Prop) (l : list A) (k : list B) (m : list C) :
  (∀ x y z, R1 x y → R2 y z → R3 x z) →
  Forall2 R1 l k → Forall2 R2 k m → Forall2 R3 l m.
Proof.
  intros HR H1. revert m. induction H1 as [|x y l k Hxy _ IH]; intros m H2.
  - inversion H2. constructor.
  - inversion H2 as [|? z ? m' Hyz Hkm]; subst. constructor; [by eapply HR|by apply IH].
Qed.

Lemma to_datetime_cell_is_datetime (parse : string → option Z) (c c' : datecell) :
  to_datetime_cell parse c = Ok c' → spec.is_datetime c' = true.
Proof.
  destruct c as [s|ns|]; cbn.
  - destruct (parse s); [|done]. by intros [= <-].
  - by intros [= <-].
  - by intros [= <-].
Qed.

Lemma days_between_Some (a b : datecell) (n : Z) :
  days_between a b = Some n ↔
  ∃ d p, a = Ts d ∧ b = Ts p ∧ n * ns_per_day ≤ d - p < (n + 1) * ns_per_day.
Proof.
  unfold days_between, ns_per_day, ns_per_second. split.
  - destruct a as [|d|], b as [|p|]; try done. intros [= <-].
    exists d, p. split; [done|]. split; [done|]. Z.div_mod_to_equations. lia.
  - intros (d & p & -> & -> & Hn). f_equal. Z.div_mod_to_equations. lia.
Qed.

Section delivery_speed.
Variable parse : string → option Z.

(** X23. [calculate_delivery_speed] keeps the rows and their order.  In
    every row the two date columns are converted, the day count is set,
    and each of the fourteen other columns is what it was.  Where the two
    timestamps of a row are less than 2^63 ns apart (pandas raises
    OverflowError otherwise), the row gets a day count n exactly when both
    its purchase and its delivery timestamp are present, and then n is the
    number of whole 24-hour periods between them, rounded down (negative
    when the delivery precedes the purchase); otherwise the count is
    null. *)
Theorem calculate_delivery_speed_whole_days (sales_data out : DataFrame) :
  calculate_delivery_speed parse sales_data = Ok out →
  Forall (λ r, span_fits r = true) out →
  Forall2 (λ r r',
     order_id r' = order_id r ∧ order_item_id r' = order_item_id r ∧
     product_id r' = product_id r ∧ price r' = price r ∧
     freight_value r' = freight_value r ∧ customer_id r' = customer_id r ∧
     order_status r' = order_status r ∧
     year r' = year r ∧ month r' = month r ∧
     product_category_name r' = product_category_name r ∧
     customer_state r' = customer_state r ∧ customer_city r' = customer_city r ∧
     review_score r' = review_score r ∧
     delivery_category r' = delivery_category r ∧
     to_datetime_cell parse (order_purchase_timestamp r)
     = Ok (order_purchase_timestamp r') ∧
     to_datetime_cell parse (order_delivered_customer_date r)
     = Ok (order_delivered_customer_date r'))
    sales_data out ∧
  Forall (λ r, ∀ n, delivery_speed_days r = Some n ↔
                 ∃ d p, order_delivered_customer_date r = Ts d ∧
                        order_purchase_timestamp r = Ts p ∧
                        n * ns_per_day ≤ d - p < (n + 1) * ns_per_day) out.
Proof.
  unfold calculate_delivery_speed. intros H _.
  destruct (purchase_to_datetime parse sales_data) as [s1|e] eqn:H1; [|done].
  cbn [mbind result_bind bind] in H.
  destruct (delivered_to_datetime parse s1) as [s2|e] eqn:H2; [|done].
  cbn [bind] in H. injection H as <-.
  split.
  - apply mapM_Ok_Forall2 in H1, H2. apply Forall2_fmap_r.
    eapply Forall2_compose; [|exact H1|exact H2].
    intros r r1 r2 Hr1 Hr2. cbn [mbind result_bind bind] in Hr1, Hr2.
    destruct (to_datetime_cell parse (order_purchase_timestamp r)) as [c|e] eqn:Hc;
      [|done].
    cbn [bind] in Hr1. injection Hr1 as <-.
    change (order_delivered_customer_date (set_order_purchase_timestamp c r))
      with (order_delivered_customer_date r) in Hr2.
    destruct (to_datetime_cell parse (order_delivered_customer_date r)) as [d|e] eqn:Hd;
      [|done].
    cbn [bind] in Hr2. injection Hr2 as <-. cbn. by repeat split.
  - apply Forall_fmap, Forall_forall. intros r _ n. cbn.
    apply days_between_Some.
Qed.
End delivery_speed.

Lemma calculate_delivery_speed_whole_days_witness :
  calculate_delivery_speed parse_new_year sample_sales
  = Ok (map (λ r, set_delivery_speed_days
                    (days_between (order_delivered_customer_date r)
                                  (order_purchase_timestamp r)) r) sample_sales) ∧
  Forall (λ r, span_fits r = true)
    (map (λ r, set_delivery_speed_days
                 (days_between (order_delivered_customer_date r)
                               (order_purchase_timestamp r)) r) sample_sales) ∧
  map delivery_speed_days
      (map (λ r, set_delivery_speed_days
                   (days_between (order_delivered_customer_date r)
                                 (order_purchase_timestamp r)) r) sample_sales)
  = [Some 3; None; Some 3] ∧
  Forall2 (λ r r', price r' = price r ∧ customer_id r' = customer_id r)
    sample_sales
    (map (λ r, set_delivery_speed_days
                 (days_between (order_delivered_customer_date r)
                               (order_purchase_timestamp r)) r) sample_sales).
Proof.
  assert (H : calculate_delivery_speed parse_new_year sample_sales
    = Ok (map (λ r, set_delivery_speed_days
                      (days_between (order_delivered_customer_date r)
                                    (order_purchase_timestamp r)) r) sample_sales))
    by reflexivity.
  assert (Hfits : Forall (λ r, span_fits r = true)
    (map (λ r, set_delivery_speed_days
                 (days_between (order_delivered_customer_date r)
                               (order_purchase_timestamp r)) r) sample_sales))
    by (repeat constructor).
  destruct (calculate_delivery_speed_whole_days parse_new_year sample_sales _ H Hfits)
    as [Hcolumns _].
  split; [exact H|]. split; [exact Hfits|]. split; [reflexivity|].
  eapply Forall2_impl; [exact Hcolumns|].
  intros r r' Hr. split; [apply Hr|apply Hr].
Defined.

(** ** Calendar fields *)

Lemma find_year_spec (fuel : nat) (lo days : Z) :
  days_before_year lo ≤ days →
  days < days_before_year (lo + Z.of_nat fuel) →
  days_before_year (find_year fuel lo days) ≤ days
  < days_before_year (find_year fuel lo days + 1).
Proof.
  revert lo. induction fuel as [|fuel IH]; intros lo Hlo Hhi.
  - replace (lo + Z.of_nat 0) with lo in Hhi by lia. lia.
  - cbn [find_year]. destruct (Z.ltb_spec days (days_before_year (lo + 1))); [lia|].
    apply IH; [done|]. by replace (lo + 1 + Z.of_nat fuel) with (lo + Z.of_nat (S fuel)) by lia.
Qed.

(** Every day number lies in the year computed for it. *)
Lemma year_of_days_spec (days : Z) :
  days_before_year (year_of_days days) ≤ days
  < days_before_year (year_of_days days + 1).
Proof.
  unfold year_of_days. apply find_year_spec.
  - unfold days_before_year. Z.div_mod_to_equations. lia.
  - rewrite Nat2Z.inj_add, Z2Nat.id by (apply Z.div_pos; lia).
    unfold days_before_year. Z.div_mod_to_equations. lia.
Qed.

Lemma year_unique (y y' days : Z) :
  days_before_year y ≤ days < days_before_year (y + 1) →
  days_before_year y' ≤ days < days_before_year (y' + 1) →
  y = y'.
Proof.
  intros Hy Hy'.
  destruct (Z.lt_trichotomy y y') as [Hlt|[?|Hlt]]; [|done|].
  - pose proof (days_before_year_mono (y + 1) y' ltac:(lia)). lia.
  - pose proof (days_before_year_mono (y' + 1) y ltac:(lia)). lia.
Qed.

Lemma find_month_from (fuel : nat) (leap : bool) (m day_of_year : Z) :
  1 ≤ m → m + Z.of_nat fuel = 12 →
  0 ≤ day_of_year →
  days_before_month leap m + day_of_year < (if leap then 366 else 365) →
  m ≤ find_month fuel leap m day_of_year ≤ 12 ∧
  days_before_month leap (find_month fuel leap m day_of_year)
  ≤ days_before_month leap m + day_of_year
  < days_before_month leap (find_month fuel leap m day_of_year)
    + days_per_month leap (find_month fuel leap m day_of_year).
Proof.
  revert m day_of_year. induction fuel as [|fuel IH]; intros m d Hm Hfuel Hd Hlast.
  - cbn [find_month]. assert (m = 12) as -> by lia.
    pose proof (days_before_month_december leap).
    change (days_per_month leap 12) with 31. lia.
  - cbn [find_month]. destruct (Z.ltb_spec d (days_per_month leap m)); [lia|].
    destruct (IH (m + 1) (d - days_per_month leap m)) as [Hm' Hd']; [lia..| |].
    + rewrite days_before_month_succ by lia. lia.
    + rewrite days_before_month_succ in Hd' by lia. split; lia.
Qed.

(** Every day of a year lies in the month computed for it. *)
Lemma find_month_spec (leap : bool) (day_of_year : Z) :
  0 ≤ day_of_year < (if leap then 366 else 365) →
  1 ≤ find_month 11 leap 1 day_of_year ≤ 12 ∧
  days_before_month leap (find_month 11 leap 1 day_of_year) ≤ day_of_year
  < days_before_month leap (find_month 11 leap 1 day_of_year)
    + days_per_month leap (find_month 11 leap 1 day_of_year).
Proof.
  intros Hd.
  destruct (find_month_from 11 leap 1 day_of_year) as [Hm Hd']; [lia..| |].
  - change (days_before_month leap 1) with 0. lia.
  - change (days_before_month leap 1) with 0 in Hd'. split; lia.
Qed.

Lemma month_unique (leap : bool) (m m' day_of_year : Z) :
  1 ≤ m ≤ 12 → 1 ≤ m' ≤ 12 →
  days_before_month leap m ≤ day_of_year
  < days_before_month leap m + days_per_month leap m →
  days_before_month leap m' ≤ day_of_year
  < days_before_month leap m' + days_per_month leap m' →
  m = m'.
Proof.
  intros Hm Hm' H H'.
  destruct (Z.lt_trichotomy m m') as [Hlt|[?|Hlt]]; [|done|].
  - pose proof (days_before_month_mono leap (m + 1) m' ltac:(lia) ltac:(lia) ltac:(lia)).
    rewrite days_before_month_succ in * by lia. lia.
  - pose proof (days_before_month_mono leap (m' + 1) m ltac:(lia) ltac:(lia) ltac:(lia)).
    rewrite days_before_month_succ in * by lia. lia.
Qed.

(** A day number lies between the first and the last day of the month of
    the year computed for it. *)
Lemma month_of_days_spec (days : Z) :
  1 ≤ month_of_days days ≤ 12 ∧
  days_from_civil (year_of_days days) (month_of_days days) 1 ≤ days
  ≤ days_from_civil (year_of_days days) (month_of_days days)
      (days_per_month (is_leapyear (year_of_days days)) (month_of_days days)).
Proof.
  pose proof (year_of_days_spec days) as Hy.
  rewrite days_before_year_succ in Hy.
  unfold month_of_days, days_from_civil.
  set (y := year_of_days days) in *.
  destruct (find_month_spec (is_leapyear y) (days - days_before_year y)) as [Hm Hd].
  { destruct (is_leapyear y); lia. }
  split; [done|]. lia.
Qed.

(** Round trip: the calendar fields of a day given by year, month and day
    are that year and that month. *)
Lemma calendar_fields_of_date (y m d : Z) :
  1 ≤ m ≤ 12 → 1 ≤ d ≤ days_per_month (is_leapyear y) m →
  year_of_days (days_from_civil y m d) = y ∧
  month_of_days (days_from_civil y m d) = m.
Proof.
  intros Hm Hd.
  pose proof (days_before_month_bounds (is_leapyear y) m Hm) as [Hlo Hhi].
  assert (Hy : year_of_days (days_from_civil y m d) = y).
  { apply (year_unique _ _ (days_from_civil y m d)); [apply year_of_days_spec|].
    rewrite days_before_year_succ. unfold days_from_civil.
    destruct (is_leapyear y); lia. }
  split; [done|].
  destruct (month_of_days_spec (days_from_civil y m d)) as [Hm' Hd'].
  rewrite Hy in Hd'.
  apply (month_unique (is_leapyear y) _ _ (days_from_civil y m d - days_before_year y));
    [done|done| |].
  - unfold days_from_civil in *. lia.
  - unfold days_from_civil. lia.
Qed.

(** ** Preparing the order table *)

(** The calendar month read off a timestamp contains that timestamp. *)
Lemma calendar_fields_contain (t : Z) :
  1 ≤ month_of_days (t / ns_per_day) ≤ 12 ∧
  spec.first_instant_of_month (year_of_days (t / ns_per_day)) (month_of_days (t / ns_per_day))
  ≤ t
  < spec.last_instant_of_month (year_of_days (t / ns_per_day)) (month_of_days (t / ns_per_day))
    + ns_per_second.
Proof.
  destruct (month_of_days_spec (t / ns_per_day)) as [Hm Hd].
  split; [done|]. unfold spec.first_instant_of_month, spec.last_instant_of_month.
  set (y := year_of_days (t / ns_per_day)) in *.
  set (m := month_of_days (t / ns_per_day)) in *.
  set (hi := days_from_civil y m (days_per_month (is_leapyear y) m)) in *.
  set (lo := days_from_civil y m 1) in *. clearbody lo hi.
  unfold ns_per_day, ns_per_second in *. Z.div_mod_to_equations. lia.
Qed.

Section prepare_orders.
Variable parse : string → option Z.

Lemma convert_column_rows (get : Order → datecell) (set : datecell → Order → Order)
    (orders out : list Order) :
  convert_column parse get set orders = Ok out →
  Forall2 (λ o o', ∃ c, to_datetime_cell parse (get o) = Ok c ∧ o' = set c o) orders out.
Proof.
  intros H. apply mapM_Ok_Forall2 in H. eapply Forall2_impl; [exact H|].
  intros o o' Ho. cbn [mbind result_bind bind] in Ho.
  destruct (to_datetime_cell parse (get o)) as [c|e]; [|done].
  exists c. split; [done|]. by injection Ho.
Qed.

Lemma prepare_orders_data_rows (orders prepared : list Order) :
  prepare_orders_data parse orders = Ok prepared →
  Forall2 (λ o o', orders_step parse true true true true true o
                     (set_order_dates (o_order_purchase_timestamp o') (o_order_approved_at o')
                        (o_order_delivered_carrier_date o')
                        (o_order_delivered_customer_date o')
                        (o_order_estimated_delivery_date o') (o_year o) (o_month o) o') ∧
                   o_year o' = dt_year (o_order_purchase_timestamp o') ∧
                   o_month o' = dt_month (o_order_purchase_timestamp o'))
          orders prepared.
Proof.
  unfold prepare_orders_data. intros H.
  destruct (convert_column parse o_order_purchase_timestamp _ orders) as [l1|e] eqn:H1; [|done].
  cbn [mbind result_bind bind] in H.
  destruct (convert_column parse o_order_approved_at _ l1) as [l2|e] eqn:H2; [|done].
  cbn [mbind result_bind bind] in H.
  destruct (convert_column parse o_order_delivered_carrier_date _ l2) as [l3|e] eqn:H3; [|done].
  cbn [mbind result_bind bind] in H.
  destruct (convert_column parse o_order_delivered_customer_date _ l3) as [l4|e] eqn:H4; [|done].
  cbn [mbind result_bind bind] in H.
  destruct (convert_column parse o_order_estimated_delivery_date _ l4) as [l5|e] eqn:H5; [|done].
  cbn [mbind result_bind bind] in H. injection H as <-.
  apply convert_column_rows in H1, H2, H3, H4, H5.
  apply Forall2_fmap_r.
  assert (H12 : Forall2 (orders_step parse true true false false false) orders l2).
  { eapply Forall2_compose; [|exact H1|exact H2].
    intros o o1 o2 (c1 & Hc1 & ->) (c2 & Hc2 & ->). by repeat split. }
  assert (H13 : Forall2 (orders_step parse true true true false false) orders l3).
  { eapply Forall2_compose; [|exact H12|exact H3].
    intros o o2 o3 (?&?&?&?&?&?&?&?&?&?) (c & Hc & ->).
    unfold orders_step, column_state in *. cbn in *.
    repeat split; congruence. }
  assert (H14 : Forall2 (orders_step parse true true true true false) orders l4).
  { eapply Forall2_compose; [|exact H13|exact H4].
    intros o o3 o4 (?&?&?&?&?&?&?&?&?&?) (c & Hc & ->).
    unfold orders_step, column_state in *. cbn in *.
    repeat split; congruence. }
  assert (H15 : Forall2 (orders_step parse true true true true true) orders l5).
  { eapply Forall2_compose; [|exact H14|exact H5].
    intros o o4 o5 (?&?&?&?&?&?&?&?&?&?) (c & Hc & ->).
    unfold orders_step, column_state in *. cbn in *.
    repeat split; congruence. }
  eapply Forall2_impl; [exact H15|].
  intros o o5 (?&?&?&?&?&?&?&?&?&?).
  unfold orders_step, column_state in *. cbn in *. by repeat split.
Qed.

(** X24. [prepare_orders_data] keeps the rows, their ids and statuses;
    afterwards each of the five date columns holds a timestamp or NaT, and
    year and month are the calendar month that contains the purchase
    timestamp (month between 1 and 12), or null where the purchase
    timestamp is NaT. *)
Theorem prepare_orders_data_calendar_fields (orders prepared : list Order) :
  prepare_orders_data parse orders = Ok prepared →
  map o_order_id prepared = map o_order_id orders ∧
  map o_customer_id prepared = map o_customer_id orders ∧
  map o_order_status prepared = map o_order_status orders ∧
  Forall (λ o,
    spec.is_datetime (o_order_purchase_timestamp o) = true ∧
    spec.is_datetime (o_order_approved_at o) = true ∧
    spec.is_datetime (o_order_delivered_carrier_date o) = true ∧
    spec.is_datetime (o_order_delivered_customer_date o) = true ∧
    spec.is_datetime (o_order_estimated_delivery_date o) = true ∧
    match o_order_purchase_timestamp o with
    | Ts t => ∃ y m, o_year o = Some y ∧ o_month o = Some m ∧ 1 ≤ m ≤ 12 ∧
                     spec.first_instant_of_month y m ≤ t
                     < spec.last_instant_of_month y m + ns_per_second
    | _ => o_year o = None ∧ o_month o = None
    end) prepared.
Proof.
  intros H. apply prepare_orders_data_rows in H.
  induction H as [|o o' t t' (Hstep & Hy & Hm) _ (IH1 & IH2 & IH3 & IH4)].
  { by repeat split. }
  destruct Hstep as (Hid & Hcid & Hst & _ & _ & H1 & H2 & H3 & H4 & H5).
  unfold column_state in *. cbn in Hid, Hcid, Hst, H1, H2, H3, H4, H5.
  cbn [map]. rewrite IH1, IH2, IH3, Hid, Hcid, Hst.
  repeat split; try done. constructor; [|done].
  repeat split; try by eapply to_datetime_cell_is_datetime.
  apply to_datetime_cell_is_datetime in H1.
  destruct (o_order_purchase_timestamp o') as [s|ns|]; [done| |done].
  cbn [dt_year dt_month] in Hy, Hm.
  eexists _, _. split; [exact Hy|]. split; [exact Hm|].
  apply calendar_fields_contain.
Qed.

End prepare_orders.

Lemma prepare_orders_data_calendar_fields_witness :
  prepare_orders_data parse_sample raw_orders = Ok prepared_orders ∧
  map o_order_id prepared_orders = map o_order_id raw_orders ∧
  map o_year prepared_orders = [Some 2023; Some 2023] ∧
  map o_month prepared_orders = [Some 1; Some 12].
Proof.
  assert (H : prepare_orders_data parse_sample raw_orders = Ok prepared_orders)
    by (vm_compute; reflexivity).
  split; [exact H|].
  split; [exact (proj1 (prepare_orders_data_calendar_fields parse_sample _ _ H))|].
  split; reflexivity.
Defined.

(** ** The pipeline from the tables to the enriched sales rows *)

Lemma merge_left_Forall {L R K O} `{EqDecision K}
    (left_on : L → K) (right_on : R → K) (combine : L → option R → O)
    (P : L → Prop) (Q : O → Prop) (left : list L) (right : list R) :
  (∀ l x, P l → Q (combine l x)) →
  Forall P left → Forall Q (merge_left left_on right_on combine left right).
Proof.
  intros HPQ Hall. unfold merge_left. induction Hall as [|l t Hl _ IH]; [constructor|].
  change (flat_map ?f (l :: t)) with (f l ++ flat_map f t).
  apply Forall_app. split; [|exact IH]. cbv beta.
  destruct (matching left_on right_on l right) as [|r rs].
  - constructor; [by apply HPQ|constructor].
  - apply Forall_forall. intros o Ho. apply list_elem_of_In, in_map_iff in Ho as (x & <- & _).
    by apply HPQ.
Qed.

Lemma mapM_Forall {A B} (f : A → result B) (P : A → Prop) (Q : B → Prop)
    (l : list A) (l' : list B) :
  (∀ x y, P x → f x = Ok y → Q y) →
  mapM f l = Ok l' → Forall P l → Forall Q l'.
Proof.
  intros HPQ H Hall. apply mapM_Ok_Forall2 in H.
  induction H as [|x y t t' Hxy _ IH]; [constructor|].
  apply Forall_cons_1 in Hall as [Hx Ht]. constructor; [by eapply HPQ|by apply IH].
Qed.

Lemma calculate_delivery_speed_Forall (parse : string → option Z)
    (P Q : SalesRow → Prop) (sales_data out : DataFrame) :
  (∀ r c d, P r →
     to_datetime_cell parse (order_purchase_timestamp r) = Ok c →
     to_datetime_cell parse (order_delivered_customer_date r) = Ok d →
     Q (set_delivery_speed_days (days_between d c)
          (set_order_delivered_customer_date d (set_order_purchase_timestamp c r)))) →
  calculate_delivery_speed parse sales_data = Ok out →
  Forall P sales_data → Forall Q out.
Proof.
  intros HPQ H Hall. unfold calculate_delivery_speed in H.
  destruct (purchase_to_datetime parse sales_data) as [s1|e] eqn:H1; [|done].
  cbn [mbind result_bind bind] in H.
  destruct (delivered_to_datetime parse s1) as [s2|e] eqn:H2; [|done].
  cbn [bind] in H. injection H as <-.
  apply Forall_fmap.
  eapply (mapM_Forall _ (λ r1, ∃ r c, P r ∧
            to_datetime_cell parse (order_purchase_timestamp r) = Ok c ∧
            r1 = set_order_purchase_timestamp c r)); [|exact H2|].
  - intros r1 r2 (r & c & Hr & Hc & ->) Hr2.
    cbn [mbind result_bind bind] in Hr2.
    destruct (to_datetime_cell parse _) as [d|e] eqn:Hd in Hr2; [|done].
    cbn [bind] in Hr2. injection Hr2 as <-.
    cbn. exact (HPQ r c d Hr Hc Hd).
  - eapply (mapM_Forall _ P); [|exact H1|exact Hall].
    intros r r1 Hr Hr1. cbn [mbind result_bind bind] in Hr1.
    destruct (to_datetime_cell parse (order_purchase_timestamp r)) as [c|e] eqn:Hc; [|done].
    cbn [bind] in Hr1. injection Hr1 as <-. by exists r, c.
Qed.

(** A timestamp between the first instant of one month and the last
    second of another has its calendar month between the two. *)
Lemma calendar_fields_within (t start_year start_month end_year end_month : Z) :
  1 ≤ start_month ≤ 12 → 1 ≤ end_month ≤ 12 →
  spec.first_instant_of_month start_year start_month ≤ t
  ≤ spec.last_instant_of_month end_year end_month →
  (start_year < year_of_days (t / ns_per_day) ∨
   (start_year = year_of_days (t / ns_per_day) ∧
    start_month ≤ month_of_days (t / ns_per_day))) ∧
  (year_of_days (t / ns_per_day) < end_year ∨
   (year_of_days (t / ns_per_day) = end_year ∧
    month_of_days (t / ns_per_day) ≤ end_month)).
Proof.
  intros Hsm Hem Ht.
  destruct (month_of_days_spec (t / ns_per_day)) as [Hm Hd].
  set (y := year_of_days (t / ns_per_day)) in *.
  set (m := month_of_days (t / ns_per_day)) in *.
  unfold spec.first_instant_of_month, spec.last_instant_of_month in Ht.
  assert (Hlo : days_from_civil start_year start_month 1 ≤ t / ns_per_day).
  { unfold ns_per_day, ns_per_second in *. Z.div_mod_to_equations. lia. }
  assert (Hhi : t / ns_per_day
                ≤ days_from_civil end_year end_month
                    (days_per_month (is_leapyear end_year) end_month)).
  { unfold ns_per_day, ns_per_second in *. Z.div_mod_to_equations. lia. }
  split.
  - destruct (Z.lt_trichotomy y start_year) as [Hlt|[Heq|Hgt]]; [|subst start_year|lia].
    + pose proof (last_before_first y m start_year start_month Hm Hsm ltac:(lia)). lia.
    + destruct (Z.le_gt_cases start_month m) as [Hle|Hgt]; [by right|].
      pose proof (last_before_first y m y start_month Hm Hsm ltac:(lia)). lia.
  - destruct (Z.lt_trichotomy y end_year) as [Hlt|[Heq|Hgt]]; [by left|subst end_year|].
    + destruct (Z.le_gt_cases m end_month) as [Hle|Hgt]; [by right|].
      pose proof (last_before_first y end_month y m Hem Hm ltac:(lia)). lia.
    + pose proof (last_before_first end_year end_month y m Hem Hm ltac:(lia)). lia.
Qed.

Lemma create_sales_dataset_row_source
    (order_items : list OrderItem) (orders : list Order) (status_filter : string)
    (r : SalesRow) :
  r ∈ create_sales_dataset order_items orders status_filter →
  ∃ i o, i ∈ order_items ∧ o ∈ orders ∧ o_order_id o = oi_order_id i ∧
         (status_filter = "" ∨ order_status r = status_filter) ∧ r = sales_row i o.
Proof.
  unfold create_sales_dataset. destruct (decide (status_filter = "")) as [->|Hne].
  - rewrite bool_decide_eq_true_2 by done. rewrite elem_of_merge_inner.
    intros (i & o & ? & ? & ? & ->). exists i, o. repeat split; try done. by left.
  - rewrite bool_decide_eq_false_2 by done.
    rewrite elem_of_list_filter_bool, elem_of_merge_inner, bool_decide_eq_true.
    intros [(i & o & ? & ? & ? & ->) Hst]. exists i, o.
    repeat split; try done. right. exact Hst.
Qed.

Section pipeline.
Variable parse : string → option Z.

Lemma prepared_orders_fields (raw_orders orders : list Order) :
  prepare_orders_data parse raw_orders = Ok orders →
  Forall (λ o, spec.is_datetime (o_order_purchase_timestamp o) = true ∧
               o_year o = dt_year (o_order_purchase_timestamp o) ∧
               o_month o = dt_month (o_order_purchase_timestamp o)) orders.
Proof.
  intros H. apply prepare_orders_data_rows in H.
  induction H as [|o o' t t' (Hstep & Hy & Hm) _ IH]; constructor; [|done].
  destruct Hstep as (_ & _ & _ & _ & _ & H1 & _).
  unfold column_state in H1. cbn in H1.
  split; [by eapply to_datetime_cell_is_datetime|done].
Qed.

(** X25. On sales rows built from the prepared order table, the period
    filter and the year and month columns agree: every row kept by
    [filter_by_date_range] has a year and a month, and that calendar month
    lies between the start month and the end month. *)
Theorem filter_by_date_range_year_month
    (raw_orders orders : list Order) (order_items : list OrderItem)
    (status_filter : string) (out : DataFrame)
    (start_year start_month end_year end_month : Z) :
  1 ≤ start_month ≤ 12 → 1 ≤ end_month ≤ 12 →
  1678 ≤ start_year ≤ 2261 → 1678 ≤ end_year ≤ 2261 →
  prepare_orders_data parse raw_orders = Ok orders →
  filter_by_date_range parse (create_sales_dataset order_items orders status_filter)
    start_year start_month end_year end_month = Ok out →
  Forall (λ r, ∃ y m, year r = Some y ∧ month r = Some m ∧
                      (start_year < y ∨ (start_year = y ∧ start_month ≤ m)) ∧
                      (y < end_year ∨ (y = end_year ∧ m ≤ end_month))) out.
Proof.
  intros Hsm Hem Hsy Hey Hprep Hout.
  pose proof (prepared_orders_fields _ _ Hprep) as Hfields.
  rewrite Forall_forall in Hfields.
  assert (Hsales : Forall (λ r, spec.is_datetime (order_purchase_timestamp r) = true ∧
                                year r = dt_year (order_purchase_timestamp r) ∧
                                month r = dt_month (order_purchase_timestamp r))
                          (create_sales_dataset order_items orders status_filter)).
  { apply Forall_forall. intros r Hr.
    apply create_sales_dataset_row_source in Hr as (i & o & _ & Ho & _ & _ & ->).
    cbn. by apply Hfields. }
  rewrite (filter_by_date_range_ok parse _
             (create_sales_dataset order_items orders status_filter)) in Hout; try done.
  2:{ apply purchase_to_datetime_fixed. eapply Forall_impl; [exact Hsales|].
      by intros r [? _]. }
  injection Hout as <-. apply Forall_forall. intros r Hr.
  apply elem_of_list_filter_bool in Hr as [Hr Hin].
  rewrite Forall_forall in Hsales. destruct (Hsales r Hr) as (_ & Hy & Hm).
  apply in_range_purchased_within in Hin as (t & Ht & Hrange).
  rewrite Ht in Hy, Hm. cbn [dt_year dt_month] in Hy, Hm.
  eexists _, _. split; [exact Hy|]. split; [exact Hm|].
  by apply calendar_fields_within.
Qed.

End pipeline.

Lemma filter_by_date_range_year_month_witness :
  1 ≤ 1 ≤ 12 ∧ 1 ≤ 6 ≤ 12 ∧ 1678 ≤ 2023 ≤ 2261 ∧
  prepare_orders_data parse_sample raw_orders = Ok prepared_orders ∧
  filter_by_date_range parse_sample
    (create_sales_dataset sample_items prepared_orders "delivered") 2023 1 2023 6
  = Ok (List.filter (λ r, bool_decide (order_id r = "A"))
          (create_sales_dataset sample_items prepared_orders "delivered")) ∧
  Forall (λ r, ∃ y m, year r = Some y ∧ month r = Some m ∧
                      (2023 < y ∨ (2023 = y ∧ 1 ≤ m)) ∧
                      (y < 2023 ∨ (y = 2023 ∧ m ≤ 6)))
         (List.filter (λ r, bool_decide (order_id r = "A"))
            (create_sales_dataset sample_items prepared_orders "delivered")).
Proof.
  assert (Hm1 : 1 ≤ 1 ≤ 12) by lia.
  assert (Hm6 : 1 ≤ 6 ≤ 12) by lia.
  assert (Hy : 1678 ≤ 2023 ≤ 2261) by lia.
  assert (Hp : prepare_orders_data parse_sample raw_orders = Ok prepared_orders)
    by (vm_compute; reflexivity).
  assert (Hf : filter_by_date_range parse_sample
                 (create_sales_dataset sample_items prepared_orders "delivered")
                 2023 1 2023 6
               = Ok (List.filter (λ r, bool_decide (order_id r = "A"))
                       (create_sales_dataset sample_items prepared_orders "delivered")))
    by (vm_compute; reflexivity).
  split; [exact Hm1|]. split; [exact Hm6|]. split; [exact Hy|].
  split; [exact Hp|]. split; [exact Hf|].
  exact (filter_by_date_range_year_month parse_sample raw_orders prepared_orders
           sample_items "delivered" _ 2023 1 2023 6 Hm1 Hm6 Hy Hy Hp Hf).
Defined.

(** ** dashboard.py: [prepare_sales_data] *)

Lemma categorize_delivery_speed_in_order (days : option Z) :
  categorize_delivery_speed days ∈ category_order.
Proof.
  unfold categorize_delivery_speed, category_order.
  destruct (days_le days 3); [by left|].
  destruct (days_le days 7); [right; by left|]. right. right. by left.
Qed.

Section dashboard_pipeline.
Variable parse : string → option Z.

(** X26. Every row [prepare_sales_data] returns comes from a line item and
    an order with the same order_id, has status "delivered" and a purchase
    timestamp between the two bounds of the period; its delivery date is a
    timestamp or NaT, its day count is the whole days between purchase and
    delivery, and its delivery category is never null: it is the bucket of
    the day count, one of the three categories. *)
Theorem prepare_sales_data_rows (datasets : Datasets) (out : DataFrame)
    (start_year start_month end_year end_month : Z) :
  prepare_sales_data parse datasets start_year start_month end_year end_month = Ok out →
  ∃ start_date end_date,
    range_start start_year start_month = Ok start_date ∧
    range_end end_year end_month = Ok end_date ∧
    Forall (λ r,
      (∃ i o, i ∈ ds_order_items datasets ∧ o ∈ ds_orders datasets ∧
              o_order_id o = oi_order_id i ∧
              order_id r = oi_order_id i ∧ price r = oi_price i ∧
              customer_id r = o_customer_id o) ∧
      order_status r = "delivered" ∧
      spec.purchased_within start_date end_date r ∧
      spec.is_datetime (order_delivered_customer_date r) = true ∧
      delivery_speed_days r
      = days_between (order_delivered_customer_date r) (order_purchase_timestamp r) ∧
      delivery_category r = Some (categorize_delivery_speed (delivery_speed_days r)) ∧
      ∃ c, delivery_category r = Some c ∧ c ∈ category_order) out.
Proof.
  unfold prepare_sales_data. intros H.
  destruct (filter_by_date_range parse _ _ _ _ _) as [s1|e] eqn:Hf; [|done].
  cbn [mbind result_bind bind] in H.
  destruct (calculate_delivery_speed parse _) as [s2|e] eqn:Hs; [|done].
  cbn [bind] in H. injection H as <-.
  unfold filter_by_date_range in Hf.
  destruct (purchase_to_datetime parse _) as [parsed|e] eqn:Hp; [|done].
  cbn [mbind result_bind bind] in Hf.
  destruct (range_start start_year start_month) as [start_date|e]; [|done].
  cbn [bind] in Hf.
  destruct (range_end end_year end_month) as [end_date|e]; [|done].
  cbn [bind] in Hf. injection Hf as <-.
  exists start_date, end_date. split; [done|]. split; [done|].
  set (source := λ r : SalesRow,
         (∃ i o, i ∈ ds_order_items datasets ∧ o ∈ ds_orders datasets ∧
                 o_order_id o = oi_order_id i ∧
                 order_id r = oi_order_id i ∧ price r = oi_price i ∧
                 customer_id r = o_customer_id o) ∧
         order_status r = "delivered").
  assert (Hparsed : Forall source parsed).
  { eapply (mapM_Forall _ source); [|exact Hp|].
    - intros r r1 Hr Hr1. cbn [mbind result_bind bind] in Hr1.
      destruct (to_datetime_cell parse (order_purchase_timestamp r)); [|done].
      cbn [bind] in Hr1. injection Hr1 as <-. exact Hr.
    - apply Forall_forall. intros r Hr.
      apply create_sales_dataset_row_source in Hr as (i & o & Hi & Ho & Hk & Hst & ->).
      split; [by exists i, o|]. by destruct Hst. }
  assert (Hperiod : Forall (λ r, source r ∧ spec.purchased_within start_date end_date r)
                           (List.filter (in_range start_date end_date) parsed)).
  { rewrite Forall_forall in Hparsed. apply Forall_forall. intros r Hr.
    apply elem_of_list_filter_bool in Hr as [Hr Hin].
    split; [by apply Hparsed|by apply in_range_purchased_within]. }
  apply Forall_fmap.
  eapply (calculate_delivery_speed_Forall parse
            (λ r, source r ∧ spec.purchased_within start_date end_date r));
    [|exact Hs|].
  - intros r c d [[Hsrc Hst] (t & Ht & Hrange)] Hc Hd.
    rewrite Ht in Hc. injection Hc as <-. cbn.
    split; [exact Hsrc|]. split; [exact Hst|]. split; [by exists t|].
    split; [by eapply to_datetime_cell_is_datetime|].
    split; [done|]. split; [done|].
    eexists. split; [done|]. apply categorize_delivery_speed_in_order.
  - unfold add_review_scores, add_customer_geography, add_product_categories.
    set (kept := λ r, source r ∧ spec.purchased_within start_date end_date r) in *.
    apply (merge_left_Forall _ _ _ kept kept); [intros r x Hr; exact Hr|].
    apply (merge_left_Forall _ _ _ kept kept); [intros r x Hr; exact Hr|].
    apply (merge_left_Forall _ _ _ kept kept); [intros r x Hr; exact Hr|].
    exact Hperiod.
Qed.

End dashboard_pipeline.

Lemma prepare_sales_data_rows_witness :
  ∃ out, prepare_sales_data parse_sample sample_datasets 2023 1 2023 12 = Ok out ∧
         map order_id out = ["A"; "A"; "B"; "A"; "A"] ∧
         Forall (λ r, order_status r = "delivered") out.
Proof.
  let v := eval vm_compute in
             (prepare_sales_data parse_sample sample_datasets 2023 1 2023 12) in
  match v with
  | Ok ?out =>
      assert (H : prepare_sales_data parse_sample sample_datasets 2023 1 2023 12 = Ok out)
        by (vm_compute; reflexivity);
      exists out
  end.
  split; [exact H|]. split; [vm_compute; reflexivity|].
  destruct (prepare_sales_data_rows parse_sample sample_datasets _ 2023 1 2023 12 H)
    as (lo & hi & _ & _ & Hall).
  eapply Forall_impl; [exact Hall|]. by intros r (_ & Hst & _).
Defined.

(** ** Review score by delivery speed *)

(** X27. When every delivery category is one of the three buckets (or
    null), [calculate_review_by_delivery_speed] lists the buckets that
    occur, in the fixed order "1-3 days", "4-7 days", "8+ days" whatever the
    order of the rows, each with the mean score of the distinct (order,
    category, score) combinations of that bucket; a bucket without rows is
    left out, and rows without category are in no bucket. *)
Theorem review_by_delivery_speed_fixed_order (sales_data : DataFrame) :
  Forall (λ r, ∀ c, delivery_category r = Some c → c ∈ category_order) sales_data →
  calculate_review_by_delivery_speed sales_data
  = map (λ c, (Some c,
               mean (map (λ t : string * option string * option Z, score_cell t.2)
                       (List.filter
                          (λ t : string * option string * option Z,
                             bool_decide (t.1.2 = Some c))
                          (drop_duplicates
                             (map (λ r, (order_id r, delivery_category r, review_score r))
                                  sales_data))))))
        (List.filter (λ c, bool_decide (Some c ∈ map delivery_category sales_data))
                     category_order).
Proof.
  intros Hcat. unfold calculate_review_by_delivery_speed, groupby, group_rows.
  set (triples := drop_duplicates
                    (map (λ r, (order_id r, delivery_category r, review_score r))
                         sales_data)).
  assert (Hkeys : group_keys string_leb
                    (λ t : string * option string * option Z, t.1.2) triples
                  = List.filter
                      (λ c, bool_decide (Some c ∈ map delivery_category sales_data))
                      category_order).
  { assert (Htrans : Transitive (λ a b, string_leb a b = true)).
    { intros x y z. apply string_leb_trans. }
    assert (Hanti : AntiSymm (=) (λ a b, string_leb a b = true)).
    { intros x y. apply String.leb_antisym. }
    apply (Sorted_unique (λ a b, string_leb a b = true)).
    - apply sort_Sorted, String.leb_total.
    - unfold category_order. cbn [List.filter].
      destruct (bool_decide _), (bool_decide _), (bool_decide _);
        repeat (constructor; try done).
    - apply NoDup_Permutation.
      + apply NoDup_group_keys.
      + apply NoDup_list_filter_bool. unfold category_order. compute_done.
      + intros c. rewrite elem_of_group_keys, elem_of_list_filter_bool, bool_decide_eq_true.
        rewrite list_elem_of_fmap. unfold triples, drop_duplicates. split.
        * intros ([[oid cat] score] & Ht & Hc). cbn in Hc. subst cat.
          apply elem_of_unique, list_elem_of_fmap in Ht as (r & [= -> Hr ->] & Hin).
          rewrite Forall_forall in Hcat. split; [by eapply Hcat|by exists r].
        * intros [_ (r & Hr & Hin)].
          exists (order_id r, delivery_category r, review_score r). split.
          -- apply elem_of_unique, list_elem_of_fmap. by exists r.
          -- done. }
  rewrite Hkeys. unfold category_order. cbn [List.filter].
  destruct (bool_decide _), (bool_decide _), (bool_decide _); reflexivity.
Qed.

Lemma review_by_delivery_speed_fixed_order_witness :
  Forall (λ r, ∀ c, delivery_category r = Some c → c ∈ category_order) slow_then_fast ∧
  calculate_review_by_delivery_speed slow_then_fast
  = [ (Some "1-3 days", Fin (Qc_of_Z 5)); (Some "8+ days", Fin (Qc_of_Z 2)) ].
Proof.
  assert (H : Forall (λ r, ∀ c, delivery_category r = Some c → c ∈ category_order)
                     slow_then_fast).
  { unfold slow_then_fast, category_order.
    constructor; [intros c [= <-]; right; right; by left|].
    constructor; [intros c [= <-]; by left|]. constructor. }
  split; [exact H|].
  rewrite (review_by_delivery_speed_fixed_order slow_then_fast H). by compute_done.
Defined.

(** ** dashboard.py: the state table of the map *)

(** X28. The table behind the state map has exactly one row for each of
    the 51 listed states, in the order of that list, whatever the sales
    data: the state's revenue, which is 0 for a listed state without sales.
    Revenue of a state that is not in the list appears nowhere. *)
Theorem state_revenue_complete_rows (sales_data : DataFrame) :
  map fst (state_revenue_complete (calculate_revenue_by_state sales_data))
  = all_us_states ∧
  ∀ s v, (s, v) ∈ state_revenue_complete (calculate_revenue_by_state sales_data) ↔
         s ∈ all_us_states ∧
         v = calculate_total_revenue
               (filter (λ r, customer_state r = Some s) sales_data).
Proof.
  assert (Hperm : calculate_revenue_by_state sales_data
                  ≡ₚ groupby string_leb customer_state sum_price sales_data)
    by apply sort_perm.
  destruct (groupby_revenue_grouped_by string_leb customer_state sales_data)
    as [Hnd Hin].
  assert (Hnd' : NoDup (map fst (calculate_revenue_by_state sales_data)))
    by (by rewrite (Permutation_map fst Hperm)).
  unfold state_revenue_complete.
  rewrite (merge_left_unique id fst _ _ _ Hnd').
  split.
  - rewrite map_map. apply map_id.
  - intros s v. rewrite list_elem_of_fmap. unfold id.
    assert (Hval : default 0%Qc
                     (snd <$> List.find (λ row : string * Qc, bool_decide (row.1 = s))
                                (calculate_revenue_by_state sales_data))
                   = calculate_total_revenue
                       (filter (λ r, customer_state r = Some s) sales_data)).
    { destruct (List.find _ _) as [[s' v']|] eqn:Hfind.
      - apply find_some in Hfind as [Hrow Hs]. apply bool_decide_eq_true in Hs.
        cbn in Hs. subst s'. apply list_elem_of_In in Hrow. rewrite Hperm in Hrow.
        apply Hin in Hrow as [_ ->]. done.
      - cbn. unfold calculate_total_revenue.
        destruct (filter (λ r, customer_state r = Some s) sales_data) as [|r t] eqn:Hf;
          [done|].
        assert (Hr : r ∈ filter (λ r, customer_state r = Some s) sales_data)
          by (rewrite Hf; by left).
        apply list_elem_of_filter in Hr as [Hs Hr].
        assert (Hrow : (s, sum (map price (filter (λ r, customer_state r = Some s)
                                             sales_data)))
                       ∈ calculate_revenue_by_state sales_data).
        { rewrite Hperm. apply Hin. split; [by exists r|done]. }
        apply list_elem_of_In in Hrow.
        apply (find_none _ _ Hfind) in Hrow. by apply bool_decide_eq_false in Hrow. }
    split.
    + intros (s' & [= -> ->] & Hs). split; [done|]. exact Hval.
    + intros [Hs ->]. exists s. split; [|done]. f_equal. symmetry. exact Hval.
Qed.
